(** * PriceMorphe: platform detection, extraction, dataset polling, tracking

    A shallow embedding of the tool server
    ([build/src/server.js]), of its scraper service and of its product
    service, with the properties the specification states about them.

    JavaScript strings are modelled as [string] (a sequence of 8-bit
    characters); the external libraries (cheerio, the URL class, the HTTP
    provider, the Prisma client) are interfaces, each with a small executable
    instance used to run the code on fixtures. *)

From Stdlib Require Import String Ascii List Bool Arith ZArith Lia Sorted DecimalString.
Import ListNotations.

Local Open Scope list_scope.
Local Open Scope string_scope.

(** * Part I: the embedding *)

(** ** JavaScript string primitives *)

Module Js.

(** [s.startsWith(p)] *)
Definition startsWith (s p : string) : bool := String.prefix p s.

(** [s.includes(t)]: [t] occurs in [s] as a contiguous substring. *)
Fixpoint includes (s t : string) : bool :=
  if startsWith s t then true
  else match s with
       | EmptyString => false
       | String _ s' => includes s' t
       end.

(** Truthiness of a string: every string but the empty one. *)
Definition truthy (s : string) : bool :=
  match s with EmptyString => false | String _ _ => true end.

(** White space as [trim] and [parseFloat] skip it (the ASCII part:
    TAB, LF, VT, FF, CR and SPACE). *)
Definition is_space (c : ascii) : bool :=
  let n := nat_of_ascii c in
  ((n =? 32) || ((9 <=? n) && (n <=? 13)))%nat.

Definition is_digit (c : ascii) : bool :=
  let n := nat_of_ascii c in
  ((48 <=? n) && (n <=? 57))%nat.

Fixpoint trimStart (s : string) : string :=
  match s with
  | EmptyString => EmptyString
  | String c s' => if is_space c then trimStart s' else s
  end.

Fixpoint trimEnd (s : string) : string :=
  match s with
  | EmptyString => EmptyString
  | String c s' =>
      match trimEnd s' with
      | EmptyString => if is_space c then EmptyString else String c EmptyString
      | t => String c t
      end
  end.

(** [s.trim()] *)
Definition trim (s : string) : string := trimEnd (trimStart s).

Fixpoint drop (n : nat) (s : string) : string :=
  match n, s with
  | O, _ => s
  | S _, EmptyString => EmptyString
  | S n', String _ s' => drop n' s'
  end.

(** [s.replace(pat, rep)] with a string pattern: only the first occurrence
    is replaced. *)
Fixpoint replace (s pat rep : string) : string :=
  if startsWith s pat then rep ++ drop (String.length pat) s
  else match s with
       | EmptyString => EmptyString
       | String c s' => String c (replace s' pat rep)
       end.

Fixpoint filter_chars (keep : ascii -> bool) (s : string) : string :=
  match s with
  | EmptyString => EmptyString
  | String c s' =>
      if keep c then String c (filter_chars keep s') else filter_chars keep s'
  end.

(** [s.replace(/[^0-9.]/g, "")] *)
Definition strip_non_numeric (s : string) : string :=
  filter_chars (fun c => is_digit c || Ascii.eqb c ".") s.

(** [s.replace(/[^0-9]/g, "")] *)
Definition strip_non_digits (s : string) : string :=
  filter_chars is_digit s.

(** Numbers as the parsers produce them.  [parseFloat] and [parseInt] read
    the longest prefix that is a numeric literal and convert it to a double;
    the conversion is left out, the literal that was read is kept.  [NaN] is
    what they return when no prefix is a literal. *)
Inductive number : Type :=
| NaN
| Num (literal : string).

Fixpoint take_while (p : ascii -> bool) (s : string) : string :=
  match s with
  | EmptyString => EmptyString
  | String c s' => if p c then String c (take_while p s') else EmptyString
  end.

Fixpoint drop_while (p : ascii -> bool) (s : string) : string :=
  match s with
  | EmptyString => EmptyString
  | String c s' => if p c then drop_while p s' else s
  end.

(** The sign of a literal: the sign read and the rest. *)
Definition read_sign (s : string) : string * string :=
  match s with
  | String "+" s' => ("+", s')
  | String "-" s' => ("-", s')
  | _ => ("", s)
  end.

(** ExponentPart: [e] or [E], an optional sign, at least one digit. *)
Definition read_exponent (s : string) : string :=
  match s with
  | String c s' =>
      if Ascii.eqb c "e" || Ascii.eqb c "E" then
        let (sg, r) := read_sign s' in
        match take_while is_digit r with
        | EmptyString => ""
        | ds => String c (sg ++ ds)
        end
      else ""
  | EmptyString => ""
  end.

(** StrUnsignedDecimalLiteral, longest prefix; [None] when there is none. *)
Definition read_unsigned_decimal (s : string) : option string :=
  if startsWith s "Infinity" then Some "Infinity"
  else
    let int_part := take_while is_digit s in
    let r := drop_while is_digit s in
    match r with
    | String "." r' =>
        let frac := take_while is_digit r' in
        if truthy int_part || truthy frac then
          Some (int_part ++ "." ++ frac ++ read_exponent (drop_while is_digit r'))
        else None
    | _ =>
        if truthy int_part then Some (int_part ++ read_exponent r) else None
    end.

(** [parseFloat(s)] *)
Definition parseFloat (s : string) : number :=
  let (sg, r) := read_sign (trimStart s) in
  match read_unsigned_decimal r with
  | Some lit => Num (sg ++ lit)
  | None => NaN
  end.

Definition is_hex_digit (c : ascii) : bool :=
  let n := nat_of_ascii c in
  is_digit c || ((65 <=? n) && (n <=? 70))%nat || ((97 <=? n) && (n <=? 102))%nat.

(** [parseInt(s)] with no radix: decimal digits, or hexadecimal ones after
    [0x] or [0X]. *)
Definition parseInt (s : string) : number :=
  let (sg, r) := read_sign (trimStart s) in
  if startsWith r "0x" || startsWith r "0X" then
    match take_while is_hex_digit (drop 2 r) with
    | EmptyString => NaN
    | ds => Num (sg ++ "0x" ++ ds)
    end
  else
    match take_while is_digit r with
    | EmptyString => NaN
    | ds => Num (sg ++ ds)
    end.

Definition hex_digit (n : nat) : ascii :=
  if (n <? 10)%nat then ascii_of_nat (48 + n) else ascii_of_nat (55 + n).

(** Characters [encodeURIComponent] leaves as they are. *)
Definition is_unreserved (c : ascii) : bool :=
  let n := nat_of_ascii c in
  is_digit c
  || ((65 <=? n) && (n <=? 90))%nat
  || ((97 <=? n) && (n <=? 122))%nat
  || existsb (Ascii.eqb c) ["-"; "_"; "."; "!"; "~"; "*"; "'"; "("; ")"]%char.

(** [encodeURIComponent(s)]: every other byte becomes [%XX]. *)
Fixpoint encodeURIComponent (s : string) : string :=
  match s with
  | EmptyString => EmptyString
  | String c s' =>
      if is_unreserved c then String c (encodeURIComponent s')
      else
        let n := nat_of_ascii c in
        String "%" (String (hex_digit (n / 16))
                      (String (hex_digit (n mod 16)) (encodeURIComponent s')))
  end.

(** The double quote character, as a string. *)
Definition dquote : string := String (ascii_of_nat 34) EmptyString.

(** [a || b] on strings. *)
Definition or_else (a b : string) : string := if truthy a then a else b.

End Js.

(** ** Platform detection and fetch strategy ([server.js], helper functions) *)

Module Platform.

(** [detect_platform(url)] *)
Definition detect_platform (url : string) : string :=
  if Js.includes url "amazon." then "amazon"
  else if Js.includes url "ebay." then "ebay"
  else if Js.includes url "walmart." then "walmart"
  else if Js.includes url "etsy." then "etsy"
  else if Js.includes url "bestbuy." then "bestbuy"
  else if Js.includes url "homedepot." then "homedepot"
  else if Js.includes url "zara." then "zara"
  else "unknown".

(** The object literal of [get_dataset_id], in the order it is written. *)
Definition dataset_map : list (string * string) :=
  [ ("amazon", "gd_l7q7dkf244hwjntr0");
    ("bestbuy", "gd_ltre1jqe1jfr7cccf");
    ("ebay", "gd_ltr9mjt81n0zzdk1fb");
    ("etsy", "gd_ltppk0jdv1jqz25mz");
    ("homedepot", "gd_lmusivh019i7g97q2n");
    ("unknown", "");
    ("walmart", "gd_l95fol7l1ru6rlo116");
    ("zara", "gd_lct4vafw1tgx27d4o0") ].

Fixpoint lookup (k : string) (m : list (string * string)) : option string :=
  match m with
  | [] => None
  | (k', v) :: m' => if String.eqb k k' then Some v else lookup k m'
  end.

(** [get_dataset_id(platform)]: [dataset_map[platform] || undefined], so a
    missing key and the empty string both give [None]. *)
Definition get_dataset_id (platform : string) : option string :=
  match lookup platform dataset_map with
  | Some id => if Js.truthy id then Some id else None
  | None => None
  end.

(** The specification's wording of the detector: the fixed list of domain
    fragments with their tags, tested in order. *)
Definition platform_fragments : list (string * string) :=
  [ ("amazon.", "amazon"); ("ebay.", "ebay"); ("walmart.", "walmart");
    ("etsy.", "etsy"); ("bestbuy.", "bestbuy"); ("homedepot.", "homedepot");
    ("zara.", "zara") ].

(** [t] occurs in [s]: substring containment as a proposition. *)
Definition contains (s t : string) : Prop :=
  exists a b : string, s = a ++ t ++ b.

(** First match wins: the tag of the first fragment contained in the URL,
    ["unknown"] when there is none. *)
Definition first_fragment_tag (url : string) : string :=
  match find (fun ft => Js.includes url (fst ft)) platform_fragments with
  | Some ft => snd ft
  | None => "unknown"
  end.

End Platform.

(** ** Values thrown *)

(** Every value the code throws or receives as a rejection is an [Error]
    object with a message: [new Error(msg)], the [TypeError] of the runtime
    ([new URL] on an invalid URL, a property read on [null]), the error of
    the HTTP client, the error of the database client. *)
Inductive exn : Type :=
| Error (message : string)
| TypeError (message : string)
| AxiosError (message : string)
| PrismaError (message : string).

Definition message (e : exn) : string :=
  match e with
  | Error m | TypeError m | AxiosError m | PrismaError m => m
  end.

(** ** The interfaces of the external libraries *)

Module Url.

(** What the code reads from [new URL(s)]. *)
Record t : Type := { origin : string; hostname : string }.

(** [new URL(s)]: [None] when the constructor throws (invalid URL). *)
Class Api : Type := { parse : string -> option t }.

End Url.

Module Cheerio.

(** The part of cheerio the scraper uses.  A selection (what [$(...)],
    [.find] and [.first] return) is the list of its elements in document
    order. *)
Class Api : Type := {
  Document : Type;
  Element : Type;
  (** [cheerio.load(html)] *)
  load : string -> Document;
  (** [$(selector)] *)
  select : Document -> string -> list Element;
  (** [selection.find(selector)] *)
  find : list Element -> string -> list Element;
  (** [selection.text()] *)
  text : list Element -> string;
  (** [selection.attr(name)]; [None] is [undefined] *)
  attr : list Element -> string -> option string;
  (** [selection.hasClass(name)] *)
  hasClass : list Element -> string -> bool
}.

(** [selection.first()] *)
Definition first {A : Type} (sel : list A) : list A := firstn 1 sel.

(** [selection.each((_, element) => body)], the body updating the
    variables it closes over (here: the state [S]). *)
Definition each {A S : Type} (sel : list A) (body : S -> A -> S) (init : S) : S :=
  fold_left body sel init.

End Cheerio.

(** ** The scraper service ([ScraperService]) *)

Module Variant.
Record t : Type := {
  available : bool;
  name : string;
  price : option Js.number   (* [None]: the property is not set (zara) *)
}.
End Variant.

Module Product.
(** The normalized detail record.  An [option] field is [None] when the
    platform's parser does not set the property, or, for [image], when the
    attribute read is [undefined]. *)
Record t : Type := {
  availability : option string;
  brand : option string;
  currency : string;
  description : string;
  image : option string;
  name : string;
  platform : string;
  price : Js.number;
  rating : option Js.number;
  seller : option string;
  specifications : list (string * string);
  url : string;
  variants : option (list Variant.t)
}.
End Product.

Module SearchResult.
Record t : Type := {
  currency : string;
  image : option string;
  name : string;
  platform : string;
  price : Js.number;
  rating : option Js.number;
  reviews : option Js.number;
  url : string
}.
End SearchResult.

Module Scraper.

(** [obj[key] = value] on an object used as a map: an existing key keeps its
    place and takes the new value, a new key goes last (the labels are taken
    not to be array indices, which an object lists first). *)
Fixpoint obj_set (o : list (string * string)) (key value : string)
  : list (string * string) :=
  match o with
  | [] => [(key, value)]
  | (k, v) :: o' =>
      if String.eqb key k then (k, value) :: o' else (k, v) :: obj_set o' key value
  end.

(** [array.push(x)] *)
Definition push {A : Type} (l : list A) (x : A) : list A := (l ++ [x])%list.

(** [href ? (href.startsWith("http") ? href : baseUrl + href) : ""] *)
Definition absolute_url (baseUrl : string) (href : option string) : string :=
  match href with
  | Some h =>
      if Js.truthy h then
        if Js.startsWith h "http" then h else baseUrl ++ h
      else ""
  | None => ""
  end.

(** The selector [[name="value"]], the value between double quotes. *)
Definition attr_selector (name value : string) : string :=
  "[" ++ name ++ "=" ++ Js.dquote ++ value ++ Js.dquote ++ "]".

(** [baseUrl + href] where [href] may be [undefined]. *)
Definition concat_undefined (baseUrl : string) (href : option string) : string :=
  match href with
  | Some h => baseUrl ++ h
  | None => baseUrl ++ "undefined"
  end.

Section WithLibraries.

Context {dom : Cheerio.Api} {urls : Url.Api}.

Notation "$ x" := [x] (at level 9, x at level 9, only parsing).

(** The loop shared by the specification tables: for each row, a label and a
    value; both must be non-empty. *)
Definition collect_specifications (rows : list Cheerio.Element)
  (label_sel value_sel : string) : list (string * string) :=
  Cheerio.each rows
    (fun specifications elem =>
       let label := Js.trim (Cheerio.text (Cheerio.find ($ elem) label_sel)) in
       let value := Js.trim (Cheerio.text (Cheerio.find ($ elem) value_sel)) in
       if Js.truthy label && Js.truthy value
       then obj_set specifications label value
       else specifications)
    [].

Definition parseAmazonProduct (doc : Cheerio.Document) (baseUrl : string) : Product.t :=
  let name := Js.trim (Cheerio.text (Cheerio.select doc "#productTitle")) in
  let priceWhole :=
    Js.strip_non_numeric
      (Js.trim (Cheerio.text
                  (Cheerio.select doc "#priceblock_ourprice, #price_inside_buybox"))) in
  let description :=
    Js.trim (Cheerio.text (Cheerio.select doc "#feature-bullets, #productDescription")) in
  let brand := Js.trim (Cheerio.text (Cheerio.select doc "#bylineInfo")) in
  let rating :=
    Js.parseFloat (Cheerio.text (Cheerio.select doc "#averageCustomerReviews .a-icon-alt")) in
  let availability := Js.trim (Cheerio.text (Cheerio.select doc "#availability")) in
  let seller := Js.trim (Cheerio.text (Cheerio.select doc "#merchant-info")) in
  let image := Cheerio.attr (Cheerio.select doc "#landingImage") "src" in
  let specifications :=
    collect_specifications
      (Cheerio.select doc "#productDetails_techSpec_section_1 tr") "th" "td" in
  let variants :=
    Cheerio.each (Cheerio.select doc "#variation_color_name .swatches li")
      (fun variants elem =>
         let variant :=
           {| Variant.available := negb (Cheerio.hasClass ($ elem) "swatchUnavailable");
              Variant.name :=
                match Cheerio.attr ($ elem) "title" with
                | Some t => Js.or_else t ""
                | None => ""
                end;
              Variant.price :=
                Some (Js.parseFloat
                        (Js.strip_non_numeric
                           (Cheerio.text (Cheerio.find ($ elem) ".a-color-price")))) |} in
         if Js.truthy (Variant.name variant) then push variants variant else variants)
      [] in
  {| Product.availability := Some availability;
     Product.brand := Some brand;
     Product.currency := "USD";
     Product.description := description;
     Product.image := image;
     Product.name := name;
     Product.platform := "amazon";
     Product.price := Js.parseFloat priceWhole;
     Product.rating := Some rating;
     Product.seller := Some seller;
     Product.specifications := specifications;
     Product.url := baseUrl;
     Product.variants := Some variants |}.

Definition parseAmazonSearch (doc : Cheerio.Document) (baseUrl : string)
  : list SearchResult.t :=
  Cheerio.each (Cheerio.select doc ".s-result-item[data-asin]")
    (fun products element =>
       let el := $ element in
       let name := Js.trim (Cheerio.text (Cheerio.find el "h2 span")) in
       let priceWhole :=
         Js.trim (Cheerio.text (Cheerio.first (Cheerio.find el ".a-price-whole"))) in
       let priceFraction :=
         Js.trim (Cheerio.text (Cheerio.first (Cheerio.find el ".a-price-fraction"))) in
       let rating :=
         Js.parseFloat
           (Cheerio.text
              (Cheerio.first (Cheerio.find el ".a-icon-star-small .a-icon-alt"))) in
       let reviews :=
         Js.parseInt
           (Js.strip_non_digits
              (Cheerio.text
                 (Cheerio.first (Cheerio.find el ".a-size-base.s-underline-text")))) in
       let href := Cheerio.attr (Cheerio.find el "h2 a") "href" in
       let url := absolute_url baseUrl href in
       let image := Cheerio.attr (Cheerio.find el "img.s-image") "src" in
       if Js.truthy name && (Js.truthy priceWhole || Js.truthy priceFraction)
          && Js.truthy url
       then
         push products
           {| SearchResult.currency := "USD";
              SearchResult.image := image;
              SearchResult.name := name;
              SearchResult.platform := "amazon";
              SearchResult.price := Js.parseFloat (priceWhole ++ "." ++ priceFraction);
              SearchResult.rating := Some rating;
              SearchResult.reviews := Some reviews;
              SearchResult.url := url |}
       else products)
    [].

Definition parseBestBuyProduct (doc : Cheerio.Document) (baseUrl : string) : Product.t :=
  let name := Js.trim (Cheerio.text (Cheerio.select doc ".sku-title h1")) in
  let priceText :=
    Js.strip_non_numeric
      (Cheerio.text (Cheerio.first (Cheerio.select doc ".priceView-customer-price span"))) in
  let description := Js.trim (Cheerio.text (Cheerio.select doc ".product-description")) in
  let brand :=
    Js.trim (Cheerio.text (Cheerio.first (Cheerio.select doc ".product-data-value"))) in
  let availability :=
    Js.trim (Cheerio.text (Cheerio.select doc ".fulfillment-add-to-cart-button")) in
  let image := Cheerio.attr (Cheerio.select doc ".primary-image") "src" in
  let specifications :=
    collect_specifications (Cheerio.select doc ".product-data-item")
      ".product-data-key" ".product-data-value" in
  {| Product.availability := Some availability;
     Product.brand := Some brand;
     Product.currency := "USD";
     Product.description := description;
     Product.image := image;
     Product.name := name;
     Product.platform := "bestbuy";
     Product.price := Js.parseFloat priceText;
     Product.rating := None;
     Product.seller := None;
     Product.specifications := specifications;
     Product.url := baseUrl;
     Product.variants := None |}.

Definition parseBestBuySearch (doc : Cheerio.Document) (baseUrl : string)
  : list SearchResult.t :=
  Cheerio.each (Cheerio.select doc ".sku-item")
    (fun products element =>
       let el := $ element in
       let name := Js.trim (Cheerio.text (Cheerio.find el ".sku-header")) in
       let priceText :=
         Js.replace
           (Js.replace
              (Cheerio.text
                 (Cheerio.first (Cheerio.find el ".priceView-customer-price span")))
              "$" "")
           "," "" in
       let href := Cheerio.attr (Cheerio.find el ".sku-header a") "href" in
       let url := absolute_url baseUrl href in
       let image := Cheerio.attr (Cheerio.find el "img.product-image") "src" in
       if Js.truthy name && Js.truthy priceText && Js.truthy url
       then
         push products
           {| SearchResult.currency := "USD";
              SearchResult.image := image;
              SearchResult.name := name;
              SearchResult.platform := "bestbuy";
              SearchResult.price := Js.parseFloat priceText;
              SearchResult.rating := None;
              SearchResult.reviews := None;
              SearchResult.url := url |}
       else products)
    [].

Definition parseEbayProduct (doc : Cheerio.Document) (baseUrl : string) : Product.t :=
  let name :=
    Js.trim (Js.replace (Cheerio.text (Cheerio.select doc "#itemTitle")) "Details about" "") in
  let priceText :=
    Js.strip_non_numeric (Js.trim (Cheerio.text (Cheerio.select doc "#prcIsum"))) in
  let description := Js.trim (Cheerio.text (Cheerio.select doc "#ds_div")) in
  let seller := Js.trim (Cheerio.text (Cheerio.select doc ".mbg-nw")) in
  let availability := Js.trim (Cheerio.text (Cheerio.select doc "#qtySubTxt")) in
  let image := Cheerio.attr (Cheerio.select doc "#icImg") "src" in
  let condition := Js.trim (Cheerio.text (Cheerio.select doc "#vi-itm-cond")) in
  let specifications :=
    collect_specifications (Cheerio.select doc ".itemAttr table tr") "th" "td" in
  {| Product.availability := Some availability;
     Product.brand := None;
     Product.currency := "USD";
     Product.description := description;
     Product.image := image;
     Product.name := name;
     Product.platform := "ebay";
     Product.price := Js.parseFloat priceText;
     Product.rating := None;
     Product.seller := Some seller;
     (* [{ ...specifications, condition }] *)
     Product.specifications := obj_set specifications "condition" condition;
     Product.url := baseUrl;
     Product.variants := None |}.

Definition parseEbaySearch (doc : Cheerio.Document) (baseUrl : string)
  : list SearchResult.t :=
  Cheerio.each (Cheerio.select doc ".s-item")
    (fun products element =>
       let el := $ element in
       let name := Js.trim (Cheerio.text (Cheerio.find el ".s-item__title")) in
       let priceText :=
         Js.replace
           (Js.replace (Js.trim (Cheerio.text (Cheerio.find el ".s-item__price"))) "$" "")
           "," "" in
       let href := Cheerio.attr (Cheerio.find el ".s-item__link") "href" in
       let url := absolute_url baseUrl href in
       let image := Cheerio.attr (Cheerio.find el ".s-item__image-img") "src" in
       if Js.truthy name && Js.truthy priceText && Js.truthy url
       then
         push products
           {| SearchResult.currency := "USD";
              SearchResult.image := image;
              SearchResult.name := name;
              SearchResult.platform := "ebay";
              SearchResult.price := Js.parseFloat priceText;
              SearchResult.rating := None;
              SearchResult.reviews := None;
              SearchResult.url := url |}
       else products)
    [].

Definition parseEtsyProduct (doc : Cheerio.Document) (baseUrl : string) : Product.t :=
  let name :=
    Js.trim (Cheerio.text (Cheerio.first (Cheerio.select doc ".wt-text-body-01"))) in
  let priceText :=
    Js.strip_non_numeric
      (Cheerio.text (Cheerio.first (Cheerio.select doc ".wt-text-title-03"))) in
  let description :=
    Js.trim (Cheerio.text (Cheerio.select doc "#product-description-content")) in
  let seller :=
    Js.trim (Cheerio.text (Cheerio.select doc ".shop-name-and-title-container")) in
  let image := Cheerio.attr (Cheerio.first (Cheerio.select doc ".carousel-image")) "src" in
  let specifications :=
    collect_specifications (Cheerio.select doc ".wt-grid__item-xs-12")
      ".wt-text-caption" ".wt-text-body-01" in
  {| Product.availability := None;
     Product.brand := None;
     Product.currency := "USD";
     Product.description := description;
     Product.image := image;
     Product.name := name;
     Product.platform := "etsy";
     Product.price := Js.parseFloat priceText;
     Product.rating := None;
     Product.seller := Some seller;
     Product.specifications := specifications;
     Product.url := baseUrl;
     Product.variants := None |}.

Definition parseEtsySearch (doc : Cheerio.Document) (baseUrl : string)
  : list SearchResult.t :=
  Cheerio.each (Cheerio.select doc ".v2-listing-card")
    (fun products element =>
       let el := $ element in
       let name := Js.trim (Cheerio.text (Cheerio.find el ".v2-listing-card__title")) in
       let priceText :=
         Js.replace
           (Cheerio.text (Cheerio.first (Cheerio.find el ".currency-value"))) "," "" in
       let href := Cheerio.attr (Cheerio.find el ".listing-link") "href" in
       let url := absolute_url baseUrl href in
       let image := Cheerio.attr (Cheerio.find el "img.main-image") "src" in
       if Js.truthy name && Js.truthy priceText && Js.truthy url
       then
         push products
           {| SearchResult.currency := "USD";
              SearchResult.image := image;
              SearchResult.name := name;
              SearchResult.platform := "etsy";
              SearchResult.price := Js.parseFloat priceText;
              SearchResult.rating := None;
              SearchResult.reviews := None;
              SearchResult.url := url |}
       else products)
    [].

Definition parseHomeDepotProduct (doc : Cheerio.Document) (baseUrl : string) : Product.t :=
  let name := Js.trim (Cheerio.text (Cheerio.select doc ".product-title__title")) in
  let priceText :=
    Js.strip_non_numeric (Cheerio.text (Cheerio.select doc ".price-format__main-price")) in
  let description := Js.trim (Cheerio.text (Cheerio.select doc ".product-description")) in
  let brand := Js.trim (Cheerio.text (Cheerio.select doc ".product-details__brand-name")) in
  let availability := Js.trim (Cheerio.text (Cheerio.select doc ".product-availability")) in
  let image := Cheerio.attr (Cheerio.select doc ".highlight-image") "src" in
  let specifications :=
    collect_specifications (Cheerio.select doc ".specifications__list li")
      ".specifications__name" ".specifications__value" in
  {| Product.availability := Some availability;
     Product.brand := Some brand;
     Product.currency := "USD";
     Product.description := description;
     Product.image := image;
     Product.name := name;
     Product.platform := "homedepot";
     Product.price := Js.parseFloat priceText;
     Product.rating := None;
     Product.seller := None;
     Product.specifications := specifications;
     Product.url := baseUrl;
     Product.variants := None |}.

Definition parseHomeDepotSearch (doc : Cheerio.Document) (baseUrl : string)
  : list SearchResult.t :=
  Cheerio.each (Cheerio.select doc ".product-pod")
    (fun products element =>
       let el := $ element in
       let name := Js.trim (Cheerio.text (Cheerio.find el ".product-pod--title")) in
       let priceText :=
         Js.replace
           (Js.replace (Cheerio.text (Cheerio.find el ".price__dollars")) "$" "")
           "," "" in
       let href := Cheerio.attr (Cheerio.find el ".product-pod--link") "href" in
       let url := absolute_url baseUrl href in
       let image := Cheerio.attr (Cheerio.find el ".product-pod--photo img") "src" in
       if Js.truthy name && Js.truthy priceText && Js.truthy url
       then
         push products
           {| SearchResult.currency := "USD";
              SearchResult.image := image;
              SearchResult.name := name;
              SearchResult.platform := "homedepot";
              SearchResult.price := Js.parseFloat priceText;
              SearchResult.rating := None;
              SearchResult.reviews := None;
              SearchResult.url := url |}
       else products)
    [].

Definition parseWalmartProduct (doc : Cheerio.Document) (baseUrl : string) : Product.t :=
  let name :=
    Js.trim (Cheerio.text (Cheerio.select doc (attr_selector "data-testid" "product-title"))) in
  let priceText :=
    Js.strip_non_numeric
      (Js.trim (Cheerio.text (Cheerio.select doc (attr_selector "data-testid" "price-value")))) in
  let description := Js.trim (Cheerio.text (Cheerio.select doc ".about-product")) in
  let availability :=
    Js.trim (Cheerio.text (Cheerio.select doc ".prod-ProductOffer-oosMsg")) in
  let seller := Js.trim (Cheerio.text (Cheerio.select doc ".seller-name")) in
  let image := Cheerio.attr (Cheerio.select doc (attr_selector "data-testid" "hero-image")) "src" in
  let specifications :=
    collect_specifications (Cheerio.select doc ".specification-table td")
      ".specification-label" ".specification-value" in
  {| Product.availability := Some availability;
     Product.brand := None;
     Product.currency := "USD";
     Product.description := description;
     Product.image := image;
     Product.name := name;
     Product.platform := "walmart";
     Product.price := Js.parseFloat priceText;
     Product.rating := None;
     Product.seller := Some seller;
     Product.specifications := specifications;
     Product.url := baseUrl;
     Product.variants := None |}.

Definition parseWalmartSearch (doc : Cheerio.Document) (baseUrl : string)
  : list SearchResult.t :=
  Cheerio.each (Cheerio.select doc "[data-item-id]")
    (fun products element =>
       let el := $ element in
       let name :=
         Js.trim (Cheerio.text
                    (Cheerio.find el (attr_selector "data-automation-id" "product-title"))) in
       let priceText :=
         Js.replace
           (Js.replace
              (Cheerio.text
                 (Cheerio.find el (attr_selector "data-automation-id" "product-price")))
              "$" "")
           "," "" in
       let url := concat_undefined baseUrl (Cheerio.attr (Cheerio.find el "a") "href") in
       let image := Cheerio.attr (Cheerio.find el "img") "src" in
       if Js.truthy name && Js.truthy priceText
       then
         push products
           {| SearchResult.currency := "USD";
              SearchResult.image := image;
              SearchResult.name := name;
              SearchResult.platform := "walmart";
              SearchResult.price := Js.parseFloat priceText;
              SearchResult.rating := None;
              SearchResult.reviews := None;
              SearchResult.url := url |}
       else products)
    [].

Definition parseZaraProduct (doc : Cheerio.Document) (baseUrl : string) : Product.t :=
  let name := Js.trim (Cheerio.text (Cheerio.select doc ".product-detail-info__header h1")) in
  let priceText := Js.strip_non_numeric (Cheerio.text (Cheerio.select doc ".price__amount")) in
  let description :=
    Js.trim (Cheerio.text (Cheerio.select doc ".product-detail-description")) in
  let availability :=
    Js.trim (Cheerio.text (Cheerio.select doc ".product-detail-size-info")) in
  let image :=
    Cheerio.attr (Cheerio.first (Cheerio.select doc ".product-detail-images img")) "src" in
  let specifications :=
    collect_specifications (Cheerio.select doc ".product-detail-info__content")
      ".product-detail-info__title" ".product-detail-info__content" in
  let variants :=
    Cheerio.each (Cheerio.select doc ".size-selector__size-list button")
      (fun variants elem =>
         push variants
           {| Variant.available := negb (Cheerio.hasClass ($ elem) "is-disabled");
              Variant.name := Js.trim (Cheerio.text ($ elem));
              Variant.price := None |})
      [] in
  {| Product.availability := Some availability;
     Product.brand := None;
     Product.currency := "USD";
     Product.description := description;
     Product.image := image;
     Product.name := name;
     Product.platform := "zara";
     Product.price := Js.parseFloat priceText;
     Product.rating := None;
     Product.seller := None;
     Product.specifications := specifications;
     Product.url := baseUrl;
     Product.variants := Some variants |}.

Definition parseZaraSearch (doc : Cheerio.Document) (baseUrl : string)
  : list SearchResult.t :=
  Cheerio.each (Cheerio.select doc ".product-grid-product")
    (fun products element =>
       let el := $ element in
       let name :=
         Js.trim (Cheerio.text (Cheerio.find el ".product-grid-product-info__name")) in
       let priceText :=
         Js.replace
           (Js.replace (Cheerio.text (Cheerio.find el ".price-current__amount")) "$" "")
           "," "" in
       let url := concat_undefined baseUrl (Cheerio.attr (Cheerio.find el "a") "href") in
       let image := Cheerio.attr (Cheerio.find el "img") "src" in
       if Js.truthy name && Js.truthy priceText
       then
         push products
           {| SearchResult.currency := "USD";
              SearchResult.image := image;
              SearchResult.name := name;
              SearchResult.platform := "zara";
              SearchResult.price := Js.parseFloat priceText;
              SearchResult.rating := None;
              SearchResult.reviews := None;
              SearchResult.url := url |}
       else products)
    [].

(** [parseProductDetails(html, platform, url)]: the document is loaded and
    the URL parsed before the platform is looked at; the [default] branch
    throws. *)
Definition parseProductDetails (html platform url : string) : exn + Product.t :=
  let doc := Cheerio.load html in
  match Url.parse url with
  | None => inl (TypeError "Invalid URL")
  | Some u =>
      let baseUrl := Url.origin u in
      if String.eqb platform "amazon" then inr (parseAmazonProduct doc baseUrl)
      else if String.eqb platform "bestbuy" then inr (parseBestBuyProduct doc baseUrl)
      else if String.eqb platform "ebay" then inr (parseEbayProduct doc baseUrl)
      else if String.eqb platform "etsy" then inr (parseEtsyProduct doc baseUrl)
      else if String.eqb platform "homedepot" then inr (parseHomeDepotProduct doc baseUrl)
      else if String.eqb platform "walmart" then inr (parseWalmartProduct doc baseUrl)
      else if String.eqb platform "zara" then inr (parseZaraProduct doc baseUrl)
      else inl (Error ("Unsupported platform: " ++ platform))
  end.

(** [parseSearchResults(html, platform, baseUrl)]: the [default] branch
    returns the empty array. *)
Definition parseSearchResults (html platform baseUrl : string) : list SearchResult.t :=
  let doc := Cheerio.load html in
  if String.eqb platform "amazon" then parseAmazonSearch doc baseUrl
  else if String.eqb platform "bestbuy" then parseBestBuySearch doc baseUrl
  else if String.eqb platform "ebay" then parseEbaySearch doc baseUrl
  else if String.eqb platform "etsy" then parseEtsySearch doc baseUrl
  else if String.eqb platform "homedepot" then parseHomeDepotSearch doc baseUrl
  else if String.eqb platform "walmart" then parseWalmartSearch doc baseUrl
  else if String.eqb platform "zara" then parseZaraSearch doc baseUrl
  else [].

End WithLibraries.

(** The platform tags that have extraction rules (the [case] labels). *)
Definition supported_platforms : list string :=
  ["amazon"; "bestbuy"; "ebay"; "etsy"; "homedepot"; "walmart"; "zara"].

End Scraper.

(** ** Executable instances of the library interfaces

    Small models of cheerio and of the URL class, enough to run the scraper
    on fixtures: well-formed markup without entities, comments or doctype;
    selectors made of tags, classes, ids and attribute tests, combined by
    descendant combinators and commas; http and https URLs. *)

Module MiniDom.

#[warnings="-register-all"]
Inductive node : Type :=
| Text (s : string)
| Elem (tag : string) (attrs : list (string * string)) (children : list node).

(** The opening tag of an element: its name and attributes. *)
Definition header : Type := (string * list (string * string))%type.

(** An element of a document, with the opening tags of its ancestors,
    nearest first. *)
Record element : Type := {
  ancestors : list header;
  tag : string;
  attrs : list (string * string);
  children : list node
}.

Definition is_name_char (c : ascii) : bool :=
  let n := nat_of_ascii c in
  Js.is_digit c
  || ((65 <=? n) && (n <=? 90))%nat
  || ((97 <=? n) && (n <=? 122))%nat
  || Ascii.eqb c "-" || Ascii.eqb c "_".

Definition void_tags : list string := ["img"; "br"; "hr"; "input"; "meta"; "link"].

Definition is_void (t : string) : bool := existsb (String.eqb t) void_tags.

(** The value of an attribute after [=]: quoted or bare. *)
Definition read_value (s : string) : string * string :=
  match s with
  | String q r =>
      if Ascii.eqb q (ascii_of_nat 34) || Ascii.eqb q "'" then
        (Js.take_while (fun c => negb (Ascii.eqb c q)) r,
         Js.drop 1 (Js.drop_while (fun c => negb (Ascii.eqb c q)) r))
      else
        let bare c := negb (Js.is_space c || Ascii.eqb c ">" || Ascii.eqb c "/") in
        (Js.take_while bare s, Js.drop_while bare s)
  | EmptyString => ("", "")
  end.

(** The attributes of an opening tag, whether it closes itself, and what
    follows the tag. *)
Fixpoint read_attrs (fuel : nat) (s : string)
  : list (string * string) * bool * string :=
  match fuel with
  | O => ([], false, s)
  | S fuel' =>
      match Js.trimStart s with
      | EmptyString => ([], false, "")
      | String ">" r => ([], false, r)
      | String "/" (String ">" r) => ([], true, r)
      | String c r as s1 =>
          if is_name_char c then
            let name := Js.take_while is_name_char s1 in
            let r1 := Js.drop_while is_name_char s1 in
            match r1 with
            | String "=" r2 =>
                let (v, r3) := read_value r2 in
                let '(rest, closed, r4) := read_attrs fuel' r3 in
                ((name, v) :: rest, closed, r4)
            | _ =>
                let '(rest, closed, r4) := read_attrs fuel' r1 in
                ((name, "") :: rest, closed, r4)
            end
          else read_attrs fuel' r
      end
  end.

(** The nodes up to the closing tag of the enclosing element (or the end of
    the input), and what follows that closing tag. *)
Fixpoint parse_nodes (fuel : nat) (s : string) : list node * string :=
  match fuel with
  | O => ([], s)
  | S fuel' =>
      match s with
      | EmptyString => ([], "")
      | String "<" (String "/" r) =>
          ([], Js.drop 1 (Js.drop_while (fun c => negb (Ascii.eqb c ">")) r))
      | String "<" r =>
          let name := Js.take_while is_name_char r in
          let '(ats, closed, r1) := read_attrs fuel' (Js.drop_while is_name_char r) in
          if closed || is_void name then
            let (siblings, r2) := parse_nodes fuel' r1 in
            (Elem name ats [] :: siblings, r2)
          else
            let (kids, r2) := parse_nodes fuel' r1 in
            let (siblings, r3) := parse_nodes fuel' r2 in
            (Elem name ats kids :: siblings, r3)
      | _ =>
          let is_text c := negb (Ascii.eqb c "<") in
          let (siblings, r1) := parse_nodes fuel' (Js.drop_while is_text s) in
          (Text (Js.take_while is_text s) :: siblings, r1)
      end
  end.

Definition parse_html (html : string) : list node :=
  fst (parse_nodes (S (String.length html)) html).

(** *** Selectors *)

Inductive simple : Type :=
| STag (t : string)
| SClass (c : string)
| SId (i : string)
| SAttr (a : string)
| SAttrEq (a v : string).

(** A compound selector: all of its simple selectors hold of one element. *)
Definition compound : Type := list simple.

(** A chain of compounds joined by descendant combinators. *)
Definition chain : Type := list compound.

Fixpoint split_on (sep : ascii) (s : string) : list string :=
  match s with
  | EmptyString => [EmptyString]
  | String c s' =>
      if Ascii.eqb c sep then EmptyString :: split_on sep s'
      else match split_on sep s' with
           | [] => [String c EmptyString]
           | w :: ws => String c w :: ws
           end
  end.

Definition words (s : string) : list string :=
  filter Js.truthy (split_on " " s).

Definition unquote (s : string) : string :=
  let q c := Ascii.eqb c (ascii_of_nat 34) || Ascii.eqb c "'" in
  Js.filter_chars (fun c => negb (q c)) s.

(** One simple selector from its leading character and its text. *)
Definition make_simple (kind : ascii) (body : string) : list simple :=
  if Ascii.eqb kind "." then [SClass body]
  else if Ascii.eqb kind "#" then [SId body]
  else if Ascii.eqb kind "[" then
    match split_on "=" body with
    | [a] => [SAttr a]
    | a :: v :: _ => [SAttrEq a (unquote v)]
    | [] => []
    end
  else if Js.truthy body then [STag body] else [].

(** The simple selectors of a compound, read left to right; [kind] and [buf]
    are the selector being read. *)
Fixpoint parse_compound (kind : ascii) (buf : string) (s : string) : compound :=
  match s with
  | EmptyString => make_simple kind buf
  | String c s' =>
      if Ascii.eqb c "." || Ascii.eqb c "#" || Ascii.eqb c "[" then
        (make_simple kind buf ++ parse_compound c "" s')%list
      else if Ascii.eqb c "]" then
        (make_simple kind buf ++ parse_compound " " "" s')%list
      else parse_compound kind (buf ++ String c "") s'
  end.

Definition parse_chain (s : string) : chain :=
  map (parse_compound " " "") (words s).

Definition parse_selector (s : string) : list chain :=
  map parse_chain (split_on "," s).

Definition get_attr (ats : list (string * string)) (a : string) : option string :=
  Platform.lookup a ats.

Definition has_class (ats : list (string * string)) (c : string) : bool :=
  match get_attr ats "class" with
  | Some v => existsb (String.eqb c) (words v)
  | None => false
  end.

Definition matches_simple (h : header) (s : simple) : bool :=
  match s with
  | STag t => String.eqb (fst h) t
  | SClass c => has_class (snd h) c
  | SId i => match get_attr (snd h) "id" with
             | Some v => String.eqb v i
             | None => false
             end
  | SAttr a => match get_attr (snd h) a with Some _ => true | None => false end
  | SAttrEq a v => match get_attr (snd h) a with
                   | Some w => String.eqb w v
                   | None => false
                   end
  end.

Definition matches_compound (h : header) (c : compound) : bool :=
  forallb (matches_simple h) c.

(** The compounds [cs] (innermost first) are matched, in order, by some of
    the ancestors [anc] (nearest first). *)
Fixpoint matches_ancestors (anc : list header) (cs : list compound) : bool :=
  match cs with
  | [] => true
  | c :: cs' =>
      match anc with
      | [] => false
      | h :: anc' =>
          if matches_compound h c then matches_ancestors anc' cs'
          else matches_ancestors anc' cs
      end
  end.

Definition matches_chain (e : element) (ch : chain) : bool :=
  match rev ch with
  | [] => false
  | c :: cs => matches_compound (tag e, attrs e) c && matches_ancestors (ancestors e) cs
  end.

Definition matches (sel : list chain) (e : element) : bool :=
  existsb (matches_chain e) sel.

(** The elements of a subtree, in document order. *)
Fixpoint elements_of (anc : list header) (n : node) : list element :=
  match n with
  | Text _ => []
  | Elem t ats kids =>
      {| ancestors := anc; tag := t; attrs := ats; children := kids |}
        :: flat_map (elements_of ((t, ats) :: anc)) kids
  end.

Definition descendants (e : element) : list element :=
  flat_map (elements_of ((tag e, attrs e) :: ancestors e)) (children e).

Fixpoint node_text (n : node) : string :=
  match n with
  | Text s => s
  | Elem _ _ kids => String.concat "" (map node_text kids)
  end.

Definition element_text (e : element) : string :=
  String.concat "" (map node_text (children e)).

#[export] Instance cheerio : Cheerio.Api := {|
  Cheerio.Document := list node;
  Cheerio.Element := element;
  Cheerio.load := parse_html;
  Cheerio.select doc sel :=
    filter (matches (parse_selector sel)) (flat_map (elements_of []) doc);
  Cheerio.find ctx sel :=
    filter (matches (parse_selector sel)) (flat_map descendants ctx);
  Cheerio.text sel := String.concat "" (map element_text sel);
  Cheerio.attr sel a :=
    match sel with
    | [] => None
    | e :: _ => get_attr (attrs e) a
    end;
  Cheerio.hasClass sel c := existsb (fun e => has_class (attrs e) c) sel
|}.

End MiniDom.

Module MiniUrl.

(** [scheme://authority] of an http or https URL; the authority ends at the
    first [/], [?] or [#]. *)
Definition parse (s : string) : option Url.t :=
  let in_authority c :=
    negb (Ascii.eqb c "/" || Ascii.eqb c "?" || Ascii.eqb c "#") in
  let build scheme rest :=
    let authority := Js.take_while in_authority rest in
    let host := Js.take_while (fun c => negb (Ascii.eqb c ":")) authority in
    if Js.truthy host
    then Some {| Url.origin := scheme ++ authority; Url.hostname := host |}
    else None in
  if Js.startsWith s "https://" then build "https://" (Js.drop 8 s)
  else if Js.startsWith s "http://" then build "http://" (Js.drop 7 s)
  else None.

#[export] Instance url : Url.Api := {| Url.parse := parse |}.

End MiniUrl.

(** ** Fixtures *)

Module Fixtures.


(** An eBay result page: one complete item, one without a price, one without
    a link. *)
Definition ebay_mixed : string :=
  "<ul>"
  ++ "<li class='s-item'><a class='s-item__link' href='https://www.ebay.com/itm/2'>"
  ++ "<span class='s-item__title'>Lamp</span></a>"
  ++ "<span class='s-item__price'>$1,019.99</span></li>"
  ++ "<li class='s-item'><a class='s-item__link' href='/itm/3'>"
  ++ "<span class='s-item__title'>Chair</span></a></li>"
  ++ "<li class='s-item'><span class='s-item__title'>Desk</span>"
  ++ "<span class='s-item__price'>$80</span></li>"
  ++ "</ul>".

(** A Walmart result with a name and a price and no link. *)
Definition walmart_no_link : string :=
  "<div data-item-id='7'>"
  ++ "<span data-automation-id='product-title'>Kettle</span>"
  ++ "<div data-automation-id='product-price'>$24.99</div>"
  ++ "</div>".

(** A Zara result with a name and a price and no link. *)
Definition zara_no_link : string :=
  "<li class='product-grid-product'>"
  ++ "<h2 class='product-grid-product-info__name'>Coat</h2>"
  ++ "<span class='price-current__amount'>$129.00</span>"
  ++ "</li>".

Definition lamp : SearchResult.t :=
  {| SearchResult.currency := "USD";
     SearchResult.image := None;
     SearchResult.name := "Lamp";
     SearchResult.platform := "ebay";
     SearchResult.price := Js.Num "1019.99";
     SearchResult.rating := None;
     SearchResult.reviews := None;
     SearchResult.url := "https://www.ebay.com/itm/2" |}.

End Fixtures.

(** ** JSON values *)

Module Json.

(** The bodies of the provider's JSON responses.  Numbers are integers: the
    code reads no number, it only tests values for truthiness. *)
#[warnings="-register-all"]
Inductive t : Type :=
| Null
| Bool (b : bool)
| Number (n : Z)
| Str (s : string)
| Arr (items : list t)
| Obj (fields : list (string * t)).

Fixpoint lookup (k : string) (fields : list (string * t)) : option t :=
  match fields with
  | [] => None
  | (k', v) :: rest => if String.eqb k k' then Some v else lookup k rest
  end.

(** [v.k] for a [v] that is not [null]: [None] is [undefined]. *)
Definition get (v : t) (k : string) : option t :=
  match v with
  | Obj fields => lookup k fields
  | _ => None
  end.

(** Truthiness of a value that may be [undefined]. *)
Definition truthy (v : option t) : bool :=
  match v with
  | None | Some Null => false
  | Some (Bool b) => b
  | Some (Number n) => negb (Z.eqb n 0)
  | Some (Str s) => Js.truthy s
  | Some (Arr _) | Some (Obj _) => true
  end.

End Json.

(** The string [JSON.stringify(value, null, 2)], represented by the value it
    serializes. *)
Inductive JsonText (A : Type) : Type :=
| Stringify (value : A).

Arguments Stringify {A} value.

(** ** The provider and the effects of the tools *)

Module Net.

(** The requests the tools send to the provider. *)
Inductive request : Type :=
| PostRequest (url zone : string)
    (* POST /request, body {format: "raw", url, zone}, text response *)
| PostRequestAs (url zone data_format : string)
    (* the same with data_format in the body, as the TypeScript source sends it *)
| PostTrigger (url dataset_id : string)
    (* POST /datasets/v3/trigger, body [{url}], query {dataset_id, include_errors} *)
| GetProgress (snapshot_id : Json.t)
    (* GET /datasets/v3/progress/${snapshot_id} *)
| GetSnapshot (snapshot_id : Json.t).
    (* GET /datasets/v3/snapshot/${snapshot_id} *)

(** What a tool does that the outside can see, in the order it happens. *)
Inductive event : Type :=
| Request (r : request)
| Sleep (ms : nat)          (* [await new Promise(r => setTimeout(r, ms))] *)
| Log (text : string).      (* [console.log(text)] *)

(** The world a tool runs in: the configured zone, the provider's answer to
    each request given everything that happened before ([inl]: the request
    is rejected), and the clock. *)
Record Env : Type := {
  unlocker_zone : string;
  raw_content : list event -> string -> string -> exn + string;
  trigger : list event -> string -> string -> exn + Json.t;
  progress : list event -> Json.t -> exn + Json.t;
  snapshot : list event -> Json.t -> exn + Json.t;
  now : list event -> string   (* [new Date().toISOString()] *)
}.

(** An asynchronous computation: from the events so far to a result, or a
    thrown value, and the events after it. *)
Definition M (A : Type) : Type := list event -> (exn + A) * list event.

Definition ret {A : Type} (a : A) : M A := fun h => (inr a, h).

Definition throw {A : Type} (e : exn) : M A := fun h => (inl e, h).

Definition bind {A B : Type} (m : M A) (k : A -> M B) : M B :=
  fun h =>
    match m h with
    | (inl e, h') => (inl e, h')
    | (inr a, h') => k a h'
    end.

(** [try { m } catch (e) { handler e }] *)
Definition try_catch {A : Type} (m : M A) (handler : exn -> M A) : M A :=
  fun h =>
    match m h with
    | (inl e, h') => handler e h'
    | (inr a, h') => (inr a, h')
    end.

Definition emit (ev : event) : M unit := fun h => (inr tt, (h ++ [ev])%list).

(** A value that is computed without effects and may throw. *)
Definition lift {A : Type} (r : exn + A) : M A := fun h => (r, h).

(** [await axios(request)]: the request is recorded, the provider answers. *)
Definition axios {A : Type} (r : request) (answer : list event -> exn + A) : M A :=
  fun h => (answer h, (h ++ [Request r])%list).

(** The number of progress requests among some events. *)
Fixpoint polls (tr : list event) : nat :=
  match tr with
  | [] => 0
  | Request (GetProgress _) :: tr' => S (polls tr')
  | _ :: tr' => polls tr'
  end.

(** The number of result fetches among some events. *)
Fixpoint fetches (tr : list event) : nat :=
  match tr with
  | [] => 0
  | Request (GetSnapshot _) :: tr' => S (fetches tr')
  | _ :: tr' => fetches tr'
  end.

(** The number of progress requests before the first result fetch; [None]
    when no result is fetched. *)
Fixpoint polls_before_fetch (tr : list event) : option nat :=
  match tr with
  | [] => None
  | Request (GetSnapshot _) :: _ => Some 0
  | Request (GetProgress _) :: tr' => option_map S (polls_before_fetch tr')
  | _ :: tr' => polls_before_fetch tr'
  end.

End Net.

Declare Scope net_scope.
Delimit Scope net_scope with net.
Notation "x <- m ;; k" := (Net.bind m (fun x => k))
  (at level 61, m at next level, right associativity) : net_scope.
Notation "m ;;; k" := (Net.bind m (fun _ => k))
  (at level 61, right associativity) : net_scope.

(** ** The tools of the server ([build/src/server.js]) *)

Module Envelope.
Inductive payload : Type :=
| Scraped (product : Product.t)     (* the record the scraper extracted *)
| Raw (body : string)               (* the page, as it came *)
| Dataset (body : Json.t).          (* the provider's snapshot, as it came *)

Record t : Type := {
  data : payload;
  method : string;
  platform : string;
  url : string
}.
End Envelope.

Module SearchEntry.
(** An entry of [results] in [search_products]: [data] on success, [error]
    after a failure. *)
Record t : Type := {
  data : option (list SearchResult.t);
  error : option string;
  platform : string;
  search_url : string
}.
End SearchEntry.

Module SearchOutput.
Record t : Type := {
  platforms_searched : list string;
  query : string;
  results : list SearchEntry.t
}.
End SearchOutput.

Module Comparison.
Record t : Type := {
  query : option string;                                (* [query || null] *)
  results : option (list (JsonText Envelope.t));        (* [None]: [undefined] *)
  timestamp : string;
  type : string
}.
End Comparison.

Module UpdateEntry.
(** An entry of [updates] in [get_price_update]. *)
Record t : Type := {
  data : option (JsonText Envelope.t);
  error : option string;
  status : string;
  url : string
}.
End UpdateEntry.

Module PriceUpdate.
Record t : Type := {
  timestamp : string;
  updated_products : nat;
  updates : list UpdateEntry.t
}.
End PriceUpdate.

Module Server.

Import Net.
Local Open Scope net_scope.

Section Tools.

Context {dom : Cheerio.Api} {urls : Url.Api}.
Variable env : Env.

(** [new URL(s).origin] *)
Definition origin_of (s : string) : exn + string :=
  match Url.parse s with
  | Some u => inr (Url.origin u)
  | None => inl (TypeError "Invalid URL")
  end.

(** The [switch] of [search_products]: a platform without a [case] leaves
    [search_url] empty. *)
Definition search_url_for (platform query : string) : string :=
  let q := Js.encodeURIComponent query in
  if String.eqb platform "amazon" then "https://www.amazon.com/s?k=" ++ q
  else if String.eqb platform "bestbuy" then
    "https://www.bestbuy.com/site/searchpage.jsp?st=" ++ q ++ "&intl=nosplash"
  else if String.eqb platform "ebay" then "https://www.ebay.com/sch/i.html?_nkw=" ++ q
  else if String.eqb platform "etsy" then "https://www.etsy.com/search?q=" ++ q
  else if String.eqb platform "homedepot" then "https://www.homedepot.com/search?q=" ++ q
  else if String.eqb platform "walmart" then "https://www.walmart.com/search?q=" ++ q
  else if String.eqb platform "zara" then "https://www.zara.com/us/en/search?q=" ++ q
  else "".

(** The raw-content request: POST /request for [url] through the zone. *)
Definition post_request (url : string) : M string :=
  axios (PostRequest url (unlocker_zone env))
    (fun h => raw_content env h url (unlocker_zone env)).

(** The body of the loop of [search_products] for one platform. *)
Definition search_one (query platform : string) : M SearchEntry.t :=
  try_catch
    (let search_url := search_url_for platform query in
     response <- post_request search_url ;;
     baseUrl <- lift (origin_of search_url) ;;
     let parsedProducts := Scraper.parseSearchResults response platform baseUrl in
     ret {| SearchEntry.data := Some parsedProducts;
            SearchEntry.error := None;
            SearchEntry.platform := platform;
            SearchEntry.search_url := search_url |})
    (fun e =>
       ret {| SearchEntry.data := None;
              SearchEntry.error := Some (message e);
              SearchEntry.platform := platform;
              SearchEntry.search_url := "" |}).

(** [for (const x of xs) { results.push(await body x) }] *)
Fixpoint for_each {A B : Type} (xs : list A) (body : A -> M B) (results : list B)
  : M (list B) :=
  match xs with
  | [] => ret results
  | x :: xs' =>
      r <- body x ;;
      for_each xs' body (Scraper.push results r)
  end.

(** The tool [search_products]. *)
Definition search_products (platforms : list string) (query : string)
  : M (JsonText SearchOutput.t) :=
  results <- for_each platforms (search_one query) [] ;;
  ret (Stringify {| SearchOutput.platforms_searched := platforms;
                    SearchOutput.query := query;
                    SearchOutput.results := results |}).

(** [status_response.data.status]: reading a property of [null] throws. *)
Definition status_of (data : Json.t) : exn + option Json.t :=
  match data with
  | Json.Null =>
      inl (TypeError "Cannot read properties of null (reading 'status')")
  | _ => inr (Json.get data "status")
  end.

Definition is_string (v : option Json.t) (s : string) : bool :=
  match v with
  | Some (Json.Str s') => String.eqb s' s
  | _ => false
  end.

(** The polling loop of [get_product_details],
    [for (let i = 0; i < max_attempts; i++)], by the number of attempts that
    remain; after the last attempt the timeout is thrown. *)
Fixpoint poll (attempts : nat) (snapshot_id : Json.t) (platform url : string)
  : M (JsonText Envelope.t) :=
  match attempts with
  | O => throw (Error "Timeout waiting for dataset results")
  | S attempts' =>
      emit (Sleep 2000) ;;;
      status_response <-
        axios (GetProgress snapshot_id) (fun h => progress env h snapshot_id) ;;
      status <- lift (status_of status_response) ;;
      if is_string status "running" then poll attempts' snapshot_id platform url
      else if is_string status "failed" then throw (Error "Dataset collection failed")
      else
        results_response <-
          axios (GetSnapshot snapshot_id) (fun h => snapshot env h snapshot_id) ;;
        ret (Stringify {| Envelope.data := Envelope.Dataset results_response;
                          Envelope.method := "structured_dataset";
                          Envelope.platform := platform;
                          Envelope.url := url |})
  end.

Definition max_attempts : nat := 30.

(** [trigger_response.data?.snapshot_id] *)
Definition snapshot_id_of (data : Json.t) : option Json.t :=
  Json.get data "snapshot_id".

(** The tool [get_product_details]. *)
Definition get_product_details (url : string) : M (JsonText Envelope.t) :=
  let platform := Platform.detect_platform url in
  match Platform.get_dataset_id platform with
  | None =>
      (* Fallback to general scraping *)
      response <- post_request url ;;
      baseUrl <- lift (origin_of url) ;;
      parsedProduct <- lift (Scraper.parseProductDetails response platform baseUrl) ;;
      ret (Stringify {| Envelope.data := Envelope.Scraped parsedProduct;
                        Envelope.method := "scraping";
                        Envelope.platform := platform;
                        Envelope.url := url |})
  | Some dataset_id =>
      (* Use structured dataset *)
      trigger_response <-
        axios (PostTrigger url dataset_id) (fun h => trigger env h url dataset_id) ;;
      match snapshot_id_of trigger_response with
      | Some snapshot_id =>
          if Json.truthy (Some snapshot_id)
          then poll max_attempts snapshot_id platform url
          else throw (Error "Failed to trigger dataset collection")
      | None => throw (Error "Failed to trigger dataset collection")
      end
  end.

(** The tool [get_product_details] as the TypeScript source ([server.ts])
    has it: the same dataset protocol; the fallback returns the page as it
    came and does not call the scraper. *)
Definition get_product_details_ts (url : string) : M (JsonText Envelope.t) :=
  let platform := Platform.detect_platform url in
  match Platform.get_dataset_id platform with
  | None =>
      response <-
        axios (PostRequestAs url (unlocker_zone env) "markdown")
          (fun h => raw_content env h url (unlocker_zone env)) ;;
      ret (Stringify {| Envelope.data := Envelope.Raw response;
                        Envelope.method := "scraping";
                        Envelope.platform := platform;
                        Envelope.url := url |})
  | Some dataset_id =>
      trigger_response <-
        axios (PostTrigger url dataset_id) (fun h => trigger env h url dataset_id) ;;
      match snapshot_id_of trigger_response with
      | Some snapshot_id =>
          if Json.truthy (Some snapshot_id)
          then poll max_attempts snapshot_id platform url
          else throw (Error "Failed to trigger dataset collection")
      | None => throw (Error "Failed to trigger dataset collection")
      end
  end.

(** The members the tools read from [server.tools]. *)
Record ServerTools : Type := {
  tools_get_product_details : string -> M (JsonText Envelope.t);
  tools_search_products : list string -> string -> M (JsonText SearchOutput.t)
}.

(** [server.tools].  The program assigns no such property, and the server
    made by [new FastMCP(...)] has none of its own: registered tools are
    kept out of reach (the TypeScript source only casts the server to a type
    that has [tools]).  So the value is [undefined]. *)
Definition server_tools : option ServerTools := None.

(** What reading the property [name] of [undefined] throws. *)
Definition undefined_member (name : string) : exn :=
  TypeError ("Cannot read properties of undefined (reading '" ++ name ++ "')").

(** [tools.name], for [tools = server.tools]. *)
Definition member {A : Type} (tools : option ServerTools) (name : string)
  (get : ServerTools -> A) : M A :=
  match tools with
  | Some t => ret (get t)
  | None => throw (undefined_member name)
  end.

(** The body of the loop of [compare_prices] over [urls]: a failure is
    logged and nothing is pushed. *)
Definition compare_one (url : string) : M (option (JsonText Envelope.t)) :=
  try_catch
    (execute <- member server_tools "get_product_details" tools_get_product_details ;;
     product_details <- execute url ;;
     ret (Some product_details))
    (fun e => emit (Log (message e)) ;;; ret None).

(** [for (const x of xs)] with a body that pushes or does not. *)
Fixpoint for_each_push {A B : Type} (xs : list A) (body : A -> M (option B))
  (results : list B) : M (list B) :=
  match xs with
  | [] => ret results
  | x :: xs' =>
      r <- body x ;;
      for_each_push xs' body
        (match r with Some y => Scraper.push results y | None => results end)
  end.

(** The tool [compare_prices].  In the query branch [search_results] would
    be the string that [search_products] returns, whose [results] is
    [undefined]. *)
Definition compare_prices (platforms : list string) (query : option string)
  (urls : option (list string)) : M (JsonText Comparison.t) :=
  let truthy_query :=
    match query with Some q => Js.truthy q | None => false end in
  comparison_results <-
    match urls with
    | Some (u :: us) =>
        results <- for_each_push (u :: us) compare_one [] ;;
        ret (Some results)
    | _ =>
        match query with
        | Some q =>
            if Js.truthy q then
              execute <- member server_tools "search_products" tools_search_products ;;
              execute platforms q ;;; ret None
            else throw (Error "Either query or urls must be provided")
        | None => throw (Error "Either query or urls must be provided")
        end
    end ;;
  fun h =>
    (inr (Stringify
            {| Comparison.query := if truthy_query then query else None;
               Comparison.results := comparison_results;
               Comparison.timestamp := now env h;
               Comparison.type :=
                 match urls with
                 | Some _ => "url_comparison"
                 | None => "search_comparison"
                 end |}), h).

(** The body of the loop of [get_price_update]. *)
Definition update_one (product_url : string) : M UpdateEntry.t :=
  try_catch
    (execute <- member server_tools "get_product_details" tools_get_product_details ;;
     current_data <- execute product_url ;;
     ret {| UpdateEntry.data := Some current_data;
            UpdateEntry.error := None;
            UpdateEntry.status := "updated";
            UpdateEntry.url := product_url |})
    (fun e =>
       ret {| UpdateEntry.data := None;
              UpdateEntry.error := Some (message e);
              UpdateEntry.status := "error";
              UpdateEntry.url := product_url |}).

(** The tool [get_price_update]. *)
Definition get_price_update (urls : list string) : M (JsonText PriceUpdate.t) :=
  updates <- for_each urls update_one [] ;;
  fun h =>
    (inr (Stringify {| PriceUpdate.timestamp := now env h;
                       PriceUpdate.updated_products := List.length updates;
                       PriceUpdate.updates := updates |}), h).

End Tools.

(** A provider that follows a script: one answer to the raw-content request,
    one to the trigger, the status of the k-th progress request for each k
    (an exhausted script rejects the request), one answer to the fetch. *)
Definition scripted (raw : exn + string) (trig : exn + Json.t)
  (statuses : list string) (snap : exn + Json.t) : Env :=
  {| unlocker_zone := "ecommerce_tracker";
     raw_content := fun _ _ _ => raw;
     trigger := fun _ _ _ => trig;
     progress := fun h _ =>
       match nth_error statuses (polls h) with
       | Some s => inr (Json.Obj [("status", Json.Str s)])
       | None => inl (AxiosError "Network Error")
       end;
     snapshot := fun _ _ => snap;
     now := fun _ => "2025-01-01T00:00:00.000Z" |}.

(** The provider answers a progress request for [sid] made after the
    events [h] with a body whose status is [s]. *)
Definition answers_status (env : Env) (h : list event) (sid : Json.t) (s : string)
  : Prop :=
  exists data, progress env h sid = inr data /\ Json.get data "status" = Some (Json.Str s).

(** The events of [n] rounds of polling that all continue. *)
Fixpoint rounds (n : nat) (sid : Json.t) : list event :=
  match n with
  | O => []
  | S n' => Sleep 2000 :: Request (GetProgress sid) :: rounds n' sid
  end.

End Server.

Module ServerFixtures.

Import Net.

Definition amazon_url : string := "https://www.amazon.com/dp/B01".

Definition amazon_dataset : string := "gd_l7q7dkf244hwjntr0".

Definition shop_url : string := "https://shop.example.com/item/42".

Definition snapshot_id : Json.t := Json.Str "s_1".

Definition triggered : exn + Json.t :=
  inr (Json.Obj [("snapshot_id", snapshot_id)]).

Definition result_body : Json.t :=
  Json.Arr [Json.Obj [("title", Json.Str "Mug"); ("final_price", Json.Number 12)]].

Definition no_page : exn + string := inl (AxiosError "Request failed with status code 502").

(** The statuses running, running, ready. *)
Definition running_running_ready : Env :=
  Server.scripted no_page triggered ["running"; "running"; "ready"] (inr result_body).

(** Thirty times running; a thirty-first poll would be answered ready. *)
Definition thirty_running : Env :=
  Server.scripted no_page triggered (repeat "running" 30 ++ ["ready"])%list
    (inr result_body).

(** The trigger is answered without a snapshot id. *)
Definition trigger_refused : Env :=
  Server.scripted no_page (inr (Json.Obj [("error", Json.Str "invalid input")]))
    ["ready"] (inr result_body).

(** The statuses running, failed. *)
Definition running_failed : Env :=
  Server.scripted no_page triggered ["running"; "failed"] (inr result_body).

(** A shop of no known platform, whose page is served. *)
Definition unknown_shop : Env :=
  Server.scripted (inr "<h1>Mug</h1><span class='price'>$12.00</span>")
    triggered ["ready"] (inr result_body).

End ServerFixtures.

(** ** The persistent store *)

Module Store.

(** Modelled from the spec: the Prisma client ([lib/prisma.js]) and the
    database behind it are missing.  The rows follow the Prisma schema; the
    operations are the ones the product service calls.  As the
    specification says of the persistence collaborator, price rows are
    append-only history entries attached to a product, ordered by creation
    time: the table keeps them in the order they were created, and a read
    that gives no [orderBy] returns them in that order.  Ids are drawn from a
    counter, times from a logical clock that ticks at every write. *)

Record User : Type := {
  user_id : string;          (* id *)
  user_userId : string;      (* userId, unique *)
  user_createdAt : nat;
  user_updatedAt : nat
}.

Record Product : Type := {
  id : string;
  name : string;
  platform : string;
  target_price : option Z;
  url : string;
  tracking_type : string;
  createdAt : nat;
  updatedAt : nat;
  userId : option string
}.

Record Price : Type := {
  price_id : string;         (* id *)
  amount : Z;
  price_createdAt : nat;     (* createdAt *)
  price_updatedAt : nat;     (* updatedAt *)
  productId : option string
}.

Record t : Type := {
  users : list User;
  products : list Product;
  prices : list Price;
  clock : nat;
  next_uuid : nat
}.

(** A query: a result or a thrown error, and the store after it. *)
Definition Db (A : Type) : Type := t -> (exn + A) * t.

Definition uuid (n : nat) : string :=
  "uuid-" ++ NilZero.string_of_uint (Nat.to_uint n).

Definition eq_some (o : option string) (s : string) : bool :=
  match o with
  | Some s' => String.eqb s' s
  | None => false
  end.

(** [prisma.user.findUnique({ where: { userId } })] *)
Definition user_findUnique (userId : string) (s : t) : option User :=
  find (fun u => String.eqb (user_userId u) userId) (users s).

(** The values a column of type [Int] takes: the integers of 32 bits. *)
Definition is_int (a : Z) : bool :=
  ((-2147483648 <=? a) && (a <=? 2147483647))%Z.

(** What a write throws for an amount that is no [Int]; the text stands for
    the client's. *)
Definition out_of_range : exn := PrismaError "Value out of range for the type".

(** [prisma.product.create({ data: { ..., prices: { create: { amount } } } })]:
    the product row, then its first price row; neither when the amount does
    not fit the column. *)
Definition product_create (name platform url tracking_type owner : string)
  (first_amount : Z) : Db Product :=
  fun s =>
    if negb (is_int first_amount) then (inl out_of_range, s) else
    let p := {| id := uuid (next_uuid s);
                name := name;
                platform := platform;
                target_price := None;
                url := url;
                tracking_type := tracking_type;
                createdAt := clock s;
                updatedAt := clock s;
                userId := Some owner |} in
    let row := {| price_id := uuid (S (next_uuid s));
                  amount := first_amount;
                  price_createdAt := clock s;
                  price_updatedAt := clock s;
                  productId := Some (id p) |} in
    (inr p,
     {| users := users s;
        products := (products s ++ [p])%list;
        prices := (prices s ++ [row])%list;
        clock := S (clock s);
        next_uuid := S (S (next_uuid s)) |}).

(** [prisma.product.delete({ where: { id, userId } })]: the product must
    exist; its price rows stay, detached (the relation is optional). *)
Definition product_delete (productId0 owner : string) : Db Product :=
  fun s =>
    let is_target p := String.eqb (id p) productId0 && eq_some (userId p) owner in
    match find is_target (products s) with
    | None => (inl (PrismaError "Record to delete does not exist."), s)
    | Some p =>
        (inr p,
         {| users := users s;
            products := filter (fun q => negb (is_target q)) (products s);
            prices :=
              map (fun r =>
                     if eq_some (productId r) productId0
                     then {| price_id := price_id r;
                             amount := amount r;
                             price_createdAt := price_createdAt r;
                             price_updatedAt := clock s;
                             productId := None |}
                     else r)
                (prices s);
            clock := S (clock s);
            next_uuid := next_uuid s |})
    end.

(** A row whose [updatedAt] is set to the time of the write. *)
Definition touch (c : nat) (p : Product) : Product :=
  {| id := id p;
     name := name p;
     platform := platform p;
     target_price := target_price p;
     url := url p;
     tracking_type := tracking_type p;
     createdAt := createdAt p;
     updatedAt := c;
     userId := userId p |}.

(** [prisma.product.update({ where: { id }, data: { prices: { create:
    { amount } } } })]: the amount must fit the column and the product must
    exist; a price row is appended. *)
Definition product_update (productId0 : string) (new_amount : Z) : Db Product :=
  fun s =>
    if negb (is_int new_amount) then (inl out_of_range, s) else
    match find (fun p => String.eqb (id p) productId0) (products s) with
    | None => (inl (PrismaError "Record to update not found."), s)
    | Some p =>
        let row := {| price_id := uuid (next_uuid s);
                      amount := new_amount;
                      price_createdAt := clock s;
                      price_updatedAt := clock s;
                      productId := Some productId0 |} in
        (inr (touch (clock s) p),
         {| users := users s;
            products :=
              map (fun q => if String.eqb (id q) productId0
                            then touch (clock s) q else q)
                (products s);
            prices := (prices s ++ [row])%list;
            clock := S (clock s);
            next_uuid := S (next_uuid s) |})
    end.

(** The queries of a batch, one after the other, up to the first failure. *)
Fixpoint sequence {A : Type} (queries : list (Db A)) : Db (list A) :=
  fun s =>
    match queries with
    | [] => (inr [], s)
    | q :: rest =>
        match q s with
        | (inl e, s1) => (inl e, s1)
        | (inr a, s1) =>
            match sequence rest s1 with
            | (inl e, s2) => (inl e, s2)
            | (inr results, s2) => (inr (a :: results), s2)
            end
        end
    end.

(** [prisma.$transaction(queries)]: all of them or none. *)
Definition transaction {A : Type} (queries : list (Db A)) : Db (list A) :=
  fun s =>
    match sequence queries s with
    | (inl e, _) => (inl e, s)
    | (inr results, s') => (inr results, s')
    end.

(** Modelled from the spec: the order in which the missing database returns
    the price rows of a product when the read gives no [orderBy].  Price rows
    are append-only and ordered by creation time, so the rows come in the
    order of the table. *)
Definition prices_of (s : t) (productId0 : string) : list Price :=
  filter (fun r => eq_some (productId r) productId0) (prices s).

(** Modelled from the spec: [prisma.product.findMany({ include: { prices },
    where: { User: { userId } } })] of the missing client: the products owned
    by a user with that [userId], each with its price rows when
    [include_prices] is set. *)
Definition product_findMany (userId0 : string) (include_prices : bool) (s : t)
  : list (Product * option (list Price)) :=
  let owned p :=
    existsb (fun u => String.eqb (user_userId u) userId0
                      && eq_some (userId p) (user_id u))
      (users s) in
  map (fun p => (p, if include_prices then Some (prices_of s (id p)) else None))
    (filter owned (products s)).

(** Price rows in creation order, none created after the clock. *)
Definition chronological (s : t) : Prop :=
  StronglySorted (fun a b => price_createdAt a <= price_createdAt b) (prices s)
  /\ Forall (fun r => price_createdAt r <= clock s) (prices s).

End Store.

(** ** The product service ([services/product-service.ts]) *)

Module ProductService.

Import Store.

Record ProductDetails : Type := {
  currentPrice : option Z;
  details_name : option string;        (* name *)
  details_platform : option string     (* platform *)
}.

(** An element of [data] in [updateAllProducts].  The numbers are taken to
    be integers; whether one fits the [Int] column is for the write to
    check. *)
Record PriceUpdateItem : Type := {
  item_currentPrice : Z;               (* currentPrice *)
  item_id : string                     (* id *)
}.

Section WithUrl.

Context {urls : Url.Api}.

(** [getUserTrackedProducts(userId, include_price_history = false)] *)
Definition getUserTrackedProducts (userId0 : string) (include_price_history : bool)
  : Db (list (Product * option (list Price))) :=
  fun s => (inr (product_findMany userId0 include_price_history s), s).

(** [productDetails.platform || new URL(url).hostname] *)
Definition platform_or_hostname (details : ProductDetails) (url0 : string)
  : exn + string :=
  match details_platform details with
  | Some p =>
      if Js.truthy p then inr p
      else match Url.parse url0 with
           | Some u => inr (Url.hostname u)
           | None => inl (TypeError "Invalid URL")
           end
  | None =>
      match Url.parse url0 with
      | Some u => inr (Url.hostname u)
      | None => inl (TypeError "Invalid URL")
      end
  end.

(** [trackProduct(userId, url, productDetails)] *)
Definition trackProduct (userId0 url0 : string) (details : ProductDetails)
  : Db Product :=
  fun s =>
    match user_findUnique userId0 s with
    | None => (inl (Error "User not found"), s)
    | Some user =>
        let name0 :=
          match details_name details with
          | Some n => Js.or_else n "New Product"
          | None => "New Product"
          end in
        match platform_or_hostname details url0 with
        | inl e => (inl e, s)
        | inr platform0 =>
            let amount0 :=
              match currentPrice details with Some a => a | None => 0%Z end in
            product_create name0 platform0 url0 "price" (user_id user) amount0 s
        end
    end.

(** [untrackProduct(userId, productId)] *)
Definition untrackProduct (userId0 productId0 : string) : Db Product :=
  fun s =>
    match user_findUnique userId0 s with
    | None => (inl (Error "User not found"), s)
    | Some user => product_delete productId0 (user_id user) s
    end.

(** [updateAllProducts(data)] *)
Definition updateAllProducts (data : list PriceUpdateItem) : Db (list Product) :=
  let updates :=
    map (fun item => product_update (item_id item) (item_currentPrice item)) data in
  transaction updates.

End WithUrl.

End ProductService.

Module StoreFixtures.

Import Store ProductService.

Definition alice : User :=
  {| user_id := "uuid-0"; user_userId := "alice";
     user_createdAt := 0; user_updatedAt := 0 |}.

Definition kettle : Product :=
  {| id := "uuid-1"; name := "Kettle"; platform := "walmart";
     target_price := None; url := "https://www.walmart.com/ip/7";
     tracking_type := "price"; createdAt := 1; updatedAt := 1;
     userId := Some "uuid-0" |}.

Definition first_price : Price :=
  {| price_id := "uuid-2"; amount := 2499;
     price_createdAt := 1; price_updatedAt := 1; productId := Some "uuid-1" |}.

(** One user tracking one product with one price. *)
Definition store : Store.t :=
  {| users := [alice]; products := [kettle]; prices := [first_price];
     clock := 2; next_uuid := 3 |}.

Definition updates : list PriceUpdateItem :=
  [ {| item_currentPrice := 2299; item_id := "uuid-1" |};
    {| item_currentPrice := 1999; item_id := "uuid-1" |} ].

Definition store_after : Store.t := snd (updateAllProducts updates store).

Definition no_details : ProductDetails :=
  {| currentPrice := None; details_name := None; details_platform := None |}.

End StoreFixtures.

(** ** The predicates the properties are stated with *)

(** What an entry of [search_products] is for the platform it was asked. *)
Definition search_entry_for (platform : string) (entry : SearchEntry.t) : Prop :=
  SearchEntry.platform entry = platform
  /\ ((exists items, SearchEntry.data entry = Some items
                     /\ SearchEntry.error entry = None)
      \/ (exists msg, SearchEntry.error entry = Some msg
                      /\ SearchEntry.data entry = None
                      /\ SearchEntry.search_url entry = "")).

(** What an entry of [get_price_update] is for the URL it was asked. *)
Definition update_entry_for (url : string) (entry : UpdateEntry.t) : Prop :=
  UpdateEntry.url entry = url
  /\ ((exists d, UpdateEntry.data entry = Some d
                 /\ UpdateEntry.status entry = "updated"
                 /\ UpdateEntry.error entry = None)
      \/ (exists msg, UpdateEntry.error entry = Some msg
                      /\ UpdateEntry.status entry = "error"
                      /\ UpdateEntry.data entry = None)).

Module StoreSpec.

Import Store ProductService.

(** The rows a batch of updates appends, from the clock and the id counter
    at its start. *)
Fixpoint new_rows (c u : nat) (data : list PriceUpdateItem) : list Price :=
  match data with
  | [] => []
  | item :: rest =>
      {| price_id := uuid u;
         amount := item_currentPrice item;
         price_createdAt := c;
         price_updatedAt := c;
         productId := Some (item_id item) |}
        :: new_rows (S c) (S u) rest
  end.

(** Two product rows that are the same product of the same owner. *)
Definition same_product (q q' : Product) : Prop :=
  id q = id q' /\ userId q = userId q'.

End StoreSpec.

(** An entry of [search_products] for a platform and a query: a success
    entry carries the search URL that was fetched, an error entry the
    message and an empty search URL. *)
Definition search_entry_of (query platform : string) (entry : SearchEntry.t) : Prop :=
  SearchEntry.platform entry = platform
  /\ ((exists items, SearchEntry.data entry = Some items
                     /\ SearchEntry.error entry = None
                     /\ SearchEntry.search_url entry
                        = Server.search_url_for platform query)
      \/ (exists msg, SearchEntry.error entry = Some msg
                      /\ SearchEntry.data entry = None
                      /\ SearchEntry.search_url entry = "")).

(** The raw-content request [search_products] sends for a platform. *)
Definition search_request (env : Net.Env) (query platform : string) : Net.event :=
  Net.Request
    (Net.PostRequest (Server.search_url_for platform query) (Net.unlocker_zone env)).

(** The entry of [get_price_update] for a URL whose details could not be
    asked for: [server.tools] has no [get_product_details] to read. *)
Definition unreached_entry (url : string) : UpdateEntry.t :=
  {| UpdateEntry.data := None;
     UpdateEntry.error := Some (message (Server.undefined_member "get_product_details"));
     UpdateEntry.status := "error";
     UpdateEntry.url := url |}.

(** The line [compare_prices] logs for a URL. *)
Definition unreached_log (url : string) : Net.event :=
  Net.Log (message (Server.undefined_member "get_product_details")).

Definition is_log (ev : Net.event) : Prop :=
  match ev with Net.Log _ => True | _ => False end.

(** The selector of the item elements each search loop walks. *)
Definition item_selector (platform : string) : string :=
  if String.eqb platform "amazon" then ".s-result-item[data-asin]"
  else if String.eqb platform "bestbuy" then ".sku-item"
  else if String.eqb platform "ebay" then ".s-item"
  else if String.eqb platform "etsy" then ".v2-listing-card"
  else if String.eqb platform "homedepot" then ".product-pod"
  else if String.eqb platform "walmart" then "[data-item-id]"
  else if String.eqb platform "zara" then ".product-grid-product"
  else "".

(** What each search loop reads from an item element and tests before it
    emits an item, in the words of the specification: a name, a price text
    and a link. *)
Module SearchSpec.

Section WithDom.

Context {dom : Cheerio.Api}.

Record Reading : Type := {
  name_text : string;           (* the name, trimmed *)
  tested_price : list string;   (* the price texts: one of them must not be empty *)
  parsed_price : string;        (* the text given to [parseFloat] *)
  href : option string;         (* the [href] of the item's link *)
  url_tested : bool             (* whether the loop tests the url it built *)
}.

(** The reading of an item element on a platform; [None] on a platform
    without a loop. *)
Definition read (platform : string) (element : Cheerio.Element) : option Reading :=
  let text sel := Cheerio.text (Cheerio.find [element] sel) in
  let first_text sel := Cheerio.text (Cheerio.first (Cheerio.find [element] sel)) in
  let link sel := Cheerio.attr (Cheerio.find [element] sel) "href" in
  let plain s := Js.replace (Js.replace s "$" "") "," "" in
  if String.eqb platform "amazon" then
    let whole := Js.trim (first_text ".a-price-whole") in
    let fraction := Js.trim (first_text ".a-price-fraction") in
    Some {| name_text := Js.trim (text "h2 span");
            tested_price := [whole; fraction];
            parsed_price := whole ++ "." ++ fraction;
            href := link "h2 a";
            url_tested := true |}
  else if String.eqb platform "bestbuy" then
    let priceText := plain (first_text ".priceView-customer-price span") in
    Some {| name_text := Js.trim (text ".sku-header");
            tested_price := [priceText];
            parsed_price := priceText;
            href := link ".sku-header a";
            url_tested := true |}
  else if String.eqb platform "ebay" then
    let priceText := plain (Js.trim (text ".s-item__price")) in
    Some {| name_text := Js.trim (text ".s-item__title");
            tested_price := [priceText];
            parsed_price := priceText;
            href := link ".s-item__link";
            url_tested := true |}
  else if String.eqb platform "etsy" then
    let priceText := Js.replace (first_text ".currency-value") "," "" in
    Some {| name_text := Js.trim (text ".v2-listing-card__title");
            tested_price := [priceText];
            parsed_price := priceText;
            href := link ".listing-link";
            url_tested := true |}
  else if String.eqb platform "homedepot" then
    let priceText := plain (text ".price__dollars") in
    Some {| name_text := Js.trim (text ".product-pod--title");
            tested_price := [priceText];
            parsed_price := priceText;
            href := link ".product-pod--link";
            url_tested := true |}
  else if String.eqb platform "walmart" then
    let priceText :=
      plain (text (Scraper.attr_selector "data-automation-id" "product-price")) in
    Some {| name_text :=
              Js.trim (text (Scraper.attr_selector "data-automation-id" "product-title"));
            tested_price := [priceText];
            parsed_price := priceText;
            href := link "a";
            url_tested := false |}
  else if String.eqb platform "zara" then
    let priceText := plain (text ".price-current__amount") in
    Some {| name_text := Js.trim (text ".product-grid-product-info__name");
            tested_price := [priceText];
            parsed_price := priceText;
            href := link "a";
            url_tested := false |}
  else None.

(** Whether a link is present: an [href] that is there and not empty. *)
Definition link_present (h : option string) : bool :=
  match h with
  | Some text => Js.truthy text
  | None => false
  end.

(** Whether an item element has what an emitted item needs: a name, a price
    text and, where the loop tests the url, a link. *)
Definition complete (platform : string) (element : Cheerio.Element) : bool :=
  match read platform element with
  | Some reading =>
      Js.truthy (name_text reading)
      && existsb Js.truthy (tested_price reading)
      && (if url_tested reading then link_present (href reading) else true)
  | None => false
  end.

(** The item emitted for a complete item element: it carries the name read,
    which is not empty, the platform's tag, and the price parsed from the
    price text, of which a tested part is not empty; where the loop tests
    the url, the url is the link, which is present, made absolute against
    the base URL; where it does not, the url is the base URL followed by
    whatever the link is. *)
Definition emitted_from (platform baseUrl : string) (element : Cheerio.Element)
  (r : SearchResult.t) : Prop :=
  exists reading,
    read platform element = Some reading
    /\ SearchResult.name r = name_text reading
    /\ SearchResult.name r <> ""
    /\ SearchResult.platform r = platform
    /\ (exists part, In part (tested_price reading) /\ part <> "")
    /\ SearchResult.price r = Js.parseFloat (parsed_price reading)
    /\ (url_tested reading = true ->
        exists h, href reading = Some h /\ h <> ""
                  /\ SearchResult.url r
                     = if Js.startsWith h "http" then h else baseUrl ++ h)
    /\ (url_tested reading = false ->
        SearchResult.url r = Scraper.concat_undefined baseUrl (href reading)).

End WithDom.

End SearchSpec.

Module DetailFixtures.

(** An Amazon product page: a title, a price, a specification table with a
    repeated label and a row without a value, and three colour swatches,
    one of them without a title. *)
Definition amazon_page : string :=
  "<div><span id='productTitle'> Desk Lamp </span>"
  ++ "<span id='priceblock_ourprice'>$19.99</span>"
  ++ "<table id='productDetails_techSpec_section_1'>"
  ++ "<tr><th>Color</th><td>Red</td></tr>"
  ++ "<tr><th>Weight</th><td>2 kg</td></tr>"
  ++ "<tr><th>Color</th><td>Blue</td></tr>"
  ++ "<tr><th>Size</th><td> </td></tr>"
  ++ "</table>"
  ++ "<div id='variation_color_name'><ul class='swatches'>"
  ++ "<li title='Red'><span class='a-color-price'>$19.99</span></li>"
  ++ "<li class='swatchUnavailable' title='Blue'></li>"
  ++ "<li><span class='a-color-price'>$21.00</span></li>"
  ++ "</ul></div></div>".

Definition amazon_base : string := "https://www.amazon.com".

Definition amazon_origin : Url.t :=
  {| Url.origin := "https://www.amazon.com"; Url.hostname := "www.amazon.com" |}.

Definition amazon_product : Product.t :=
  {| Product.availability := Some "";
     Product.brand := Some "";
     Product.currency := "USD";
     Product.description := "";
     Product.image := None;
     Product.name := "Desk Lamp";
     Product.platform := "amazon";
     Product.price := Js.Num "19.99";
     Product.rating := Some Js.NaN;
     Product.seller := Some "";
     Product.specifications := [("Color", "Blue"); ("Weight", "2 kg")];
     Product.url := "https://www.amazon.com";
     Product.variants :=
       Some [ {| Variant.available := true; Variant.name := "Red";
                 Variant.price := Some (Js.Num "19.99") |};
              {| Variant.available := false; Variant.name := "Blue";
                 Variant.price := Some Js.NaN |} ] |}.

End DetailFixtures.

(** What every specification table is: distinct non-empty labels, each with
    a non-empty value. *)
Definition well_formed_table (t : list (string * string)) : Prop :=
  NoDup (map fst t)
  /\ Forall (fun kv => fst kv <> "") t
  /\ Forall (fun kv => snd kv <> "") t.

(** ** The rest of the services *)

Module StoreMore.

Import Store.

(** Modelled from the spec: [orderBy: { createdAt: "desc" }] of the missing
    client, as an insertion of each row before the rows that are not newer.
    The order of rows created at the same time is the database's choice;
    the model keeps one. *)
Fixpoint insert_desc (r : Price) (l : list Price) : list Price :=
  match l with
  | [] => [r]
  | x :: l' =>
      if (price_createdAt x <? price_createdAt r)%nat then r :: l
      else x :: insert_desc r l'
  end.

Definition newest_first (l : list Price) : list Price :=
  fold_right insert_desc [] l.

(** Modelled from the spec: [prisma.product.findMany({ include: { prices:
    { orderBy: { createdAt: "desc" }, take: 1 } } })] of the missing client:
    every product, each with its newest price row. *)
Definition product_findMany_latest (s : t) : list (Product * list Price) :=
  map (fun p => (p, firstn 1 (newest_first (prices_of s (id p))))) (products s).

(** Modelled from the spec: [prisma.user.upsert({ create: { createdAt,
    userId }, update: {}, where: { userId } })] of the missing client: the
    row with this [userId] when there is one, a new row otherwise. *)
Definition user_upsert (userId0 : string) : Db User :=
  fun s =>
    match user_findUnique userId0 s with
    | Some u => (inr u, s)
    | None =>
        let u := {| user_id := uuid (next_uuid s);
                    user_userId := userId0;
                    user_createdAt := clock s;
                    user_updatedAt := clock s |} in
        (inr u,
         {| users := (users s ++ [u])%list;
            products := products s;
            prices := prices s;
            clock := S (clock s);
            next_uuid := S (next_uuid s) |})
    end.

(** Price rows in strictly increasing creation time, all before the clock. *)
Definition strictly_chronological (s : t) : Prop :=
  StronglySorted (fun a b => price_createdAt a < price_createdAt b) (prices s)
  /\ Forall (fun r => price_createdAt r < clock s) (prices s).

(** Whether an update names a product of the store. *)
Definition known (s : t) (pid : string) : bool :=
  existsb (fun p => String.eqb (id p) pid) (products s).

(** Whether an update of a batch can be written to the store: its amount
    fits the column and its id names a product. *)
Definition acceptable (s : t) (item : ProductService.PriceUpdateItem) : bool :=
  is_int (ProductService.item_currentPrice item)
  && known s (ProductService.item_id item).

End StoreMore.

Module UserService.

(** [createOrUpdateUser(userId)] *)
Definition createOrUpdateUser (userId0 : string) : Store.Db Store.User :=
  StoreMore.user_upsert userId0.

End UserService.

Module ProductServiceMore.

(** [getAllTrackedProducts()] *)
Definition getAllTrackedProducts
  : Store.Db (list (Store.Product * list Store.Price)) :=
  fun s => (inr (StoreMore.product_findMany_latest s), s).

End ProductServiceMore.

(** The product service of the build ([build/src/services/product-service.js])
    and the tool that calls it. *)
Module TrackTool.

Import Store.

Section WithNumbers.

Context {urls : Url.Api}.

(** The numbers of the tool's [target_price]: their truthiness and the
    conversion [Math.round(target_price * 100)]. *)
Variable number : Type.
Variable number_truthy : number -> bool.
Variable to_cents : number -> number.

(** The object the tool passes as [productDetails]. *)
Record Details : Type := {
  name : string;
  platform : string;
  target_price : option number;     (* [None]: [null] *)
  tracking_type : string;
  url : string
}.

(** [trackProduct(userId, productDetails)] of the build: it reads [name],
    [platform], [currentPrice] (which the tool does not pass) and [url]. *)
Definition trackProduct (userId0 : string) (productDetails : Details) : Db Product :=
  fun s =>
    match user_findUnique userId0 s with
    | None => (inl (Error "User not found"), s)
    | Some user =>
        let name0 := Js.or_else (name productDetails) "New Product" in
        let platform0 :=
          if Js.truthy (platform productDetails) then inr (platform productDetails)
          else match Url.parse (url productDetails) with
               | Some u => inr (Url.hostname u)
               | None => inl (TypeError "Invalid URL")
               end in
        match platform0 with
        | inl e => (inl e, s)
        | inr pf =>
            product_create name0 pf (url productDetails) "price" (user_id user) 0%Z s
        end
    end.

(** The tool [track_product]. *)
Definition track_product (name0 platform0 : string) (target_price0 : option number)
  (tracking_type0 url0 userId0 : string) : Db (JsonText Product) :=
  fun s =>
    let details :=
      {| name := name0;
         platform := platform0;
         target_price :=
           match target_price0 with
           | Some t => if number_truthy t then Some (to_cents t) else None
           | None => None
           end;
         tracking_type := tracking_type0;
         url := url0 |} in
    match trackProduct userId0 details s with
    | (inl e, s') => (inl e, s')
    | (inr product, s') => (inr (Stringify product), s')
    end.

End WithNumbers.

End TrackTool.

(** ** The first generation of the server (PriceBot), tracking in memory *)

Module PriceBot.

Import Net.

(** A JavaScript [Map] (or an object used as one): the entries in insertion
    order; setting a present key keeps its place. *)
Fixpoint map_get {V : Type} (k : string) (m : list (string * V)) : option V :=
  match m with
  | [] => None
  | (k', v) :: m' => if String.eqb k k' then Some v else map_get k m'
  end.

Fixpoint map_set {V : Type} (k : string) (v : V) (m : list (string * V))
  : list (string * V) :=
  match m with
  | [] => [(k, v)]
  | (k', v') :: m' =>
      if String.eqb k k' then (k', v) :: m' else (k', v') :: map_set k v m'
  end.

Definition keys {V : Type} (m : list (string * V)) : list string := map fst m.

Definition values {V : Type} (m : list (string * V)) : list V := map snd m.

Section Bot.

(** The provider, the numbers of [target_price], and the clock: the text of
    the k-th [new Date().toISOString()] of the process. *)
Variable env : Env.
Variable number : Type.
Variable clock : nat -> string.

Record TrackingInfo : Type := {
  first_tracked : string;
  last_updated : string;
  latest_data : option (JsonText Envelope.t);
  name : string;
  platform : string;
  target_price : option number;
  update_count : nat;
  url : string
}.

(** [debug_stats], and the number of times the clock was read. *)
Record Stats : Type := {
  tool_calls : list (string * nat);
  tracked_products : list (string * TrackingInfo);
  clock_reads : nat
}.

(** A tool: it reads and updates [debug_stats] and talks to the provider. *)
Definition B (A : Type) : Type :=
  Stats -> list event -> (exn + A) * Stats * list event.

Definition retB {A : Type} (a : A) : B A := fun st h => (inr a, st, h).

Definition throwB {A : Type} (e : exn) : B A := fun st h => (inl e, st, h).

Definition bindB {A C : Type} (m : B A) (k : A -> B C) : B C :=
  fun st h =>
    match m st h with
    | (inl e, st', h') => (inl e, st', h')
    | (inr a, st', h') => k a st' h'
    end.

Definition try_catchB {A : Type} (m : B A) (handler : exn -> B A) : B A :=
  fun st h =>
    match m st h with
    | (inl e, st', h') => handler e st' h'
    | (inr a, st', h') => (inr a, st', h')
    end.

(** A computation that does not touch [debug_stats]. *)
Definition liftB {A : Type} (m : M A) : B A :=
  fun st h => let (r, h') := m h in (r, st, h').

(** [new Date().toISOString()] *)
Definition date_now : B string :=
  fun st h =>
    (inr (clock (clock_reads st)),
     {| tool_calls := tool_calls st;
        tracked_products := tracked_products st;
        clock_reads := S (clock_reads st) |},
     h).

Definition get_tracked : B (list (string * TrackingInfo)) :=
  fun st h => (inr (tracked_products st), st, h).

Definition set_tracked (k : string) (info : TrackingInfo) : B unit :=
  fun st h =>
    (inr tt,
     {| tool_calls := tool_calls st;
        tracked_products := map_set k info (tracked_products st);
        clock_reads := clock_reads st |},
     h).

(** [tool_fn(name, fn)]: the call is counted, then the tool runs. *)
Definition tool_fn {A : Type} (tool : string) (fn : B A) : B A :=
  fun st h =>
    let calls :=
      match map_get tool (tool_calls st) with Some n => n | None => 0 end in
    fn {| tool_calls := map_set tool (calls + 1) (tool_calls st);
          tracked_products := tracked_products st;
          clock_reads := clock_reads st |} h.

Local Notation "x <-- m ;; k" := (bindB m (fun x => k))
  (at level 61, m at next level, right associativity).
Local Notation "m ;;;; k" := (bindB m (fun _ => k))
  (at level 61, right associativity).

(** The polling loop of the first generation: on success the URL is added
    to the tracked products when it is not there. *)
Fixpoint poll (attempts : nat) (snapshot_id : Json.t) (platform0 url0 : string)
  : B (JsonText Envelope.t) :=
  match attempts with
  | O => throwB (Error "Timeout waiting for dataset results")
  | S attempts' =>
      liftB (emit (Sleep 2000)) ;;;;
      status_response <--
        liftB (axios (GetProgress snapshot_id)
                 (fun h => progress env h snapshot_id)) ;;
      status <-- liftB (lift (Server.status_of status_response)) ;;
      if Server.is_string status "running" then poll attempts' snapshot_id platform0 url0
      else if Server.is_string status "failed"
      then throwB (Error "Dataset collection failed")
      else
        results_response <--
          liftB (axios (GetSnapshot snapshot_id)
                   (fun h => snapshot env h snapshot_id)) ;;
        let product_data :=
          {| Envelope.data := Envelope.Dataset results_response;
             Envelope.method := "structured_dataset";
             Envelope.platform := platform0;
             Envelope.url := url0 |} in
        tracked <-- get_tracked ;;
        match map_get url0 tracked with
        | Some _ => retB (Stringify product_data)
        | None =>
            first <-- date_now ;;
            last <-- date_now ;;
            set_tracked url0
              {| first_tracked := first;
                 last_updated := last;
                 latest_data := None;
                 name := "";
                 platform := platform0;
                 target_price := None;
                 update_count := 1;
                 url := url0 |} ;;;;
            retB (Stringify product_data)
        end
  end.

(** The tool [get_product_details] of the first generation. *)
Definition get_product_details (url0 : string) : B (JsonText Envelope.t) :=
  tool_fn "get_product_details"
    (let platform0 := Platform.detect_platform url0 in
     match Platform.get_dataset_id platform0 with
     | None =>
         response <--
           liftB (axios (PostRequestAs url0 (unlocker_zone env) "markdown")
                    (fun h => raw_content env h url0 (unlocker_zone env))) ;;
         retB (Stringify {| Envelope.data := Envelope.Raw response;
                            Envelope.method := "scraping";
                            Envelope.platform := platform0;
                            Envelope.url := url0 |})
     | Some dataset_id =>
         trigger_response <--
           liftB (axios (PostTrigger url0 dataset_id)
                    (fun h => trigger env h url0 dataset_id)) ;;
         match Server.snapshot_id_of trigger_response with
         | Some snapshot_id =>
             if Json.truthy (Some snapshot_id)
             then poll Server.max_attempts snapshot_id platform0 url0
             else throwB (Error "Failed to trigger dataset collection")
         | None => throwB (Error "Failed to trigger dataset collection")
         end
     end).

(** The search URL of the first generation (no [intl] on bestbuy). *)
Definition search_url_for (platform0 query : string) : string :=
  let q := Js.encodeURIComponent query in
  if String.eqb platform0 "amazon" then "https://www.amazon.com/s?k=" ++ q
  else if String.eqb platform0 "bestbuy" then
    "https://www.bestbuy.com/site/searchpage.jsp?st=" ++ q
  else if String.eqb platform0 "ebay" then "https://www.ebay.com/sch/i.html?_nkw=" ++ q
  else if String.eqb platform0 "etsy" then "https://www.etsy.com/search?q=" ++ q
  else if String.eqb platform0 "homedepot" then "https://www.homedepot.com/search?q=" ++ q
  else if String.eqb platform0 "walmart" then "https://www.walmart.com/search?q=" ++ q
  else if String.eqb platform0 "zara" then "https://www.zara.com/us/en/search?q=" ++ q
  else "".

(** An entry of [results] in [search_products]: the page as it came, or the
    error. *)
Record RawSearchEntry : Type := {
  entry_data : option string;        (* data *)
  entry_error : option string;       (* error *)
  entry_platform : string;           (* platform *)
  entry_search_url : string          (* search_url *)
}.

Definition search_one (query platform0 : string) : B RawSearchEntry :=
  try_catchB
    (let search_url := search_url_for platform0 query in
     response <--
       liftB (axios (PostRequestAs search_url (unlocker_zone env) "markdown")
                (fun h => raw_content env h search_url (unlocker_zone env))) ;;
     retB {| entry_data := Some response;
             entry_error := None;
             entry_platform := platform0;
             entry_search_url := search_url |})
    (fun e =>
       retB {| entry_data := None;
               entry_error := Some (message e);
               entry_platform := platform0;
               entry_search_url := "" |}).

(** [for (const x of xs) { results.push(await body x) }] *)
Fixpoint for_each {A C : Type} (xs : list A) (body : A -> B C) (results : list C)
  : B (list C) :=
  match xs with
  | [] => retB results
  | x :: xs' =>
      r <-- body x ;;
      for_each xs' body (Scraper.push results r)
  end.

Record RawSearchOutput : Type := {
  platforms_searched : list string;
  search_query : string;             (* query *)
  search_results : list RawSearchEntry   (* results *)
}.

(** The tool [search_products] of the first generation. *)
Definition search_products (platforms : list string) (query : string)
  : B (JsonText RawSearchOutput) :=
  tool_fn "search_products"
    (results <-- for_each platforms (search_one query) [] ;;
     retB (Stringify {| platforms_searched := platforms;
                        search_query := query;
                        search_results := results |})).

(** An entry of [results] in [compare_prices]: the details of a URL, or
    [{ error, url }]. *)
Inductive ComparisonEntry : Type :=
| Details (product_details : JsonText Envelope.t)
| Failed (error url0 : string).

(** The members the tools read from [server.tools]. *)
Record ServerTools : Type := {
  tools_get_product_details : string -> B (JsonText Envelope.t);
  tools_search_products : list string -> string -> B (JsonText RawSearchOutput)
}.

(** [server.tools]: the source casts the server to a type that has [tools],
    but nothing assigns the property and the library's server has none, so
    the value is [undefined]. *)
Definition server_tools : option ServerTools := None.

(** [tools.name], for [tools = server.tools]: reading a property of
    [undefined] throws. *)
Definition member {A : Type} (tools : option ServerTools) (name0 : string)
  (get : ServerTools -> A) : B A :=
  match tools with
  | Some t => retB (get t)
  | None => throwB (Server.undefined_member name0)
  end.

Definition compare_one (url0 : string) : B ComparisonEntry :=
  try_catchB
    (execute <-- member server_tools "get_product_details" tools_get_product_details ;;
     product_details <-- execute url0 ;;
     retB (Details product_details))
    (fun e => retB (Failed (message e) url0)).

Record ComparisonOutput : Type := {
  comparison_query : option string;                       (* query *)
  comparison_results : option (list ComparisonEntry);     (* results *)
  comparison_timestamp : string;                          (* timestamp *)
  comparison_type : string                                (* type *)
}.

(** The tool [compare_prices] of the first generation.  As in the second
    one, [search_results] would be a string, whose [results] is
    [undefined]. *)
Definition compare_prices (platforms : list string) (query : option string)
  (url_list : option (list string)) : B (JsonText ComparisonOutput) :=
  tool_fn "compare_prices"
    (results <--
       match url_list with
       | Some (u :: us) =>
           rs <-- for_each (u :: us) compare_one [] ;;
           retB (Some rs)
       | _ =>
           match query with
           | Some q =>
               if Js.truthy q then
                 execute <-- member server_tools "search_products" tools_search_products ;;
                 execute platforms q ;;;; retB None
               else throwB (Error "Either query or urls must be provided")
           | None => throwB (Error "Either query or urls must be provided")
           end
       end ;;
     timestamp <-- date_now ;;
     retB (Stringify
             {| comparison_query :=
                  match query with
                  | Some q => if Js.truthy q then Some q else None
                  | None => None
                  end;
                comparison_results := results;
                comparison_timestamp := timestamp;
                comparison_type :=
                  match url_list with
                  | Some _ => "url_comparison"
                  | None => "search_comparison"
                  end |})).

Record TrackOutput : Type := {
  track_message : string;            (* message *)
  total_tracked : nat;
  tracking_info : TrackingInfo
}.

(** The tool [track_product] of the first generation. *)
Definition track_product (name0 : option string) (target_price0 : option number)
  (url0 : string) : B (JsonText TrackOutput) :=
  tool_fn "track_product"
    (tracked <-- get_tracked ;;
     let existing := map_get url0 tracked in
     let platform0 := Platform.detect_platform url0 in
     first <--
       match existing with
       | Some info =>
           if Js.truthy (first_tracked info) then retB (first_tracked info)
           else date_now
       | None => date_now
       end ;;
     last <-- date_now ;;
     let info :=
       {| first_tracked := first;
          last_updated := last;
          latest_data := None;
          name := match name0 with
                  | Some n => Js.or_else n ("Product from " ++ platform0)
                  | None => "Product from " ++ platform0
                  end;
          platform := platform0;
          target_price := target_price0;
          update_count :=
            match existing with
            | Some old => update_count old + 1
            | None => 0 + 1
            end;
          url := url0 |} in
     set_tracked url0 info ;;;;
     tracked' <-- get_tracked ;;
     retB (Stringify {| track_message := "Product added to tracking list";
                        total_tracked := List.length tracked';
                        tracking_info := info |})).

Record TrackedOutput : Type := {
  last_check : string;
  products : list TrackingInfo;
  tracked_total : nat                (* total_tracked *)
}.

(** The tool [get_tracked_products]. *)
Definition get_tracked_products : B (JsonText TrackedOutput) :=
  tool_fn "get_tracked_products"
    (all <-- get_tracked ;;
     let tracked := values all in
     last <-- date_now ;;
     retB (Stringify {| last_check := last;
                        products := tracked;
                        tracked_total := List.length tracked |})).

Record UpdateEntry : Type := {
  update_data : option (JsonText Envelope.t);     (* data *)
  update_error : option string;                   (* error *)
  update_status : string;                         (* status *)
  update_url : string                             (* url *)
}.

(** The body of the loop of [update_tracked_prices]. *)
Definition update_one (product_url : string) : B UpdateEntry :=
  try_catchB
    (execute <-- member server_tools "get_product_details" tools_get_product_details ;;
     current_data <-- execute product_url ;;
     tracked <-- get_tracked ;;
     match map_get product_url tracked with
     | Some info =>
         last <-- date_now ;;
         set_tracked product_url
           {| first_tracked := first_tracked info;
              last_updated := last;
              latest_data := Some current_data;
              name := name info;
              platform := platform info;
              target_price := target_price info;
              update_count := update_count info + 1;
              url := url info |}
     | None => retB tt
     end ;;;;
     retB {| update_data := Some current_data;
             update_error := None;
             update_status := "updated";
             update_url := product_url |})
    (fun e =>
       retB {| update_data := None;
               update_error := Some (message e);
               update_status := "error";
               update_url := product_url |}).

Record UpdateOutput : Type := {
  update_timestamp : string;         (* timestamp *)
  updated_products : nat;
  updates : list UpdateEntry
}.

(** The tool [update_tracked_prices]: one URL when it is given, every
    tracked URL otherwise. *)
Definition update_tracked_prices (url0 : option string) : B (JsonText UpdateOutput) :=
  tool_fn "update_tracked_prices"
    (tracked <-- get_tracked ;;
     let urls_to_update :=
       match url0 with
       | Some u => if Js.truthy u then [u] else keys tracked
       | None => keys tracked
       end in
     results <-- for_each urls_to_update update_one [] ;;
     timestamp <-- date_now ;;
     retB (Stringify {| update_timestamp := timestamp;
                        updated_products := List.length results;
                        updates := results |})).

End Bot.

(** The number of calls counted for a tool. *)
Definition calls_of {number : Type} (st : Stats number) (tool : string) : nat :=
  match map_get tool (tool_calls number st) with
  | Some n => n
  | None => 0
  end.

(** The URLs tracked, in the order they were first tracked. *)
Definition tracked_urls {number : Type} (st : Stats number) : list string :=
  keys (tracked_products number st).

End PriceBot.

Module PriceBotSpec.

Import PriceBot.

(** What a tool may do to the tracked products: the URLs stay, in order,
    new ones are added at the end, and an entry that stays keeps its first
    tracking time (when it has one) and never counts fewer updates. *)
Definition grows {number : Type} (st st' : Stats number) : Prop :=
  (exists added, tracked_urls st' = (tracked_urls st ++ added)%list)
  /\ forall k info,
       map_get k (tracked_products number st) = Some info ->
       exists info',
         map_get k (tracked_products number st') = Some info'
         /\ (Js.truthy (first_tracked number info) = true ->
             first_tracked number info' = first_tracked number info)
         /\ update_count number info <= update_count number info'.

(** What the polling loop of the first generation does to the state: the
    counters stay; the tracked products stay, or the URL, not tracked
    before, is added with one update, and then the loop returns. *)
Definition registers {number : Type} (u : string) (st st' : Stats number)
  (returned : bool) : Prop :=
  tool_calls number st' = tool_calls number st
  /\ (tracked_products number st' = tracked_products number st
      \/ (returned = true
          /\ map_get u (tracked_products number st) = None
          /\ exists info,
               tracked_products number st'
               = (tracked_products number st ++ [(u, info)])%list
               /\ update_count number info = 1)).

Definition is_returned {A : Type} (r : exn + A) : bool :=
  match r with inr _ => true | inl _ => false end.

(** The entry of [compare_prices] for a URL whose details could not be
    asked for: [server.tools] has no [get_product_details] to read. *)
Definition unreached_comparison (url0 : string) : ComparisonEntry :=
  Failed (message (Server.undefined_member "get_product_details")) url0.

(** The entry of [update_tracked_prices] for such a URL. *)
Definition unreached_update (url0 : string) : UpdateEntry :=
  {| update_data := None;
     update_error := Some (message (Server.undefined_member "get_product_details"));
     update_status := "error";
     update_url := url0 |}.

(** An entry of the first generation's [search_products] for a platform
    and a query: the page of the search URL as it came, or the message of
    the error and an empty search URL. *)
Definition raw_entry_of (query platform0 : string) (entry : RawSearchEntry) : Prop :=
  entry_platform entry = platform0
  /\ ((exists page, entry_data entry = Some page
                    /\ entry_error entry = None
                    /\ entry_search_url entry = search_url_for platform0 query)
      \/ (exists msg, entry_error entry = Some msg
                      /\ entry_data entry = None
                      /\ entry_search_url entry = "")).

(** The request the first generation's [search_products] sends for a
    platform. *)
Definition raw_search_request (env : Net.Env) (query platform0 : string) : Net.event :=
  Net.Request
    (Net.PostRequestAs (search_url_for platform0 query) (Net.unlocker_zone env)
       "markdown").

(** The state a tool leaves. *)
Definition state_after {number A : Type}
  (outcome : (exn + A) * Stats number * list Net.event) : Stats number :=
  snd (fst outcome).

End PriceBotSpec.

Module PriceBotFixtures.

Import PriceBot.

(** The k-th reading of the clock. *)
Definition clock (k : nat) : string :=
  ("2025-01-01T00:00:0" ++ NilEmpty.string_of_uint (Nat.to_uint k) ++ ".000Z")%string.

(** The product of [ServerFixtures.amazon_url], tracked once with a target
    price (in cents), and nothing counted yet. *)
Definition mug : TrackingInfo nat :=
  {| first_tracked := "2024-12-31T08:00:00.000Z";
     last_updated := "2024-12-31T08:00:00.000Z";
     latest_data := None;
     name := "Mug";
     platform := "amazon";
     target_price := Some 1000;
     update_count := 1;
     url := ServerFixtures.amazon_url |}.

Definition tracking_mug : Stats nat :=
  {| tool_calls := [];
     tracked_products := [(ServerFixtures.amazon_url, mug)];
     clock_reads := 0 |}.

End PriceBotFixtures.

(** * Part II: the properties *)

(** Some evaluations of the primitives. *)
Example parseFloat_price : Js.parseFloat "19.99" = Js.Num "19.99".
Proof. reflexivity. Qed.

Example parseFloat_words : Js.parseFloat "Call for price" = Js.NaN.
Proof. reflexivity. Qed.

Example parseFloat_prefix : Js.parseFloat "  -3.5e2abc" = Js.Num "-3.5e2".
Proof. reflexivity. Qed.

Example replace_first_only : Js.replace "$1,234,567" "," "" = "$1234,567".
Proof. reflexivity. Qed.

Example trim_both : Js.trim "  a b  " = "a b".
Proof. reflexivity. Qed.

Example encode_query : Js.encodeURIComponent "usb c" = "usb%20c".
Proof. reflexivity. Qed.

Section StringFacts.

Lemma startsWith_iff (s p : string) :
  Js.startsWith s p = true <-> exists r, s = p ++ r.
Proof.
  unfold Js.startsWith. revert s.
  induction p as [|c p IH]; intros s.
  - split; [intros _; now exists s | destruct s; reflexivity].
  - destruct s as [|d s]; simpl.
    + split; [discriminate | intros [r Hr]; discriminate].
    + destruct (ascii_dec c d) as [->|Hcd].
      * rewrite IH. split; intros [r Hr]; exists r; congruence.
      * split; [discriminate | intros [r Hr]; congruence].
Qed.

Lemma includes_iff (s t : string) :
  Js.includes s t = true <-> Platform.contains s t.
Proof.
  unfold Platform.contains.
  induction s as [|c s IH]; cbn [Js.includes].
  - destruct (Js.startsWith "" t) eqn:E.
    + apply startsWith_iff in E. destruct E as [r Hr].
      split; [intros _; exists "", r; exact Hr | reflexivity].
    + split; [discriminate|].
      intros (a & b & H). destruct a; simpl in H.
      * assert (Js.startsWith "" t = true)
          by (apply startsWith_iff; now exists b).
        congruence.
      * discriminate.
  - destruct (Js.startsWith (String c s) t) eqn:E.
    + apply startsWith_iff in E. destruct E as [r Hr].
      split; [intros _; exists "", r; exact Hr | reflexivity].
    + rewrite IH. split.
      * intros (a & b & ->). now exists (String c a), b.
      * intros (a & b & H). destruct a as [|d a]; simpl in H.
        -- assert (Js.startsWith (String c s) t = true)
             by (apply startsWith_iff; now exists b).
           congruence.
        -- exists a, b. congruence.
Qed.

Lemma find_first {A} (p : A -> bool) (l : list A) (x : A) :
  find p l = Some x ->
  exists pre post, l = (pre ++ x :: post)%list /\ p x = true
                   /\ forall y, In y pre -> p y = false.
Proof.
  induction l as [|a l IH]; simpl; [discriminate|].
  destruct (p a) eqn:E.
  - intros [= ->]. exists [], l. repeat split; auto. intros y [].
  - intros H. destruct (IH H) as (pre & post & -> & Hx & Hpre).
    exists (a :: pre), post. repeat split; auto.
    intros y [<-|Hy]; auto.
Qed.

Lemma find_none {A} (p : A -> bool) (l : list A) :
  find p l = None -> forall y, In y l -> p y = false.
Proof.
  induction l as [|a l IH]; simpl; [intros _ y []|].
  destruct (p a) eqn:E; [discriminate|].
  intros H y [<-|Hy]; auto.
Qed.

End StringFacts.

Lemma detect_platform_is_first_fragment (url : string) :
  Platform.detect_platform url = Platform.first_fragment_tag url.
Proof.
  unfold Platform.detect_platform, Platform.first_fragment_tag,
    Platform.platform_fragments.
  simpl.
  repeat match goal with
         | |- context [Js.includes url ?f] =>
             destruct (Js.includes url f); [reflexivity|]
         end.
  reflexivity.
Qed.

(** C5. [detect_platform] is total (it is a function on every string, so it
    cannot throw) and returns the tag of the first fragment of
    amazon., ebay., walmart., etsy., bestbuy., homedepot., zara. (in that
    order) that the URL contains as a substring; it returns "unknown" when
    the URL contains none of them. *)
Theorem detect_platform_first_match (url : string) :
  exists tag : string,
    Platform.detect_platform url = tag /\
    ((tag = "unknown" /\
      forall frag t, In (frag, t) Platform.platform_fragments ->
                     ~ Platform.contains url frag)
     \/
     (exists pre frag post,
        Platform.platform_fragments = (pre ++ (frag, tag) :: post)%list /\
        Platform.contains url frag /\
        forall frag' t', In (frag', t') pre -> ~ Platform.contains url frag')).
Proof.
  exists (Platform.detect_platform url). split; [reflexivity|].
  rewrite detect_platform_is_first_fragment.
  unfold Platform.first_fragment_tag.
  destruct (find _ Platform.platform_fragments) as [[frag tag]|] eqn:E.
  - right. apply find_first in E.
    destruct E as (pre & post & Hl & Hin & Hpre). simpl in Hin.
    exists pre, frag, post. split; [exact Hl|]. split.
    + now apply includes_iff.
    + intros f t Hf Hc. apply includes_iff in Hc.
      specialize (Hpre _ Hf). simpl in Hpre. congruence.
  - left. split; [reflexivity|].
    intros f t Hf Hc. apply includes_iff in Hc.
    pose proof (find_none _ _ E _ Hf) as Hn. simpl in Hn. congruence.
Qed.

Example detect_ebay :
  Platform.detect_platform "https://www.ebay.com/itm/123" = "ebay".
Proof. reflexivity. Qed.

Example detect_first_wins :
  Platform.detect_platform "https://zara.example/?ref=amazon.com" = "amazon".
Proof. reflexivity. Qed.

Example dataset_unknown : Platform.get_dataset_id "unknown" = None.
Proof. reflexivity. Qed.

Lemma get_dataset_id_known (platform : string) :
  In platform ["amazon"; "bestbuy"; "ebay"; "etsy"; "homedepot"; "walmart"; "zara"] ->
  exists id, Platform.get_dataset_id platform = Some id /\ id <> "".
Proof.
  simpl. intros H.
  repeat (destruct H as [<-|H]; [eexists; split; [reflexivity|discriminate]|]).
  destruct H.
Qed.

(** The only detected platform without a dataset id is "unknown". *)
Lemma dataset_absent_iff_unknown (url : string) :
  Platform.get_dataset_id (Platform.detect_platform url) = None <->
  Platform.detect_platform url = "unknown".
Proof.
  unfold Platform.detect_platform.
  repeat match goal with
         | |- context [Js.includes url ?f] =>
             destruct (Js.includes url f);
             [split; [discriminate | discriminate]|]
         end.
  split; reflexivity.
Qed.

(** ** Properties of the scraper *)

Section ScraperFacts.

Context {dom : Cheerio.Api} {urls : Url.Api}.

Lemma truthy_nonempty (s : string) : Js.truthy s = true -> s <> "".
Proof. destruct s; [discriminate | intros _; discriminate]. Qed.

Lemma or_truthy_nonempty (a b : string) :
  Js.truthy a || Js.truthy b = true -> a <> "" \/ b <> "".
Proof.
  intros H. apply orb_true_iff in H.
  destruct H as [H|H]; [left | right]; now apply truthy_nonempty.
Qed.

Lemma append_nonempty_right (a b : string) : b <> "" -> a ++ b <> "".
Proof. destruct a; simpl; [auto | discriminate]. Qed.

(** A truthy result of the href resolution comes from a present, non-empty
    href. *)
Lemma absolute_url_truthy (baseUrl : string) (href : option string) :
  Js.truthy (Scraper.absolute_url baseUrl href) = true ->
  exists h, href = Some h /\ h <> "" /\
            Scraper.absolute_url baseUrl href
            = if Js.startsWith h "http" then h else baseUrl ++ h.
Proof.
  unfold Scraper.absolute_url.
  destruct href as [h|]; [|discriminate].
  destruct (Js.truthy h) eqn:Hh; [|discriminate].
  intros _. exists h. repeat split. now apply truthy_nonempty.
Qed.

(** A loop that only pushes keeps every property of the pushed items. *)
Lemma each_push_Forall {A B : Type} (Q : B -> Prop)
  (body : list B -> A -> list B) (sel : list A) (init : list B) :
  Forall Q init ->
  (forall acc a, In a sel -> Forall Q acc -> Forall Q (body acc a)) ->
  Forall Q (Cheerio.each sel body init).
Proof.
  unfold Cheerio.each. revert init.
  induction sel as [|a sel IH]; intros init Hinit Hstep; simpl; [exact Hinit|].
  apply IH.
  - apply Hstep; [now left | exact Hinit].
  - intros acc b Hb. apply Hstep. now right.
Qed.

Lemma push_Forall {B : Type} (Q : B -> Prop) (acc : list B) (x : B) :
  Forall Q acc -> Q x -> Forall Q (Scraper.push acc x).
Proof.
  intros Hacc Hx. unfold Scraper.push. apply Forall_app. split; auto.
Qed.

End ScraperFacts.

Example ebay_mixed_results :
  Scraper.parseSearchResults (dom := MiniDom.cheerio)
    Fixtures.ebay_mixed "ebay" "https://www.ebay.com"
  = [Fixtures.lamp].
Proof. vm_compute. reflexivity. Qed.

(** On Walmart (and Zara) the url is [baseUrl + href] whatever [href] is, and
    is not tested: an item without a link is emitted, its url ending in
    [undefined]. *)
Example walmart_emits_without_href :
  Scraper.parseSearchResults (dom := MiniDom.cheerio)
    Fixtures.walmart_no_link "walmart" "https://www.walmart.com"
  = [ {| SearchResult.currency := "USD";
         SearchResult.image := None;
         SearchResult.name := "Kettle";
         SearchResult.platform := "walmart";
         SearchResult.price := Js.Num "24.99";
         SearchResult.rating := None;
         SearchResult.reviews := None;
         SearchResult.url := "https://www.walmart.comundefined" |} ].
Proof. vm_compute. reflexivity. Qed.

Example zara_emits_without_href :
  map SearchResult.url
    (Scraper.parseSearchResults (dom := MiniDom.cheerio)
       Fixtures.zara_no_link "zara" "https://www.zara.com")
  = ["https://www.zara.comundefined"].
Proof. vm_compute. reflexivity. Qed.


Section SearchItemFacts.

Import SearchSpec.

Context {dom : Cheerio.Api}.

(** A loop that pushes one item for each element that passes a test, and
    nothing for any other: the items correspond, in order, to the elements
    that pass. *)
Lemma each_Forall2 {A B : Type} (P : A -> bool) (R : A -> B -> Prop)
  (body : list B -> A -> list B) (sel : list A) :
  (forall acc a,
      if P a then exists b, body acc a = Scraper.push acc b /\ R a b
      else body acc a = acc) ->
  forall init, exists out,
    Cheerio.each sel body init = (init ++ out)%list /\ Forall2 R (filter P sel) out.
Proof.
  intros Hstep. unfold Cheerio.each.
  induction sel as [|a sel IH]; intros init; simpl.
  - exists []. rewrite app_nil_r. split; [reflexivity | constructor].
  - specialize (Hstep init a). destruct (P a).
    + destruct Hstep as (b & -> & Hb).
      destruct (IH (Scraper.push init b)) as (out & -> & HF).
      exists (b :: out). unfold Scraper.push. rewrite <- app_assoc.
      split; [reflexivity | now constructor].
    + rewrite Hstep. apply IH.
Qed.

Lemma link_present_absolute (baseUrl : string) (h : option string) :
  Js.truthy (Scraper.absolute_url baseUrl h) = link_present h.
Proof.
  unfold Scraper.absolute_url, link_present.
  destruct h as [t|]; [|reflexivity].
  destruct (Js.truthy t) eqn:Ht; [|reflexivity].
  destruct (Js.startsWith t "http"); [exact Ht|].
  destruct baseUrl; [exact Ht | reflexivity].
Qed.

Lemma link_present_href (baseUrl : string) (h : option string) :
  link_present h = true ->
  exists t, h = Some t /\ t <> ""
            /\ Scraper.absolute_url baseUrl h
               = if Js.startsWith t "http" then t else baseUrl ++ t.
Proof.
  unfold link_present, Scraper.absolute_url.
  destruct h as [t|]; [|discriminate].
  intros Ht. rewrite Ht. exists t. repeat split. now apply truthy_nonempty.
Qed.

Ltac complete_item baseUrl :=
  intros acc element; unfold complete, read; cbn [String.eqb Ascii.eqb Bool.eqb];
  cbv zeta; cbn [name_text tested_price parsed_price href url_tested existsb];
  rewrite ?orb_false_r, ?andb_true_r, <- ?(link_present_absolute baseUrl);
  match goal with
  | |- if ?c then _ else _ => destruct c eqn:Hc; [|reflexivity]
  end;
  eexists; split; [reflexivity|];
  repeat match goal with
         | H : _ && _ = true |- _ => apply andb_true_iff in H; destruct H
         end;
  eexists; split; [reflexivity|];
  cbn [name_text tested_price parsed_price href url_tested
       SearchResult.name SearchResult.platform SearchResult.price SearchResult.url].

Ltac loop_items platform baseUrl :=
  match goal with
  | |- Forall2 _ _ (Cheerio.each ?sel ?body []) =>
      let out := fresh "out" in
      let Hout := fresh "Hout" in
      let HF := fresh "HF" in
      destruct (each_Forall2 (complete platform) (emitted_from platform baseUrl)
                  body sel) with (init := @nil SearchResult.t)
        as (out & Hout & HF);
      [|rewrite Hout; exact HF]
  end.

Ltac nonempty_part :=
  match goal with
  | H : Js.truthy ?p = true |- exists part, In part [?p] /\ _ =>
      exists p; split; [now left | now apply truthy_nonempty]
  | H : Js.truthy ?p || Js.truthy ?q = true |- exists part, In part [?p; ?q] /\ _ =>
      apply orb_true_iff in H; destruct H as [H|H];
      [ exists p; split; [now left | now apply truthy_nonempty]
      | exists q; split; [right; now left | now apply truthy_nonempty] ]
  end.

Ltac item_fields :=
  split; [reflexivity|];
  split; [now apply truthy_nonempty|];
  split; [reflexivity|];
  split; [nonempty_part|];
  split; [reflexivity|];
  split;
  [ first [ discriminate | intros _; now apply absolute_url_truthy ]
  | first [ discriminate | intros _; reflexivity ] ].

Lemma amazon_items (doc : Cheerio.Document) (baseUrl : string) :
  Forall2 (emitted_from "amazon" baseUrl)
    (filter (complete "amazon") (Cheerio.select doc (item_selector "amazon")))
    (Scraper.parseAmazonSearch doc baseUrl).
Proof.
  unfold Scraper.parseAmazonSearch. loop_items "amazon" baseUrl.
  complete_item baseUrl. item_fields.
Qed.

Lemma bestbuy_items (doc : Cheerio.Document) (baseUrl : string) :
  Forall2 (emitted_from "bestbuy" baseUrl)
    (filter (complete "bestbuy") (Cheerio.select doc (item_selector "bestbuy")))
    (Scraper.parseBestBuySearch doc baseUrl).
Proof.
  unfold Scraper.parseBestBuySearch. loop_items "bestbuy" baseUrl.
  complete_item baseUrl. item_fields.
Qed.

Lemma ebay_items (doc : Cheerio.Document) (baseUrl : string) :
  Forall2 (emitted_from "ebay" baseUrl)
    (filter (complete "ebay") (Cheerio.select doc (item_selector "ebay")))
    (Scraper.parseEbaySearch doc baseUrl).
Proof.
  unfold Scraper.parseEbaySearch. loop_items "ebay" baseUrl.
  complete_item baseUrl. item_fields.
Qed.

Lemma etsy_items (doc : Cheerio.Document) (baseUrl : string) :
  Forall2 (emitted_from "etsy" baseUrl)
    (filter (complete "etsy") (Cheerio.select doc (item_selector "etsy")))
    (Scraper.parseEtsySearch doc baseUrl).
Proof.
  unfold Scraper.parseEtsySearch. loop_items "etsy" baseUrl.
  complete_item baseUrl. item_fields.
Qed.

Lemma homedepot_items (doc : Cheerio.Document) (baseUrl : string) :
  Forall2 (emitted_from "homedepot" baseUrl)
    (filter (complete "homedepot") (Cheerio.select doc (item_selector "homedepot")))
    (Scraper.parseHomeDepotSearch doc baseUrl).
Proof.
  unfold Scraper.parseHomeDepotSearch. loop_items "homedepot" baseUrl.
  complete_item baseUrl. item_fields.
Qed.

Lemma walmart_items (doc : Cheerio.Document) (baseUrl : string) :
  Forall2 (emitted_from "walmart" baseUrl)
    (filter (complete "walmart") (Cheerio.select doc (item_selector "walmart")))
    (Scraper.parseWalmartSearch doc baseUrl).
Proof.
  unfold Scraper.parseWalmartSearch. loop_items "walmart" baseUrl.
  complete_item baseUrl. item_fields.
Qed.

Lemma zara_items (doc : Cheerio.Document) (baseUrl : string) :
  Forall2 (emitted_from "zara" baseUrl)
    (filter (complete "zara") (Cheerio.select doc (item_selector "zara")))
    (Scraper.parseZaraSearch doc baseUrl).
Proof.
  unfold Scraper.parseZaraSearch. loop_items "zara" baseUrl.
  complete_item baseUrl. item_fields.
Qed.


End SearchItemFacts.


(** On the mixed eBay page: three item elements, of which the first is
    complete; the second has no price, the third no link. *)
Example ebay_mixed_complete_items :
  map (SearchSpec.complete (dom := MiniDom.cheerio) "ebay")
    (Cheerio.select (Cheerio.load Fixtures.ebay_mixed) (item_selector "ebay"))
  = [true; false; false].
Proof. vm_compute. reflexivity. Qed.

(** C8. For every platform tag without an extraction rule ("unknown"
    included), [parseProductDetails] throws the error "Unsupported platform"
    (on a base URL that the URL class accepts, which is parsed first), while
    [parseSearchResults] returns the empty sequence. *)
Theorem unsupported_platform_asymmetry {dom : Cheerio.Api} {urls : Url.Api}
  (html platform url baseUrl : string) (u : Url.t) :
  ~ In platform Scraper.supported_platforms ->
  Url.parse url = Some u ->
  Scraper.parseProductDetails html platform url
  = inl (Error ("Unsupported platform: " ++ platform))
  /\ Scraper.parseSearchResults html platform baseUrl = [].
Proof.
  intros Hnot Hurl.
  unfold Scraper.parseProductDetails, Scraper.parseSearchResults.
  rewrite Hurl.
  unfold Scraper.supported_platforms in Hnot. simpl in Hnot.
  repeat match goal with
         | |- context [String.eqb platform ?p] =>
             destruct (String.eqb_spec platform p) as [->|?];
             [exfalso; apply Hnot; tauto|]
         end.
  split; reflexivity.
Qed.

Lemma unsupported_platform_asymmetry_witness :
  ~ In "unknown" Scraper.supported_platforms
  /\ Url.parse (Api := MiniUrl.url) "https://shop.example.com"
     = Some {| Url.origin := "https://shop.example.com";
               Url.hostname := "shop.example.com" |}
  /\ Scraper.parseProductDetails (dom := MiniDom.cheerio) (urls := MiniUrl.url)
       "<h1>Mug</h1>" "unknown" "https://shop.example.com"
     = inl (Error "Unsupported platform: unknown")
  /\ Scraper.parseSearchResults (dom := MiniDom.cheerio)
       "<h1>Mug</h1>" "unknown" "https://shop.example.com" = [].
Proof.
  assert (Hnot : ~ In "unknown" Scraper.supported_platforms).
  { simpl. intros [H|[H|[H|[H|[H|[H|[H|[]]]]]]]]; discriminate. }
  assert (Hurl : Url.parse (Api := MiniUrl.url) "https://shop.example.com"
                 = Some {| Url.origin := "https://shop.example.com";
                           Url.hostname := "shop.example.com" |})
    by reflexivity.
  split; [exact Hnot|]. split; [exact Hurl|].
  exact (unsupported_platform_asymmetry (dom := MiniDom.cheerio) (urls := MiniUrl.url)
           "<h1>Mug</h1>" "unknown" "https://shop.example.com"
           "https://shop.example.com" _ Hnot Hurl).
Defined.

(** ** Properties of the dataset job poller *)

Section PollerFacts.

Import Net.

Context {dom : Cheerio.Api} {urls : Url.Api}.
Variable env : Env.

Lemma polls_app (a b : list event) : polls (a ++ b) = polls a + polls b.
Proof.
  induction a as [|[[]| |] a IH]; simpl; auto.
Qed.

Lemma fetches_app (a b : list event) : fetches (a ++ b) = fetches a + fetches b.
Proof.
  induction a as [|[[]| |] a IH]; simpl; auto.
Qed.

Lemma polls_rounds (n : nat) (sid : Json.t) : polls (Server.rounds n sid) = n.
Proof. induction n; simpl; auto. Qed.

Lemma fetches_rounds (n : nat) (sid : Json.t) : fetches (Server.rounds n sid) = 0.
Proof. induction n; simpl; auto. Qed.

(** A body with a status is not [null], so reading the status succeeds. *)
Lemma status_of_get (data : Json.t) (v : Json.t) :
  Json.get data "status" = Some v -> Server.status_of data = inr (Some v).
Proof.
  destruct data; simpl; try discriminate. intros ->. reflexivity.
Qed.

(** One round whose poll is answered "running" leaves the rest of the loop
    to run after the two events of the round. *)
Lemma poll_step_running (n : nat) (sid : Json.t) (platform url : string)
  (h : list event) :
  Server.answers_status env (h ++ [Sleep 2000])%list sid "running" ->
  Server.poll env (S n) sid platform url h
  = Server.poll env n sid platform url
      (h ++ [Sleep 2000; Request (GetProgress sid)])%list.
Proof.
  intros (data & Hp & Hs).
  cbn [Server.poll]. unfold bind, emit, axios, lift.
  rewrite Hp. rewrite (status_of_get _ _ Hs). simpl.
  rewrite <- app_assoc. reflexivity.
Qed.

(** As long as the polls are answered "running", the loop goes on. *)
Lemma poll_running_prefix (k n : nat) (sid : Json.t) (platform url : string) :
  forall h : list event,
    (forall h', polls h' < polls h + k -> Server.answers_status env h' sid "running") ->
    Server.poll env (k + n) sid platform url h
    = Server.poll env n sid platform url (h ++ Server.rounds k sid)%list.
Proof.
  induction k as [|k IH]; intros h Hrun.
  - simpl. now rewrite app_nil_r.
  - change (S k + n) with (S (k + n)).
    rewrite poll_step_running.
    + rewrite IH.
      * rewrite <- app_assoc. reflexivity.
      * intros h' Hh'. apply Hrun.
        rewrite polls_app in Hh'. simpl in Hh'. lia.
    + apply Hrun. rewrite polls_app. simpl. lia.
Qed.

(** The loop makes at most as many polls as it has attempts. *)
Lemma poll_bound (n : nat) (sid : Json.t) (platform url : string) :
  forall h : list event,
    polls (snd (Server.poll env n sid platform url h)) <= polls h + n.
Proof.
  induction n as [|n IH]; intros h.
  - simpl. lia.
  - cbn [Server.poll]. unfold bind, emit, axios, lift, throw, ret.
    set (h1 := (h ++ [Sleep 2000])%list).
    set (h2 := (h1 ++ [Request (GetProgress sid)])%list).
    assert (H2 : polls h2 = polls h + 1).
    { subst h2 h1. rewrite !polls_app. simpl. lia. }
    destruct (progress env h1 sid) as [e|data]; [simpl; lia|].
    destruct (Server.status_of data) as [e|status]; [simpl; lia|].
    destruct (Server.is_string status "running").
    + specialize (IH h2). lia.
    + destruct (Server.is_string status "failed"); [simpl; lia|].
      destruct (snapshot env h2 sid); simpl; rewrite polls_app; simpl; lia.
Qed.

(** A result is fetched at most once. *)
Lemma poll_fetches (n : nat) (sid : Json.t) (platform url : string) :
  forall h : list event,
    fetches (snd (Server.poll env n sid platform url h)) <= fetches h + 1.
Proof.
  induction n as [|n IH]; intros h.
  - simpl. lia.
  - cbn [Server.poll]. unfold bind, emit, axios, lift, throw, ret.
    set (h1 := (h ++ [Sleep 2000])%list).
    set (h2 := (h1 ++ [Request (GetProgress sid)])%list).
    assert (H2 : fetches h2 = fetches h).
    { subst h2 h1. rewrite !fetches_app. simpl. lia. }
    destruct (progress env h1 sid) as [e|data]; [simpl; lia|].
    destruct (Server.status_of data) as [e|status]; [simpl; lia|].
    destruct (Server.is_string status "running").
    + specialize (IH h2). lia.
    + destruct (Server.is_string status "failed"); [simpl; lia|].
      destruct (snapshot env h2 sid); simpl; rewrite fetches_app; simpl; lia.
Qed.

(** The whole tool makes at most [max_attempts] polls. *)
Lemma get_product_details_polls (url : string) (h : list event) :
  polls (snd (Server.get_product_details env url h)) <= polls h + 30.
Proof.
  unfold Server.get_product_details.
  destruct (Platform.get_dataset_id _) as [id|].
  - unfold bind, axios, throw.
    set (h1 := (h ++ [Request (PostTrigger url id)])%list).
    assert (H1 : polls h1 = polls h) by (subst h1; rewrite polls_app; simpl; lia).
    destruct (trigger env h url id) as [e|data]; [simpl; lia|].
    destruct (Server.snapshot_id_of data) as [sid|]; [|simpl; lia].
    destruct (Json.truthy (Some sid)); [|simpl; lia].
    pose proof (poll_bound Server.max_attempts sid
                  (Platform.detect_platform url) url h1) as Hb.
    unfold Server.max_attempts in *. lia.
  - unfold bind, Server.post_request, axios, lift, ret.
    assert (H1 : polls (h ++ [Request (PostRequest url (unlocker_zone env))])%list
                 = polls h) by (rewrite polls_app; simpl; lia).
    destruct (raw_content env h url (unlocker_zone env)); [simpl; lia|].
    destruct (Server.origin_of url); [simpl; lia|].
    destruct (Scraper.parseProductDetails _ _ _); simpl; lia.
Qed.

End PollerFacts.

Section PollerClaims.

Import Net.

Context {dom : Cheerio.Api} {urls : Url.Api}.

(** C6. When the trigger response has no snapshot identifier, the tool
    throws "Failed to trigger dataset collection" at once: the trigger is
    the only request made, so no poll and no result fetch is issued. *)
Theorem trigger_without_snapshot_fails (env : Env) (url : string)
  (h : list event) (id : string) (data : Json.t) :
  Platform.get_dataset_id (Platform.detect_platform url) = Some id ->
  trigger env h url id = inr data ->
  Json.truthy (Server.snapshot_id_of data) = false ->
  Server.get_product_details env url h
  = (inl (Error "Failed to trigger dataset collection"),
     (h ++ [Request (PostTrigger url id)])%list)
  /\ polls (snd (Server.get_product_details env url h)) = polls h
  /\ fetches (snd (Server.get_product_details env url h)) = fetches h.
Proof.
  intros Hid Htrig Hsid.
  assert (Hrun : Server.get_product_details env url h
                 = (inl (Error "Failed to trigger dataset collection"),
                    (h ++ [Request (PostTrigger url id)])%list)).
  { unfold Server.get_product_details. rewrite Hid.
    unfold bind, axios. rewrite Htrig.
    destruct (Server.snapshot_id_of data) as [sid|]; [|reflexivity].
    rewrite Hsid. reflexivity. }
  rewrite Hrun. simpl. rewrite polls_app, fetches_app. simpl.
  repeat split; lia.
Qed.

(** C7. The polling loop ends: whatever the provider answers, the tool makes
    at most 30 polls; and when the first 30 polls are all answered
    "running", it throws the timeout error after exactly 30 polls, without
    a 31st. *)
Theorem poll_budget (env : Env) (url : string) (h : list event) :
  polls (snd (Server.get_product_details env url h)) <= polls h + 30
  /\ (forall (id : string) (data sid : Json.t),
        Platform.get_dataset_id (Platform.detect_platform url) = Some id ->
        trigger env h url id = inr data ->
        Server.snapshot_id_of data = Some sid ->
        Json.truthy (Some sid) = true ->
        (forall h', polls h' < polls h + 30 ->
                    Server.answers_status env h' sid "running") ->
        Server.get_product_details env url h
        = (inl (Error "Timeout waiting for dataset results"),
           (h ++ Request (PostTrigger url id) :: Server.rounds 30 sid)%list)
        /\ polls (snd (Server.get_product_details env url h)) = polls h + 30).
Proof.
  split; [apply get_product_details_polls|].
  intros id data sid Hid Htrig Hsid Htruthy Hrun.
  assert (Hres : Server.get_product_details env url h
                 = (inl (Error "Timeout waiting for dataset results"),
                    (h ++ Request (PostTrigger url id) :: Server.rounds 30 sid)%list)).
  { unfold Server.get_product_details. rewrite Hid.
    unfold bind, axios. rewrite Htrig, Hsid, Htruthy.
    unfold Server.max_attempts.
    change 30 with (30 + 0) at 1.
    rewrite poll_running_prefix.
    - cbn [Server.poll]. unfold throw. rewrite <- app_assoc. reflexivity.
    - intros h' Hh'. apply Hrun. rewrite polls_app in Hh'. simpl in Hh'. lia. }
  rewrite Hres. split; [reflexivity|].
  cbn [snd]. rewrite polls_app. cbn [polls]. rewrite polls_rounds. lia.
Qed.

(** C2, amended. When the trigger gives a snapshot id, the first two polls
    are answered "running" and the third "ready", the tool makes exactly 3
    polls (each after a pause of 2 seconds), then fetches the result once
    and returns it as a "structured_dataset" envelope. *)
Theorem three_polls_then_fetch (env : Env) (url : string) (h : list event)
  (id : string) (data sid payload : Json.t) :
  Platform.get_dataset_id (Platform.detect_platform url) = Some id ->
  trigger env h url id = inr data ->
  Server.snapshot_id_of data = Some sid ->
  Json.truthy (Some sid) = true ->
  (forall h', polls h' < polls h + 2 -> Server.answers_status env h' sid "running") ->
  (forall h', polls h' = polls h + 2 -> Server.answers_status env h' sid "ready") ->
  (forall h', snapshot env h' sid = inr payload) ->
  let tr := (Request (PostTrigger url id) :: Server.rounds 3 sid
             ++ [Request (GetSnapshot sid)])%list in
  Server.get_product_details env url h
  = (inr (Stringify {| Envelope.data := Envelope.Dataset payload;
                       Envelope.method := "structured_dataset";
                       Envelope.platform := Platform.detect_platform url;
                       Envelope.url := url |}),
     (h ++ tr)%list)
  /\ polls_before_fetch tr = Some 3
  /\ fetches tr = 1.
Proof.
  intros Hid Htrig Hsid Htruthy Hrun Hready Hsnap tr.
  split; [|split; reflexivity].
  unfold Server.get_product_details. rewrite Hid.
  unfold bind, axios. rewrite Htrig, Hsid, Htruthy.
  unfold Server.max_attempts.
  change 30 with (2 + 28).
  rewrite poll_running_prefix.
  2:{ intros h' Hh'. apply Hrun. rewrite polls_app in Hh'. simpl in Hh'. lia. }
  set (h2 := ((h ++ [Request (PostTrigger url id)]) ++ Server.rounds 2 sid)%list).
  assert (Hp : polls (h2 ++ [Sleep 2000]) = polls h + 2).
  { subst h2. rewrite !polls_app. simpl. lia. }
  destruct (Hready _ Hp) as (body & Hbody & Hstatus).
  cbn [Server.poll]. unfold bind, emit, axios, lift, ret.
  rewrite Hbody, (status_of_get _ _ Hstatus).
  change (Server.is_string (Some (Json.Str "ready")) "running") with false.
  change (Server.is_string (Some (Json.Str "ready")) "failed") with false.
  cbv beta iota. rewrite Hsnap.
  subst h2 tr. simpl. rewrite <- !app_assoc. reflexivity.
Qed.

End PollerClaims.

Section PollerRuns.

Import Net ServerFixtures.

(** C2, as stated, fails: driven by running, running, ready, the tool makes
    three progress requests before it fetches the result, not two. *)
Lemma three_polls_not_two :
  polls_before_fetch (snd (Server.get_product_details (dom := MiniDom.cheerio) (urls := MiniUrl.url)
          running_running_ready amazon_url [])) = Some 3
  /\ polls_before_fetch (snd (Server.get_product_details (dom := MiniDom.cheerio) (urls := MiniUrl.url)
          running_running_ready amazon_url [])) <> Some 2.
Proof.
  assert (H : polls_before_fetch (snd (Server.get_product_details (dom := MiniDom.cheerio) (urls := MiniUrl.url)
          running_running_ready amazon_url []))
              = Some 3) by (vm_compute; reflexivity).
  split; [exact H|]. rewrite H. discriminate.
Qed.

Example running_running_ready_trace :
  snd (Server.get_product_details (dom := MiniDom.cheerio) (urls := MiniUrl.url)
          running_running_ready amazon_url [])
  = [ Request (PostTrigger amazon_url amazon_dataset);
      Sleep 2000; Request (GetProgress snapshot_id);
      Sleep 2000; Request (GetProgress snapshot_id);
      Sleep 2000; Request (GetProgress snapshot_id);
      Request (GetSnapshot snapshot_id) ].
Proof. vm_compute. reflexivity. Qed.

Lemma scripted_status (raw : exn + string) (trig snap : exn + Json.t)
  (statuses : list string) (h : list event) (sid : Json.t) (s : string) :
  nth_error statuses (polls h) = Some s ->
  Server.answers_status (Server.scripted raw trig statuses snap) h sid s.
Proof.
  intros Hn. unfold Server.answers_status, Server.scripted. cbn [progress].
  rewrite Hn. eexists. split; reflexivity.
Qed.

End PollerRuns.

Lemma three_polls_then_fetch_witness :
  let tr := (Net.Request (Net.PostTrigger ServerFixtures.amazon_url
                            ServerFixtures.amazon_dataset)
             :: Server.rounds 3 ServerFixtures.snapshot_id
             ++ [Net.Request (Net.GetSnapshot ServerFixtures.snapshot_id)])%list in
  Server.get_product_details (dom := MiniDom.cheerio) (urls := MiniUrl.url)
    ServerFixtures.running_running_ready ServerFixtures.amazon_url []
  = (inr (Stringify
            {| Envelope.data := Envelope.Dataset ServerFixtures.result_body;
               Envelope.method := "structured_dataset";
               Envelope.platform := "amazon";
               Envelope.url := ServerFixtures.amazon_url |}),
     tr)
  /\ Net.polls_before_fetch tr = Some 3
  /\ Net.fetches tr = 1.
Proof.
  apply (three_polls_then_fetch (dom := MiniDom.cheerio) (urls := MiniUrl.url)
           ServerFixtures.running_running_ready ServerFixtures.amazon_url []
           ServerFixtures.amazon_dataset
           (Json.Obj [("snapshot_id", ServerFixtures.snapshot_id)])
           ServerFixtures.snapshot_id ServerFixtures.result_body).
  - reflexivity.
  - reflexivity.
  - reflexivity.
  - reflexivity.
  - intros h' Hh'. apply scripted_status.
    destruct (Net.polls h') as [|[|n]]; [reflexivity | reflexivity | simpl in Hh'; lia].
  - intros h' Hh'. apply scripted_status. rewrite Hh'. reflexivity.
  - intros h'. reflexivity.
Defined.

Lemma trigger_without_snapshot_fails_witness :
  Server.get_product_details (dom := MiniDom.cheerio) (urls := MiniUrl.url)
    ServerFixtures.trigger_refused ServerFixtures.amazon_url []
  = (inl (Error "Failed to trigger dataset collection"),
     [Net.Request (Net.PostTrigger ServerFixtures.amazon_url
                     ServerFixtures.amazon_dataset)])
  /\ Net.polls (snd (Server.get_product_details
                       (dom := MiniDom.cheerio) (urls := MiniUrl.url)
                       ServerFixtures.trigger_refused ServerFixtures.amazon_url []))
     = 0
  /\ Net.fetches (snd (Server.get_product_details
                         (dom := MiniDom.cheerio) (urls := MiniUrl.url)
                         ServerFixtures.trigger_refused ServerFixtures.amazon_url []))
     = 0.
Proof.
  apply (trigger_without_snapshot_fails (dom := MiniDom.cheerio) (urls := MiniUrl.url)
           ServerFixtures.trigger_refused ServerFixtures.amazon_url []
           ServerFixtures.amazon_dataset
           (Json.Obj [("error", Json.Str "invalid input")])).
  - reflexivity.
  - reflexivity.
  - reflexivity.
Defined.

Lemma poll_budget_witness :
  Net.polls (snd (Server.get_product_details
                    (dom := MiniDom.cheerio) (urls := MiniUrl.url)
                    ServerFixtures.thirty_running ServerFixtures.amazon_url []))
  <= 30
  /\ Server.get_product_details (dom := MiniDom.cheerio) (urls := MiniUrl.url)
       ServerFixtures.thirty_running ServerFixtures.amazon_url []
     = (inl (Error "Timeout waiting for dataset results"),
        Net.Request (Net.PostTrigger ServerFixtures.amazon_url
                       ServerFixtures.amazon_dataset)
        :: Server.rounds 30 ServerFixtures.snapshot_id)
  /\ Net.polls (snd (Server.get_product_details
                       (dom := MiniDom.cheerio) (urls := MiniUrl.url)
                       ServerFixtures.thirty_running ServerFixtures.amazon_url []))
     = 30.
Proof.
  destruct (poll_budget (dom := MiniDom.cheerio) (urls := MiniUrl.url)
              ServerFixtures.thirty_running ServerFixtures.amazon_url [])
    as [Hbound Htimeout].
  split; [exact Hbound|].
  apply (Htimeout ServerFixtures.amazon_dataset
           (Json.Obj [("snapshot_id", ServerFixtures.snapshot_id)])
           ServerFixtures.snapshot_id).
  - reflexivity.
  - reflexivity.
  - reflexivity.
  - reflexivity.
  - intros h' Hh'. apply scripted_status.
    rewrite nth_error_app1 by (rewrite repeat_length; exact Hh').
    apply nth_error_repeat. exact Hh'.
Defined.

(** ** Properties of the pipeline and of the batch tools *)

Section PipelineFacts.

Import Net.

Context {dom : Cheerio.Api} {urls : Url.Api}.
Variable env : Env.

(** The scraper has no rule for "unknown": whatever the page and the base
    URL, detail extraction throws. *)
Lemma parseProductDetails_unknown (html url : string) :
  exists e, Scraper.parseProductDetails html "unknown" url = inl e.
Proof.
  unfold Scraper.parseProductDetails.
  destruct (Url.parse url); eexists; reflexivity.
Qed.

(** Without a dataset id the tool sends the raw-content request and then
    throws: the platform is "unknown", which the scraper does not support. *)
Lemma scraping_fallback_throws (url : string) (h : list event) :
  Platform.get_dataset_id (Platform.detect_platform url) = None ->
  exists e,
    Server.get_product_details env url h
    = (inl e, (h ++ [Request (PostRequest url (unlocker_zone env))])%list).
Proof.
  intros Hnone.
  pose proof (proj1 (dataset_absent_iff_unknown url) Hnone) as Hunknown.
  unfold Server.get_product_details. rewrite Hnone, Hunknown.
  unfold bind, Server.post_request, axios, lift, ret.
  destruct (raw_content env h url (unlocker_zone env)) as [e|body];
    [eexists; reflexivity|].
  destruct (Server.origin_of url) as [e|baseUrl]; [eexists; reflexivity|].
  destruct (parseProductDetails_unknown body baseUrl) as [e He].
  rewrite He. eexists; reflexivity.
Qed.

Lemma poll_envelope (n : nat) (sid : Json.t) (platform url : string) :
  forall (h h' : list event) (out : Envelope.t),
    Server.poll env n sid platform url h = (inr (Stringify out), h') ->
    Envelope.method out = "structured_dataset"
    /\ Envelope.platform out = platform /\ Envelope.url out = url.
Proof.
  induction n as [|n IH]; intros h h' out; [discriminate|].
  cbn [Server.poll]. unfold bind, emit, axios, lift, throw, ret.
  destruct (progress env _ sid) as [e|data]; [discriminate|].
  destruct (Server.status_of data) as [e|status]; [discriminate|].
  destruct (Server.is_string status "running"); [apply IH|].
  destruct (Server.is_string status "failed"); [discriminate|].
  destruct (snapshot env _ sid); [discriminate|].
  intros [= <- _]. repeat split.
Qed.

(** Every envelope the tool returns is a "structured_dataset" one, for a
    platform that has a dataset id. *)
Lemma returned_envelope_is_structured (url : string) (h h' : list event)
  (out : Envelope.t) :
  Server.get_product_details env url h = (inr (Stringify out), h') ->
  Envelope.method out = "structured_dataset"
  /\ Envelope.platform out = Platform.detect_platform url
  /\ Envelope.url out = url
  /\ exists id, Platform.get_dataset_id (Platform.detect_platform url) = Some id.
Proof.
  destruct (Platform.get_dataset_id (Platform.detect_platform url)) as [id|] eqn:Hid.
  - unfold Server.get_product_details. rewrite Hid.
    unfold bind, axios, throw.
    destruct (trigger env h url id) as [e|data]; [discriminate|].
    destruct (Server.snapshot_id_of data) as [sid|]; [|discriminate].
    destruct (Json.truthy (Some sid)); [|discriminate].
    intros Hpoll. apply poll_envelope in Hpoll.
    destruct Hpoll as (H1 & H2 & H3). repeat split; auto. now exists id.
  - destruct (scraping_fallback_throws url h Hid) as [e He].
    rewrite He. discriminate.
Qed.

(** A loop whose body never throws never throws, and pushes one result for
    each element, in order. *)
Lemma for_each_total {A B : Type} (R : A -> B -> Prop) (body : A -> M B) :
  (forall x h, exists r h', body x h = (inr r, h') /\ R x r) ->
  forall (xs : list A) (acc : list B) (h : list event),
  exists rs h',
    Server.for_each xs body acc h = (inr (acc ++ rs)%list, h') /\ Forall2 R xs rs.
Proof.
  intros Hbody xs.
  induction xs as [|x xs IH]; intros acc h.
  - exists [], h. simpl. unfold ret. rewrite app_nil_r. split; constructor.
  - destruct (Hbody x h) as (r & h1 & Hr & HR).
    destruct (IH (Scraper.push acc r) h1) as (rs & h2 & Hrs & HF).
    exists (r :: rs), h2. split; [|now constructor].
    cbn [Server.for_each]. unfold bind. rewrite Hr, Hrs.
    unfold Scraper.push. rewrite <- app_assoc. reflexivity.
Qed.

Lemma search_one_total (query platform : string) (h : list event) :
  exists entry h',
    Server.search_one env query platform h = (inr entry, h')
    /\ search_entry_for platform entry.
Proof.
  unfold Server.search_one, try_catch, bind, Server.post_request, axios, lift, ret.
  destruct (raw_content env h _ _) as [e|body].
  - do 2 eexists. split; [reflexivity|].
    split; [reflexivity|]. right. eexists. repeat split.
  - destruct (Server.origin_of _) as [e|baseUrl].
    + do 2 eexists. split; [reflexivity|].
      split; [reflexivity|]. right. eexists. repeat split.
    + do 2 eexists. split; [reflexivity|].
      split; [reflexivity|]. left. eexists. repeat split.
Qed.

(** The batch search never fails: it returns one entry for each requested
    platform, in order, a success entry or an error entry. *)
Lemma search_products_total (platforms : list string) (query : string)
  (h : list event) :
  exists out h',
    Server.search_products env platforms query h = (inr (Stringify out), h')
    /\ Forall2 search_entry_for platforms (SearchOutput.results out).
Proof.
  destruct (for_each_total search_entry_for (Server.search_one env query)
              (search_one_total query) platforms [] h)
    as (rs & h' & Hrs & HF).
  exists {| SearchOutput.platforms_searched := platforms;
            SearchOutput.query := query;
            SearchOutput.results := rs |}, h'.
  split; [|exact HF].
  unfold Server.search_products, bind. rewrite Hrs. reflexivity.
Qed.

Lemma update_one_total (url : string) (h : list event) :
  exists entry h',
    Server.update_one url h = (inr entry, h') /\ update_entry_for url entry.
Proof.
  exists (unreached_entry url), h. split; [reflexivity|].
  split; [reflexivity|]. right. eexists. repeat split.
Qed.

(** The batch price update never fails: it returns one entry for each
    requested URL, in order, an "updated" entry or an "error" entry. *)
Lemma get_price_update_total (product_urls : list string) (h : list event) :
  exists out h',
    Server.get_price_update env product_urls h = (inr (Stringify out), h')
    /\ Forall2 update_entry_for product_urls (PriceUpdate.updates out)
    /\ PriceUpdate.updated_products out = List.length product_urls.
Proof.
  destruct (for_each_total update_entry_for Server.update_one
              update_one_total product_urls [] h)
    as (rs & h' & Hrs & HF).
  exists {| PriceUpdate.timestamp := now env h';
            PriceUpdate.updated_products := List.length rs;
            PriceUpdate.updates := rs |}, h'.
  split; [|split; [exact HF|]].
  - unfold Server.get_price_update, bind. rewrite Hrs. reflexivity.
  - simpl. symmetry. exact (Forall2_length HF).
Qed.

(** In [compare_prices] a URL pushes nothing: [server.tools] cannot be
    read, and what is thrown is logged. *)
Lemma compare_one_drops (url : string) (h : list event) :
  Server.compare_one url h = (inr None, (h ++ [unreached_log url])%list).
Proof. reflexivity. Qed.

Lemma compare_loop_drops (product_urls : list string) :
  forall (acc : list (JsonText Envelope.t)) (h : list event),
    Server.for_each_push product_urls Server.compare_one acc h
    = (inr acc, (h ++ map unreached_log product_urls)%list).
Proof.
  induction product_urls as [|u us IH]; intros acc h.
  - simpl. unfold ret. now rewrite app_nil_r.
  - cbn [Server.for_each_push map]. unfold bind. rewrite compare_one_drops, IH.
    now rewrite <- app_assoc.
Qed.

Lemma update_loop_unreached (product_urls : list string) :
  forall (acc : list UpdateEntry.t) (h : list event),
    Server.for_each product_urls Server.update_one acc h
    = (inr (acc ++ map unreached_entry product_urls)%list, h).
Proof.
  induction product_urls as [|u us IH]; intros acc h.
  - simpl. unfold ret. now rewrite app_nil_r.
  - cbn [Server.for_each map]. unfold bind.
    change (Server.update_one u h) with (@inr exn _ (unreached_entry u), h).
    cbv beta iota. rewrite IH. unfold Scraper.push. now rewrite <- app_assoc.
Qed.

End PipelineFacts.

Section PipelineRuns.

Import Net ServerFixtures.

(** C4 fails on [build/src/server.js]: a URL of no known platform has no
    dataset id; the tool sends the one raw-content request, runs the
    extractor on the page, and the extractor throws "Unsupported platform:
    unknown".  No envelope is returned. *)
Theorem scraping_fallback_unsupported :
  Platform.get_dataset_id (Platform.detect_platform shop_url) = None
  /\ Server.get_product_details (dom := MiniDom.cheerio) (urls := MiniUrl.url)
       unknown_shop shop_url []
     = (inl (Error "Unsupported platform: unknown"),
        [Request (PostRequest shop_url "ecommerce_tracker")]).
Proof. split; vm_compute; reflexivity. Qed.

(** The TypeScript source of the tool returns the "scraping" envelope for
    the same URL. *)
Example scraping_fallback_in_source :
  Server.get_product_details_ts unknown_shop shop_url []
  = (inr (Stringify
            {| Envelope.data :=
                 Envelope.Raw "<h1>Mug</h1><span class='price'>$12.00</span>";
               Envelope.method := "scraping";
               Envelope.platform := "unknown";
               Envelope.url := shop_url |}),
     [Request (PostRequestAs shop_url "ecommerce_tracker" "markdown")]).
Proof. vm_compute. reflexivity. Qed.

(** The price update of a URL that would be fetched without trouble gives
    an error entry all the same, and asks the provider nothing. *)
Example get_price_update_keeps_failed_url :
  Server.get_price_update running_running_ready [amazon_url] []
  = (inr (Stringify
            {| PriceUpdate.timestamp := "2025-01-01T00:00:00.000Z";
               PriceUpdate.updated_products := 1;
               PriceUpdate.updates :=
                 [ {| UpdateEntry.data := None;
                      UpdateEntry.error :=
                        Some "Cannot read properties of undefined (reading 'get_product_details')";
                      UpdateEntry.status := "error";
                      UpdateEntry.url := amazon_url |} ] |}), []).
Proof. vm_compute. reflexivity. Qed.

End PipelineRuns.

(** ** Properties of the product service *)

Section StoreFacts.

Import Store ProductService StoreSpec.

Context {urls : Url.Api}.

Lemma map_touch_same (pid : string) (c : nat) (l : list Product) :
  Forall2 same_product l
    (map (fun q => if String.eqb (id q) pid then touch c q else q) l).
Proof.
  induction l as [|q l IH]; simpl; constructor; [|exact IH].
  destruct (String.eqb (id q) pid); split; reflexivity.
Qed.

Lemma Forall2_same_trans (l1 l2 l3 : list Product) :
  Forall2 same_product l1 l2 -> Forall2 same_product l2 l3 ->
  Forall2 same_product l1 l3.
Proof.
  intros H12. revert l3.
  induction H12 as [|a b l1 l2 [Hab1 Hab2] _ IH]; intros l3 H23;
    inversion H23 as [|b' c l2' l3' [Hbc1 Hbc2] Hrest]; subst; constructor.
  - split; congruence.
  - now apply IH.
Qed.

Lemma Forall2_same_refl (l : list Product) : Forall2 same_product l l.
Proof. induction l; constructor; [split; reflexivity | assumption]. Qed.

(** One update appends one row for its product and keeps every product. *)
Lemma product_update_ok (pid : string) (a : Z) (s s' : Store.t) (p : Product) :
  product_update pid a s = (inr p, s') ->
  prices s' = (prices s ++ new_rows (clock s) (next_uuid s)
                 [{| item_currentPrice := a; item_id := pid |}])%list
  /\ clock s' = S (clock s)
  /\ next_uuid s' = S (next_uuid s)
  /\ users s' = users s
  /\ Forall2 same_product (products s) (products s').
Proof.
  unfold product_update.
  destruct (is_int a); cbn [negb]; [|discriminate].
  destruct (find _ (products s)) as [p0|] eqn:Hfind; [|discriminate].
  intros [= <- <-]. simpl. repeat split.
  apply map_touch_same.
Qed.

(** A batch that succeeds appends one row for each update, in order. *)
Lemma sequence_updates_ok (data : list PriceUpdateItem) :
  forall (s s' : Store.t) (res : list Product),
    sequence
      (map (fun item => product_update (item_id item) (item_currentPrice item)) data) s
    = (inr res, s') ->
    prices s' = (prices s ++ new_rows (clock s) (next_uuid s) data)%list
    /\ users s' = users s
    /\ Forall2 same_product (products s) (products s').
Proof.
  induction data as [|item data IH]; intros s s' res; simpl.
  - intros [= <- <-]. rewrite app_nil_r.
    repeat split. apply Forall2_same_refl.
  - destruct (product_update _ _ s) as [[e|p] s1] eqn:Hupd; [discriminate|].
    destruct (sequence _ s1) as [[e|rest] s2] eqn:Hseq; [discriminate|].
    intros [= <- <-].
    apply product_update_ok in Hupd.
    destruct Hupd as (Hp & Hc & Hu & Husers & Hprods).
    destruct (IH _ _ _ Hseq) as (Hp2 & Husers2 & Hprods2).
    rewrite Hp2, Hp, Hc, Hu, Husers2, Husers. simpl.
    rewrite <- app_assoc. repeat split.
    eapply Forall2_same_trans; eassumption.
Qed.

Lemma new_rows_amounts (pid : string) (data : list PriceUpdateItem) :
  forall c u : nat,
    map amount (filter (fun r => eq_some (productId r) pid) (new_rows c u data))
    = map item_currentPrice
        (filter (fun item => String.eqb (item_id item) pid) data).
Proof.
  induction data as [|item data IH]; intros c u; simpl; [reflexivity|].
  destruct (String.eqb (item_id item) pid); simpl; now rewrite IH.
Qed.

Lemma new_rows_after (data : list PriceUpdateItem) :
  forall c u : nat, Forall (fun r => c <= price_createdAt r) (new_rows c u data).
Proof.
  induction data as [|item data IH]; intros c u; simpl; constructor.
  - simpl. lia.
  - eapply Forall_impl; [|apply (IH (S c) (S u))]. simpl. intros r Hr. lia.
Qed.

Lemma new_rows_sorted (data : list PriceUpdateItem) :
  forall c u : nat,
    StronglySorted (fun a b => price_createdAt a <= price_createdAt b)
      (new_rows c u data).
Proof.
  induction data as [|item data IH]; intros c u; simpl; constructor.
  - apply IH.
  - eapply Forall_impl; [|apply (new_rows_after data (S c) (S u))].
    simpl. intros r Hr. lia.
Qed.

Lemma StronglySorted_app {A : Type} (R : A -> A -> Prop) (l1 l2 : list A) :
  StronglySorted R l1 -> StronglySorted R l2 ->
  (forall a b, In a l1 -> In b l2 -> R a b) ->
  StronglySorted R (l1 ++ l2).
Proof.
  induction l1 as [|x l1 IH]; intros H1 H2 H12; simpl; [exact H2|].
  inversion H1 as [|x' l1' Hs Hx]; subst.
  constructor.
  - apply IH; auto. intros a b Ha Hb. apply H12; [now right | exact Hb].
  - apply Forall_app. split; [exact Hx|].
    apply Forall_forall. intros b Hb. apply H12; [now left | exact Hb].
Qed.

Lemma StronglySorted_filter {A : Type} (R : A -> A -> Prop) (f : A -> bool)
  (l : list A) :
  StronglySorted R l -> StronglySorted R (filter f l).
Proof.
  induction 1 as [|x l Hs IH Hx]; simpl; [constructor|].
  destruct (f x); [|exact IH].
  constructor; [exact IH|].
  apply Forall_forall. intros y Hy. apply filter_In in Hy.
  rewrite Forall_forall in Hx. now apply Hx.
Qed.

Lemma Forall2_In_right {A B : Type} (R : A -> B -> Prop) (l : list A) (l' : list B)
  (b : B) :
  Forall2 R l l' -> In b l' -> exists a, In a l /\ R a b.
Proof.
  induction 1 as [|x y l l' Hxy _ IH]; intros Hin; [destruct Hin|].
  destruct Hin as [<-|Hin].
  - exists x. split; [now left | exact Hxy].
  - destruct (IH Hin) as (a & Ha & HR). exists a. split; [now right | exact HR].
Qed.

(** The history of a product after a batch of updates that succeeded: the
    history before, then the rows of the batch for this product. *)
Lemma history_after_updates (s s' : Store.t) (data : list PriceUpdateItem)
  (res : list Product) (pid : string) :
  chronological s ->
  updateAllProducts data s = (inr res, s') ->
  exists appended,
    prices_of s' pid = (prices_of s pid ++ appended)%list
    /\ map amount appended
       = map item_currentPrice
           (filter (fun item => String.eqb (item_id item) pid) data)
    /\ StronglySorted (fun a b => price_createdAt a <= price_createdAt b)
         (prices_of s' pid).
Proof.
  intros [Hsorted Hclock] Hupd.
  unfold updateAllProducts, transaction in Hupd.
  destruct (sequence _ s) as [[e|rs] s1] eqn:Hseq; [discriminate|].
  injection Hupd as <- <-.
  apply sequence_updates_ok in Hseq. destruct Hseq as (Hp & _ & _).
  exists (filter (fun r => eq_some (productId r) pid)
            (new_rows (clock s) (next_uuid s) data)).
  unfold prices_of. rewrite Hp, filter_app.
  split; [reflexivity|]. split; [apply new_rows_amounts|].
  rewrite <- filter_app. apply StronglySorted_filter.
  apply StronglySorted_app; [exact Hsorted | apply new_rows_sorted|].
  intros a b Ha Hb.
  rewrite Forall_forall in Hclock. specialize (Hclock a Ha).
  pose proof (new_rows_after data (clock s) (next_uuid s)) as Hafter.
  rewrite Forall_forall in Hafter. specialize (Hafter b Hb). simpl in Hafter.
  lia.
Qed.

(** A product a user tracks after a batch of updates was tracked by the same
    user before it. *)
Lemma tracked_before (s s' : Store.t) (data : list PriceUpdateItem)
  (res : list Product) (userId0 : string) (include_history : bool) (p : Product)
  (history : option (list Price)) :
  updateAllProducts data s = (inr res, s') ->
  In (p, history) (product_findMany userId0 include_history s') ->
  exists p0 history0,
    In (p0, history0) (product_findMany userId0 include_history s)
    /\ id p0 = id p.
Proof.
  intros Hupd Hin.
  unfold updateAllProducts, transaction in Hupd.
  destruct (sequence _ s) as [[e|rs] s1] eqn:Hseq; [discriminate|].
  injection Hupd as <- <-.
  apply sequence_updates_ok in Hseq. destruct Hseq as (_ & Husers & Hprods).
  unfold product_findMany in Hin. apply in_map_iff in Hin.
  destruct Hin as (q & Hq & Hqin). injection Hq as <- _.
  apply filter_In in Hqin. destruct Hqin as [Hqin Howned].
  destruct (Forall2_In_right _ _ _ _ Hprods Hqin) as (p0 & Hp0 & Hid & Howner).
  exists p0. eexists. split; [|exact Hid].
  unfold product_findMany. apply in_map_iff. exists p0. split; [reflexivity|].
  apply filter_In. split; [exact Hp0|].
  rewrite Husers, Howner in *. exact Howned.
Qed.

End StoreFacts.

Section StoreClaims.

Import Store ProductService.

Context {urls : Url.Api}.

(** C9. Round trip: after a batch of price updates that succeeded, a
    product read back with its price history has the history it had before
    followed by the amounts of the batch's updates of this product, in the
    order of the batch; the rows are in creation-time order. *)
Theorem price_history_round_trip (s s' : Store.t) (data : list PriceUpdateItem)
  (res : list Product) (userId0 : string)
  (tracked : list (Product * option (list Price)))
  (p : Product) (history : list Price) :
  chronological s ->
  updateAllProducts data s = (inr res, s') ->
  getUserTrackedProducts userId0 true s' = (inr tracked, s') ->
  In (p, Some history) tracked ->
  exists (p0 : Product) (before appended : list Price),
    In (p0, Some before) (product_findMany userId0 true s)
    /\ id p0 = id p
    /\ history = (before ++ appended)%list
    /\ map amount appended
       = map item_currentPrice
           (filter (fun item => String.eqb (item_id item) (id p)) data)
    /\ StronglySorted (fun a b => price_createdAt a <= price_createdAt b) history.
Proof.
  intros Hchrono Hupd Hread Hin.
  unfold getUserTrackedProducts in Hread. injection Hread as <-.
  destruct (tracked_before _ _ _ _ _ _ _ _ Hupd Hin) as (p0 & h0 & Hp0 & Hid).
  destruct (history_after_updates _ _ _ _ (id p) Hchrono Hupd)
    as (appended & Happ & Hamounts & Hsorted).
  assert (Hhist : history = prices_of s' (id p)).
  { unfold product_findMany in Hin. apply in_map_iff in Hin.
    destruct Hin as (q & Hq & _). injection Hq as <- <-. reflexivity. }
  assert (Hbefore : h0 = Some (prices_of s (id p))).
  { unfold product_findMany in Hp0. apply in_map_iff in Hp0.
    destruct Hp0 as (q & Hq & _). injection Hq as <- <-. now rewrite Hid. }
  subst h0.
  exists p0, (prices_of s (id p)), appended.
  rewrite Hhist. repeat split; auto.
Qed.

(** C10. For a [userId] with no user row, [trackProduct] and
    [untrackProduct] throw "User not found" and leave the store as it was:
    no product row and no price row is created or deleted. *)
Theorem unknown_user_rejected (s : Store.t) (userId0 url0 productId0 : string)
  (details : ProductDetails) :
  user_findUnique userId0 s = None ->
  trackProduct userId0 url0 details s = (inl (Error "User not found"), s)
  /\ untrackProduct userId0 productId0 s = (inl (Error "User not found"), s).
Proof.
  intros Hnone. unfold trackProduct, untrackProduct.
  rewrite Hnone. split; reflexivity.
Qed.

End StoreClaims.

Example updates_read_back :
  map (fun ph => (Store.id (fst ph), option_map (map Store.amount) (snd ph)))
    (Store.product_findMany "alice" true StoreFixtures.store_after)
  = [("uuid-1", Some [2499; 2299; 1999]%Z)].
Proof. vm_compute. reflexivity. Qed.

Lemma price_history_round_trip_witness :
  exists (p0 : Store.Product) (before appended : list Store.Price),
    In (p0, Some before) (Store.product_findMany "alice" true StoreFixtures.store)
    /\ Store.id p0 = "uuid-1"
    /\ Store.prices_of StoreFixtures.store_after "uuid-1" = (before ++ appended)%list
    /\ map Store.amount appended = [2299; 1999]%Z
    /\ StronglySorted
         (fun a b => Store.price_createdAt a <= Store.price_createdAt b)
         (Store.prices_of StoreFixtures.store_after "uuid-1").
Proof.
  assert (Hchrono : Store.chronological StoreFixtures.store).
  { split; repeat constructor. }
  exact (price_history_round_trip
           StoreFixtures.store StoreFixtures.store_after StoreFixtures.updates
           [Store.touch 2 StoreFixtures.kettle; Store.touch 3 StoreFixtures.kettle]
           "alice"
           (Store.product_findMany "alice" true StoreFixtures.store_after)
           (Store.touch 3 StoreFixtures.kettle)
           (Store.prices_of StoreFixtures.store_after "uuid-1")
           Hchrono eq_refl eq_refl (or_introl eq_refl)).
Defined.

Lemma unknown_user_rejected_witness :
  ProductService.trackProduct (urls := MiniUrl.url) "bob"
    "https://www.walmart.com/ip/7" StoreFixtures.no_details StoreFixtures.store
  = (inl (Error "User not found"), StoreFixtures.store)
  /\ ProductService.untrackProduct "bob" "uuid-1" StoreFixtures.store
     = (inl (Error "User not found"), StoreFixtures.store).
Proof.
  exact (unknown_user_rejected (urls := MiniUrl.url) StoreFixtures.store "bob"
           "https://www.walmart.com/ip/7" "uuid-1" StoreFixtures.no_details eq_refl).
Defined.

(** ** Further properties of the server tools *)

Section ProtocolFacts.

Import Net.

Context {dom : Cheerio.Api} {urls : Url.Api}.
Variable env : Env.

(** What the polling loop adds to the events: some rounds of pause and
    poll, then at most one fetch; a returned envelope comes after a fetch. *)
Lemma poll_shape (n : nat) (sid : Json.t) (platform url : string) :
  forall h : list event,
  exists (k : nat) (tail : list event),
    k <= n
    /\ snd (Server.poll env n sid platform url h)
       = (h ++ Server.rounds k sid ++ tail)%list
    /\ (tail = [] \/ (1 <= k /\ tail = [Request (GetSnapshot sid)]))
    /\ (forall out, fst (Server.poll env n sid platform url h) = inr out ->
                    tail = [Request (GetSnapshot sid)]).
Proof.
  induction n as [|n IH]; intros h.
  - exists 0, []. simpl. rewrite app_nil_r.
    repeat split; auto. discriminate.
  - cbn [Server.poll]. unfold bind, emit, axios, lift, throw, ret.
    set (h1 := (h ++ [Sleep 2000])%list).
    set (h2 := (h1 ++ [Request (GetProgress sid)])%list).
    assert (Hh2 : forall rest, (h2 ++ rest)%list
                   = (h ++ Sleep 2000 :: Request (GetProgress sid) :: rest)%list).
    { intros rest. subst h2 h1. rewrite <- !app_assoc. reflexivity. }
    assert (Hstop : h2 = (h ++ Server.rounds 1 sid ++ [])%list).
    { rewrite <- (app_nil_r h2). rewrite Hh2. reflexivity. }
    destruct (progress env h1 sid) as [e|data].
    { exists 1, []. cbn [fst snd]. repeat split; auto; [lia | discriminate]. }
    destruct (Server.status_of data) as [e|status].
    { exists 1, []. cbn [fst snd]. repeat split; auto; [lia | discriminate]. }
    destruct (Server.is_string status "running").
    { destruct (IH h2) as (k & tail & Hk & Htr & Htail & Hout).
      exists (S k), tail. repeat split.
      - lia.
      - rewrite Htr, Hh2. reflexivity.
      - destruct Htail as [->|[Hk1 ->]]; [now left | right; split; [lia|reflexivity]].
      - exact Hout. }
    destruct (Server.is_string status "failed").
    { exists 1, []. cbn [fst snd]. repeat split; auto; [lia | discriminate]. }
    exists 1, [Request (GetSnapshot sid)].
    destruct (snapshot env h2 sid); cbn [fst snd]; rewrite Hh2;
      (split; [lia|]; split; [reflexivity|]; split;
       [right; split; [lia | reflexivity] | reflexivity]).
Qed.

(** The protocol of [get_product_details].  Whatever the provider answers,
    the requests of one call are either the single raw-content request, or
    the trigger followed by at most 30 rounds of a 2 second pause and a
    poll, followed by at most one result fetch, which is then the last
    request and comes after at least one poll.  An envelope is returned only
    after that fetch. *)
Theorem get_product_details_protocol (url : string) (h : list event) :
  exists tr : list event,
    snd (Server.get_product_details env url h) = (h ++ tr)%list
    /\ (tr = [Request (PostRequest url (unlocker_zone env))]
        \/ exists (id : string) (sid : Json.t) (k : nat) (tail : list event),
             Platform.get_dataset_id (Platform.detect_platform url) = Some id
             /\ k <= 30
             /\ tr = (Request (PostTrigger url id) :: Server.rounds k sid ++ tail)%list
             /\ (tail = [] \/ (1 <= k /\ tail = [Request (GetSnapshot sid)]))
             /\ (forall out, fst (Server.get_product_details env url h) = inr out ->
                             tail = [Request (GetSnapshot sid)])).
Proof.
  unfold Server.get_product_details.
  destruct (Platform.get_dataset_id (Platform.detect_platform url)) as [id|] eqn:Hid.
  - unfold bind, axios, throw.
    assert (Hstop : forall e : exn,
               exists tr : list event,
                 (h ++ [Request (PostTrigger url id)])%list = (h ++ tr)%list
                 /\ (tr = [Request (PostRequest url (unlocker_zone env))]
                     \/ exists (id0 : string) (sid : Json.t) (k : nat) (tail : list event),
                          Some id = Some id0 /\ k <= 30
                          /\ tr = (Request (PostTrigger url id0)
                                   :: Server.rounds k sid ++ tail)%list
                          /\ (tail = [] \/ (1 <= k /\ tail = [Request (GetSnapshot sid)]))
                          /\ (forall out : JsonText Envelope.t,
                                 @inl exn (JsonText Envelope.t) e = inr out ->
                                 tail = [Request (GetSnapshot sid)]))).
    { intros e. exists [Request (PostTrigger url id)]. split; [reflexivity|].
      right. exists id, Json.Null, 0, []. repeat split; auto; [lia | discriminate]. }
    destruct (trigger env h url id) as [e|data]; [apply Hstop|].
    destruct (Server.snapshot_id_of data) as [sid|]; [|apply Hstop].
    destruct (Json.truthy (Some sid)); [|apply Hstop].
    destruct (poll_shape Server.max_attempts sid (Platform.detect_platform url) url
                (h ++ [Request (PostTrigger url id)])%list)
      as (k & tail & Hk & Htr & Htail & Hout).
    exists (Request (PostTrigger url id) :: Server.rounds k sid ++ tail)%list.
    split.
    + rewrite Htr, <- app_assoc. reflexivity.
    + right. exists id, sid, k, tail. repeat split; auto.
  - exists [Request (PostRequest url (unlocker_zone env))]. split; [|now left].
    unfold bind, Server.post_request, axios, lift, ret.
    destruct (raw_content env h url (unlocker_zone env)); [reflexivity|].
    destruct (Server.origin_of url); [reflexivity|].
    destruct (Scraper.parseProductDetails _ _ _); reflexivity.
Qed.

(** A poll answered "failed", after [k] polls answered "running", stops
    the loop: the tool throws "Dataset collection failed" after [k + 1]
    polls and fetches nothing. *)
Theorem failed_status_stops (url : string) (h : list event) (id : string)
  (data sid : Json.t) (k : nat) :
  Platform.get_dataset_id (Platform.detect_platform url) = Some id ->
  trigger env h url id = inr data ->
  Server.snapshot_id_of data = Some sid ->
  Json.truthy (Some sid) = true ->
  k < 30 ->
  (forall h', polls h' < polls h + k -> Server.answers_status env h' sid "running") ->
  (forall h', polls h' = polls h + k -> Server.answers_status env h' sid "failed") ->
  Server.get_product_details env url h
  = (inl (Error "Dataset collection failed"),
     (h ++ Request (PostTrigger url id) :: Server.rounds (S k) sid)%list).
Proof.
  intros Hid Htrig Hsid Htruthy Hk Hrun Hfailed.
  unfold Server.get_product_details. rewrite Hid.
  unfold bind, axios. rewrite Htrig, Hsid, Htruthy.
  unfold Server.max_attempts.
  replace 30 with (k + S (29 - k)) by lia.
  rewrite poll_running_prefix.
  2:{ intros h' Hh'. apply Hrun. rewrite polls_app in Hh'. simpl in Hh'. lia. }
  set (hk := ((h ++ [Request (PostTrigger url id)]) ++ Server.rounds k sid)%list).
  assert (Hp : polls (hk ++ [Sleep 2000]) = polls h + k).
  { subst hk. rewrite !polls_app, polls_rounds. simpl. lia. }
  destruct (Hfailed _ Hp) as (body & Hbody & Hstatus).
  cbn [Server.poll]. unfold bind, emit, axios, lift, throw.
  rewrite Hbody, (status_of_get _ _ Hstatus).
  change (Server.is_string (Some (Json.Str "failed")) "running") with false.
  change (Server.is_string (Some (Json.Str "failed")) "failed") with true.
  cbv beta iota. f_equal.
  subst hk. rewrite <- !app_assoc. simpl. f_equal. f_equal.
  clear. induction k as [|k IH]; simpl; [reflexivity|]. now rewrite IH.
Qed.

End ProtocolFacts.

Section BatchFacts.

Import Net.

Context {dom : Cheerio.Api} {urls : Url.Api}.
Variable env : Env.

(** A loop whose body never throws and records one event: one result and
    one event for each element, in order. *)
Lemma for_each_trace {A B : Type} (R : A -> B -> Prop) (ev : A -> event)
  (body : A -> M B) :
  (forall x h, exists r, body x h = (inr r, (h ++ [ev x])%list) /\ R x r) ->
  forall (xs : list A) (acc : list B) (h : list event),
  exists rs,
    Server.for_each xs body acc h = (inr (acc ++ rs)%list, (h ++ map ev xs)%list)
    /\ Forall2 R xs rs.
Proof.
  intros Hbody xs.
  induction xs as [|x xs IH]; intros acc h.
  - exists []. simpl. unfold ret. rewrite !app_nil_r. split; constructor.
  - destruct (Hbody x h) as (r & Hr & HR).
    destruct (IH (Scraper.push acc r) (h ++ [ev x])%list) as (rs & Hrs & HF).
    exists (r :: rs). split; [|now constructor].
    cbn [Server.for_each]. unfold bind. rewrite Hr, Hrs.
    unfold Scraper.push. rewrite <- !app_assoc. reflexivity.
Qed.

Lemma search_one_request (query platform : string) (h : list event) :
  exists entry,
    Server.search_one env query platform h
    = (inr entry, (h ++ [search_request env query platform])%list)
    /\ search_entry_of query platform entry.
Proof.
  unfold Server.search_one, try_catch, bind, Server.post_request, axios, lift, ret,
    search_request.
  destruct (raw_content env h _ _) as [e|body].
  - eexists. split; [reflexivity|].
    split; [reflexivity|]. right. eexists. repeat split.
  - destruct (Server.origin_of _) as [e|baseUrl].
    + eexists. split; [reflexivity|].
      split; [reflexivity|]. right. eexists. repeat split.
    + eexists. split; [reflexivity|].
      split; [reflexivity|]. left. eexists. repeat split.
Qed.

(** [search_products] never fails.  It sends exactly one raw-content request
    for each requested platform, in the order given, whether the earlier
    ones failed or not, and returns one entry for each platform in the same
    order: a success entry with the search URL, or an error entry. *)
Theorem search_products_requests_and_entries (platforms : list string)
  (query : string) (h : list event) :
  exists out : SearchOutput.t,
    Server.search_products env platforms query h
    = (inr (Stringify out), (h ++ map (search_request env query) platforms)%list)
    /\ SearchOutput.platforms_searched out = platforms
    /\ SearchOutput.query out = query
    /\ Forall2 (search_entry_of query) platforms (SearchOutput.results out).
Proof.
  destruct (for_each_trace (search_entry_of query) (search_request env query)
              (Server.search_one env query) (search_one_request query)
              platforms [] h) as (rs & Hrs & HF).
  exists {| SearchOutput.platforms_searched := platforms;
            SearchOutput.query := query;
            SearchOutput.results := rs |}.
  split; [|repeat split; exact HF].
  unfold Server.search_products, bind. rewrite Hrs. reflexivity.
Qed.

(** [get_price_update] never fails and never reaches the provider: the
    loop reads [server.tools], which is [undefined], inside its [try], so
    every URL asked gets the error entry of that failure, in order, and
    [updated_products] counts them all. *)
Theorem get_price_update_reports_errors (product_urls : list string)
  (h : list event) :
  Server.get_price_update env product_urls h
  = (inr (Stringify
            {| PriceUpdate.timestamp := now env h;
               PriceUpdate.updated_products := List.length product_urls;
               PriceUpdate.updates := map unreached_entry product_urls |}), h).
Proof.
  unfold Server.get_price_update, bind. rewrite update_loop_unreached.
  cbn [app]. now rewrite length_map.
Qed.

(** [compare_prices] never sends a request: whatever its arguments, it adds
    only log lines to the events.  Over a non-empty list of URLs it returns a
    "url_comparison" with no result at all.  Without URLs it throws: with a
    query, what reading [server.tools.search_products] throws, outside any
    [try]; without one, "Either query or urls must be provided". *)
Theorem compare_prices_reaches_no_tool (platforms : list string)
  (query : option string) (product_urls : option (list string)) (h : list event) :
  (exists logs,
     snd (Server.compare_prices env platforms query product_urls h) = (h ++ logs)%list
     /\ Forall is_log logs)
  /\ match product_urls with
     | Some (_ :: _) =>
         exists out,
           fst (Server.compare_prices env platforms query product_urls h)
           = inr (Stringify out)
           /\ Comparison.results out = Some []
           /\ Comparison.type out = "url_comparison"
     | _ =>
         Server.compare_prices env platforms query product_urls h
         = (inl (match query with
                 | Some q =>
                     if Js.truthy q then Server.undefined_member "search_products"
                     else Error "Either query or urls must be provided"
                 | None => Error "Either query or urls must be provided"
                 end), h)
     end.
Proof.
  assert (Hlogs : forall us : list string, Forall is_log (map unreached_log us)).
  { intros us. induction us; simpl; constructor; [exact I | assumption]. }
  assert (Hnone : forall us, us = None \/ us = Some [] ->
             Server.compare_prices env platforms query us h
             = (inl (match query with
                     | Some q =>
                         if Js.truthy q then Server.undefined_member "search_products"
                         else Error "Either query or urls must be provided"
                     | None => Error "Either query or urls must be provided"
                     end), h)).
  { intros us [->| ->]; unfold Server.compare_prices;
      (destruct query as [q|]; [destruct (Js.truthy q)|]); reflexivity. }
  destruct product_urls as [[|u us]|].
  - rewrite (Hnone (Some []) (or_intror eq_refl)). split; [|reflexivity].
    exists []. cbn [snd]. rewrite app_nil_r. split; [reflexivity | constructor].
  - unfold Server.compare_prices, bind. rewrite compare_loop_drops. unfold ret.
    cbn [fst snd]. split.
    + exists (map unreached_log (u :: us)). split; [reflexivity | apply Hlogs].
    + eexists. split; [reflexivity|]. split; reflexivity.
  - rewrite (Hnone None (or_introl eq_refl)). split; [|reflexivity].
    exists []. cbn [snd]. rewrite app_nil_r. split; [reflexivity | constructor].
Qed.

(** C3 fails for [compare_prices].  Over any non-empty list of URLs and
    whatever the provider would answer, the call succeeds with an empty list
    of results: each URL fails inside the [try] (reading [server.tools]
    throws), the [catch] only logs the message, and the URL appears in no
    entry. *)
Theorem compare_prices_drops_failed_url (platforms : list string)
  (query : option string) (u : string) (us : list string) (h : list event) :
  exists out,
    Server.compare_prices env platforms query (Some (u :: us)) h
    = (inr (Stringify out), (h ++ map unreached_log (u :: us))%list)
    /\ Comparison.results out = Some []
    /\ Comparison.type out = "url_comparison"
    /\ Server.get_price_update env (u :: us) h
       = (inr (Stringify
                 {| PriceUpdate.timestamp := now env h;
                    PriceUpdate.updated_products := List.length (u :: us);
                    PriceUpdate.updates := map unreached_entry (u :: us) |}), h).
Proof.
  eexists. split; [|split; [|split]].
  - unfold Server.compare_prices, bind. rewrite compare_loop_drops. reflexivity.
  - reflexivity.
  - reflexivity.
  - unfold Server.get_price_update, bind. rewrite update_loop_unreached.
    cbn [app]. now rewrite length_map.
Qed.

(** The same on the fixture: one URL, a provider that would serve it. *)
Example compare_prices_of_a_served_url :
  Server.compare_prices ServerFixtures.running_running_ready
    ["amazon"; "ebay"; "walmart"] None (Some [ServerFixtures.amazon_url]) []
  = (inr (Stringify
            {| Comparison.query := None;
               Comparison.results := Some [];
               Comparison.timestamp := "2025-01-01T00:00:00.000Z";
               Comparison.type := "url_comparison" |}),
     [ Log "Cannot read properties of undefined (reading 'get_product_details')" ]).
Proof. vm_compute. reflexivity. Qed.

End BatchFacts.

(** ** Further properties of the scraper *)

Section DetailFacts.

Context {dom : Cheerio.Api} {urls : Url.Api}.

(** A loop keeps what every step keeps. *)
Lemma each_invariant {A S : Type} (P : S -> Prop) (body : S -> A -> S)
  (sel : list A) (init : S) :
  P init ->
  (forall acc a, P acc -> P (body acc a)) ->
  P (Cheerio.each sel body init).
Proof.
  unfold Cheerio.each. revert init.
  induction sel as [|a sel IH]; intros init Hinit Hstep; simpl; auto.
Qed.

Lemma obj_set_In_key (o : list (string * string)) (key value k : string) :
  In k (map fst (Scraper.obj_set o key value)) -> k = key \/ In k (map fst o).
Proof.
  induction o as [|[k0 v0] o IH]; simpl.
  - intros [<-|[]]. now left.
  - destruct (String.eqb key k0); simpl.
    + intros [<-|H]; right; auto.
    + intros [<-|H]; [right; now left|].
      destruct (IH H) as [->|H']; [now left | right; now right].
Qed.

(** Setting a key keeps the keys distinct. *)
Lemma obj_set_NoDup (o : list (string * string)) (key value : string) :
  NoDup (map fst o) -> NoDup (map fst (Scraper.obj_set o key value)).
Proof.
  induction o as [|[k0 v0] o IH]; simpl; intros Hnd.
  - constructor; [intros [] | constructor].
  - destruct (String.eqb_spec key k0) as [->|Hneq]; simpl; [exact Hnd|].
    inversion Hnd as [|x l Hnotin Hnd']; subst.
    constructor; [|now apply IH].
    intros Hin. apply obj_set_In_key in Hin.
    destruct Hin as [->|Hin]; [now apply Hneq | now apply Hnotin].
Qed.

Lemma obj_set_Forall (Q : string * string -> Prop) (o : list (string * string))
  (key value : string) :
  Forall Q o -> (forall k, Q (k, value)) -> Forall Q (Scraper.obj_set o key value).
Proof.
  induction o as [|[k0 v0] o IH]; simpl; intros Ho Hnew.
  - constructor; [apply Hnew | constructor].
  - inversion Ho as [|x l Hx Ho']; subst.
    destruct (String.eqb key k0); constructor; auto.
Qed.

Lemma obj_set_keys_nonempty (o : list (string * string)) (key value : string) :
  Forall (fun kv => fst kv <> "") o -> key <> "" ->
  Forall (fun kv => fst kv <> "") (Scraper.obj_set o key value).
Proof.
  induction o as [|[k0 v0] o IH]; simpl; intros Ho Hk.
  - constructor; [exact Hk | constructor].
  - inversion Ho as [|x l Hx Ho']; subst.
    destruct (String.eqb key k0); constructor; auto.
Qed.

Lemma collect_specifications_table (rows : list Cheerio.Element)
  (label_sel value_sel : string) :
  well_formed_table (Scraper.collect_specifications rows label_sel value_sel).
Proof.
  unfold Scraper.collect_specifications.
  apply each_invariant.
  - repeat split; constructor.
  - intros acc elem (Hnd & Hkeys & Hvals). cbv zeta.
    destruct (Js.truthy _ && Js.truthy _) eqn:Hc; [|repeat split; assumption].
    apply andb_true_iff in Hc. destruct Hc as [Hl Hv].
    apply truthy_nonempty in Hl, Hv.
    split; [now apply obj_set_NoDup|]. split.
    + now apply obj_set_keys_nonempty.
    + apply obj_set_Forall; [exact Hvals | intros k; exact Hv].
Qed.

(** The specifications of a detail record, by platform. *)
Lemma specifications_by_platform (html platform url : string) (p : Product.t) :
  Scraper.parseProductDetails html platform url = inr p ->
  (exists rows label_sel value_sel,
      Product.specifications p
      = Scraper.collect_specifications rows label_sel value_sel)
  \/ (platform = "ebay"
      /\ exists rows label_sel value_sel condition,
           Product.specifications p
           = Scraper.obj_set
               (Scraper.collect_specifications rows label_sel value_sel)
               "condition" condition).
Proof.
  unfold Scraper.parseProductDetails.
  destruct (Url.parse url) as [u|]; [|discriminate].
  destruct (String.eqb_spec platform "amazon");
    [intros [= <-]; left; do 3 eexists; reflexivity|].
  destruct (String.eqb_spec platform "bestbuy");
    [intros [= <-]; left; do 3 eexists; reflexivity|].
  destruct (String.eqb_spec platform "ebay");
    [intros [= <-]; right; split; [assumption|]; do 4 eexists; reflexivity|].
  destruct (String.eqb_spec platform "etsy");
    [intros [= <-]; left; do 3 eexists; reflexivity|].
  destruct (String.eqb_spec platform "homedepot");
    [intros [= <-]; left; do 3 eexists; reflexivity|].
  destruct (String.eqb_spec platform "walmart");
    [intros [= <-]; left; do 3 eexists; reflexivity|].
  destruct (String.eqb_spec platform "zara");
    [intros [= <-]; left; do 3 eexists; reflexivity|].
  discriminate.
Qed.

Lemma obj_set_Forall_key (Q : string * string -> Prop) (o : list (string * string))
  (key value : string) :
  Forall Q o -> Q (key, value) -> Forall Q (Scraper.obj_set o key value).
Proof.
  induction o as [|[k0 v0] o IH]; simpl; intros Ho Hnew.
  - constructor; [exact Hnew | constructor].
  - inversion Ho as [|x l Hx Ho']; subst.
    destruct (String.eqb_spec key k0) as [->|Hne]; constructor; auto.
Qed.

(** In every detail record the specification labels are distinct and
    non-empty: a label that occurs twice in the page is kept once.  The
    values are non-empty too, with one exception: the entry "condition" of
    an eBay record, which is set whatever the page has. *)
Theorem specification_labels_distinct (html platform url : string) (p : Product.t) :
  Scraper.parseProductDetails html platform url = inr p ->
  NoDup (map fst (Product.specifications p))
  /\ Forall (fun kv => fst kv <> "") (Product.specifications p)
  /\ Forall (fun kv => snd kv <> "" \/ (platform = "ebay" /\ fst kv = "condition"))
       (Product.specifications p).
Proof.
  intros Hp.
  destruct (specifications_by_platform _ _ _ _ Hp)
    as [(rows & ls & vs & ->) | (Hebay & rows & ls & vs & c & ->)].
  - destruct (collect_specifications_table rows ls vs) as (H1 & H2 & H3).
    split; [exact H1|]. split; [exact H2|].
    eapply Forall_impl; [|exact H3]. intros kv Hkv. now left.
  - destruct (collect_specifications_table rows ls vs) as (H1 & H2 & H3).
    split; [now apply obj_set_NoDup|]. split.
    + apply obj_set_keys_nonempty; [exact H2 | discriminate].
    + apply obj_set_Forall_key.
      * eapply Forall_impl; [|exact H3]. intros kv Hkv. now left.
      * right. split; [exact Hebay | reflexivity].
Qed.

(** Detail extraction is permissive: for a supported platform and a base
    URL the URL class accepts, it returns a record whatever the page is,
    tagged with the platform, priced in USD, its url the origin of the base
    URL. *)
Theorem detail_extraction_total (html platform url : string) (u : Url.t) :
  In platform Scraper.supported_platforms ->
  Url.parse url = Some u ->
  exists p : Product.t,
    Scraper.parseProductDetails html platform url = inr p
    /\ Product.platform p = platform
    /\ Product.url p = Url.origin u
    /\ Product.currency p = "USD".
Proof.
  intros Hin Hurl. unfold Scraper.parseProductDetails. rewrite Hurl.
  unfold Scraper.supported_platforms in Hin. simpl in Hin.
  repeat (destruct Hin as [<-|Hin];
          [cbn [String.eqb Ascii.eqb Bool.eqb]; eexists;
           split; [reflexivity | repeat split]|]).
  destruct Hin.
Qed.

(** The colour variants of an Amazon record all have a name: a swatch
    without a title is left out. *)
Theorem amazon_variants_named (html url : string) (p : Product.t) :
  Scraper.parseProductDetails html "amazon" url = inr p ->
  exists vs : list Variant.t,
    Product.variants p = Some vs
    /\ Forall (fun v => Variant.name v <> "" /\ Variant.price v <> None) vs.
Proof.
  unfold Scraper.parseProductDetails.
  destruct (Url.parse url) as [u|]; [|discriminate].
  cbn [String.eqb Ascii.eqb Bool.eqb]. intros [= <-].
  eexists. split; [reflexivity|].
  apply each_invariant; [constructor|].
  intros acc elem Hacc. cbv zeta.
  destruct (Js.truthy _) eqn:Hname; [|exact Hacc].
  apply push_Forall; [exact Hacc|].
  split; [now apply truthy_nonempty | discriminate].
Qed.

End DetailFacts.

Section SearchFacts.

Context {dom : Cheerio.Api}.

Lemma startsWith_append (s p x : string) :
  Js.startsWith s p = true -> Js.startsWith (s ++ x) p = true.
Proof.
  intros H. apply startsWith_iff in H. destruct H as [r ->].
  apply startsWith_iff. exists (r ++ x).
  clear. induction p; simpl; [reflexivity | now rewrite IHp].
Qed.

Lemma concat_undefined_absolute (baseUrl : string) (href : option string) :
  Js.startsWith baseUrl "http" = true ->
  Js.startsWith (Scraper.concat_undefined baseUrl href) "http" = true.
Proof.
  intros Hbase. destruct href; simpl; now apply startsWith_append.
Qed.

Lemma emitted_url_absolute (platform baseUrl : string) (element : Cheerio.Element)
  (r : SearchResult.t) :
  Js.startsWith baseUrl "http" = true ->
  SearchSpec.emitted_from platform baseUrl element r ->
  Js.startsWith (SearchResult.url r) "http" = true.
Proof.
  intros Hbase (reading & _ & _ & _ & _ & _ & _ & Htested & Hnot).
  destruct (SearchSpec.url_tested reading).
  - destruct (Htested eq_refl) as (h & _ & _ & ->).
    destruct (Js.startsWith h "http") eqn:Hh; [exact Hh|].
    now apply startsWith_append.
  - rewrite (Hnot eq_refl). now apply concat_undefined_absolute.
Qed.

(** Against an absolute base URL (one that starts with "http"), every url
    that search extraction emits is absolute, on every platform. *)
Theorem search_urls_absolute (html platform baseUrl : string) (r : SearchResult.t) :
  Js.startsWith baseUrl "http" = true ->
  In r (Scraper.parseSearchResults html platform baseUrl) ->
  Js.startsWith (SearchResult.url r) "http" = true.
Proof.
  intros Hbase. unfold Scraper.parseSearchResults.
  assert (Hitems : forall (tag : string) (items : list SearchResult.t),
             Forall2 (SearchSpec.emitted_from tag baseUrl)
               (filter (SearchSpec.complete tag)
                  (Cheerio.select (Cheerio.load html) (item_selector tag)))
               items ->
             In r items -> Js.startsWith (SearchResult.url r) "http" = true).
  { intros tag items HF Hr.
    destruct (Forall2_In_right _ _ _ _ HF Hr) as (element & _ & Hel).
    exact (emitted_url_absolute tag baseUrl element r Hbase Hel). }
  destruct (String.eqb platform "amazon");
    [exact (Hitems "amazon" _ (amazon_items _ baseUrl))|].
  destruct (String.eqb platform "bestbuy");
    [exact (Hitems "bestbuy" _ (bestbuy_items _ baseUrl))|].
  destruct (String.eqb platform "ebay");
    [exact (Hitems "ebay" _ (ebay_items _ baseUrl))|].
  destruct (String.eqb platform "etsy");
    [exact (Hitems "etsy" _ (etsy_items _ baseUrl))|].
  destruct (String.eqb platform "homedepot");
    [exact (Hitems "homedepot" _ (homedepot_items _ baseUrl))|].
  destruct (String.eqb platform "walmart");
    [exact (Hitems "walmart" _ (walmart_items _ baseUrl))|].
  destruct (String.eqb platform "zara");
    [exact (Hitems "zara" _ (zara_items _ baseUrl))|].
  intros [].
Qed.

(** A loop that pushes at most one item for each element. *)
Lemma each_push_length {A B : Type} (body : list B -> A -> list B)
  (sel : list A) (init : list B) :
  (forall acc a, List.length (body acc a) <= S (List.length acc)) ->
  List.length (Cheerio.each sel body init) <= List.length init + List.length sel.
Proof.
  intros Hstep. unfold Cheerio.each. revert init.
  induction sel as [|a sel IH]; intros init; simpl; [lia|].
  specialize (IH (body init a)). specialize (Hstep init a). lia.
Qed.

Lemma each_push_count {A B : Type} (body : list B -> A -> list B) (sel : list A) :
  (forall acc a, List.length (body acc a) <= S (List.length acc)) ->
  List.length (Cheerio.each sel body []) <= List.length sel.
Proof. intros Hstep. apply (each_push_length body sel [] Hstep). Qed.

Ltac count_loop :=
  apply each_push_count; intros acc a; cbv zeta;
  match goal with
  | |- List.length (if ?c then _ else _) <= _ => destruct c
  end;
  [unfold Scraper.push; rewrite length_app; simpl; lia | lia].

(** Search extraction emits at most one item for each item element of the
    page, so a page without item elements gives the empty sequence; for a
    platform without a rule the sequence is empty whatever the page. *)
Theorem search_results_bounded (html platform baseUrl : string) :
  List.length (Scraper.parseSearchResults html platform baseUrl)
  <= List.length (Cheerio.select (Cheerio.load html) (item_selector platform))
  /\ (~ In platform Scraper.supported_platforms ->
      Scraper.parseSearchResults html platform baseUrl = []).
Proof.
  split.
  - unfold Scraper.parseSearchResults, item_selector.
    destruct (String.eqb platform "amazon");
      [unfold Scraper.parseAmazonSearch; count_loop|].
    destruct (String.eqb platform "bestbuy");
      [unfold Scraper.parseBestBuySearch; count_loop|].
    destruct (String.eqb platform "ebay");
      [unfold Scraper.parseEbaySearch; count_loop|].
    destruct (String.eqb platform "etsy");
      [unfold Scraper.parseEtsySearch; count_loop|].
    destruct (String.eqb platform "homedepot");
      [unfold Scraper.parseHomeDepotSearch; count_loop|].
    destruct (String.eqb platform "walmart");
      [unfold Scraper.parseWalmartSearch; count_loop|].
    destruct (String.eqb platform "zara");
      [unfold Scraper.parseZaraSearch; count_loop|].
    simpl. lia.
  - intros Hnot. unfold Scraper.parseSearchResults.
    unfold Scraper.supported_platforms in Hnot. simpl in Hnot.
    repeat match goal with
           | |- context [String.eqb platform ?p] =>
               destruct (String.eqb_spec platform p) as [->|?];
               [exfalso; apply Hnot; tauto|]
           end.
    reflexivity.
Qed.

End SearchFacts.

Section EnvelopeFacts.

Import Net.

Context {dom : Cheerio.Api} {urls : Url.Api}.
Variable env : Env.

Lemma poll_returns_snapshot (n : nat) (sid : Json.t) (platform url : string) :
  forall (h h' : list event) (out : Envelope.t),
    Server.poll env n sid platform url h = (inr (Stringify out), h') ->
    exists (body : Json.t) (k : nat),
      1 <= k <= n
      /\ snapshot env (h ++ Server.rounds k sid)%list sid = inr body
      /\ h' = (h ++ Server.rounds k sid ++ [Request (GetSnapshot sid)])%list
      /\ out = {| Envelope.data := Envelope.Dataset body;
                  Envelope.method := "structured_dataset";
                  Envelope.platform := platform;
                  Envelope.url := url |}.
Proof.
  induction n as [|n IH]; intros h h' out; [discriminate|].
  cbn [Server.poll]. unfold bind, emit, axios, lift, throw, ret.
  set (h2 := ((h ++ [Sleep 2000]) ++ [Request (GetProgress sid)])%list).
  assert (Hh2 : forall rest, (h2 ++ rest)%list
                 = (h ++ Sleep 2000 :: Request (GetProgress sid) :: rest)%list).
  { intros rest. subst h2. rewrite <- !app_assoc. reflexivity. }
  destruct (progress env _ sid) as [e|data]; [discriminate|].
  destruct (Server.status_of data) as [e|status]; [discriminate|].
  destruct (Server.is_string status "running").
  { intros Hrun. destruct (IH _ _ _ Hrun) as (body & k & Hk & Hsnap & Hh' & Hout).
    exists body, (S k). split; [lia|].
    cbn [Server.rounds app]. rewrite <- !Hh2.
    split; [exact Hsnap|]. split; [exact Hh' | exact Hout]. }
  destruct (Server.is_string status "failed"); [discriminate|].
  destruct (snapshot env h2 sid) as [e|body] eqn:Hsnap; [discriminate|].
  intros [= <- <-]. exists body, 1. split; [lia|].
  cbn [Server.rounds app]. rewrite <- !Hh2, app_nil_r.
  split; [exact Hsnap|]. split; reflexivity.
Qed.

(** Whenever [get_product_details] returns, the platform detected has a
    dataset id, the trigger was answered with a snapshot id, and what is
    returned is the body the provider gave for that snapshot id, untouched,
    at the one fetch of the call, made after the trigger and [k] rounds of
    pause and poll, [k] between 1 and 30.  The envelope has the method
    "structured_dataset", the detected platform and the URL that was asked;
    a "scraping" envelope is never returned. *)
Theorem returned_envelope_carries_snapshot (url : string) (h h' : list event)
  (out : Envelope.t) :
  Server.get_product_details env url h = (inr (Stringify out), h') ->
  exists (id : string) (data sid body : Json.t) (k : nat),
    Platform.get_dataset_id (Platform.detect_platform url) = Some id
    /\ trigger env h url id = inr data
    /\ Server.snapshot_id_of data = Some sid
    /\ 1 <= k <= 30
    /\ snapshot env (h ++ Request (PostTrigger url id) :: Server.rounds k sid)%list sid
       = inr body
    /\ h' = (h ++ Request (PostTrigger url id) :: Server.rounds k sid
               ++ [Request (GetSnapshot sid)])%list
    /\ out = {| Envelope.data := Envelope.Dataset body;
                Envelope.method := "structured_dataset";
                Envelope.platform := Platform.detect_platform url;
                Envelope.url := url |}.
Proof.
  destruct (Platform.get_dataset_id (Platform.detect_platform url)) as [id|] eqn:Hid.
  - unfold Server.get_product_details. rewrite Hid.
    unfold bind, axios, throw.
    destruct (trigger env h url id) as [e|data] eqn:Htrigger; [discriminate|].
    destruct (Server.snapshot_id_of data) as [sid|] eqn:Hsid; [|discriminate].
    destruct (Json.truthy (Some sid)); [|discriminate].
    intros Hpoll. apply poll_returns_snapshot in Hpoll.
    destruct Hpoll as (body & k & Hk & Hsnap & Hh' & Hout).
    exists id, data, sid, body, k.
    split; [reflexivity|]. split; [exact Htrigger|]. split; [exact Hsid|].
    split; [exact Hk|].
    rewrite <- app_assoc in Hsnap, Hh'. cbn [app] in Hsnap, Hh'.
    split; [exact Hsnap|]. split; [exact Hh' | exact Hout].
  - destruct (scraping_fallback_throws env url h Hid) as [e He].
    rewrite He. discriminate.
Qed.

End EnvelopeFacts.

(** Every URL is detected as one of the eight tags.  "unknown" has no
    dataset id; each of the seven platforms has one, and no two platforms
    share a dataset id. *)
Theorem detected_platform_dataset (url : string) :
  (Platform.detect_platform url = "unknown"
   /\ Platform.get_dataset_id (Platform.detect_platform url) = None)
  \/ (In (Platform.detect_platform url) Scraper.supported_platforms
      /\ exists id,
           Platform.get_dataset_id (Platform.detect_platform url) = Some id
           /\ Js.startsWith id "gd_" = true
           /\ forall other,
                In other Scraper.supported_platforms ->
                Platform.get_dataset_id other = Some id ->
                other = Platform.detect_platform url).
Proof.
  unfold Platform.detect_platform.
  repeat match goal with
         | |- context [Js.includes url ?f] =>
             destruct (Js.includes url f);
             [right; split; [simpl; tauto|];
              eexists; split; [reflexivity|]; split; [reflexivity|];
              intros other Hin;
              unfold Scraper.supported_platforms in Hin; simpl in Hin;
              repeat (destruct Hin as [<-|Hin];
                      [first [reflexivity | discriminate]|]);
              destruct Hin|]
         end.
  left. split; reflexivity.
Qed.

Lemma failed_status_stops_witness :
  Server.get_product_details (dom := MiniDom.cheerio) (urls := MiniUrl.url)
    ServerFixtures.running_failed ServerFixtures.amazon_url []
  = (inl (Error "Dataset collection failed"),
     [ Net.Request (Net.PostTrigger ServerFixtures.amazon_url
                      ServerFixtures.amazon_dataset);
       Net.Sleep 2000; Net.Request (Net.GetProgress ServerFixtures.snapshot_id);
       Net.Sleep 2000; Net.Request (Net.GetProgress ServerFixtures.snapshot_id) ]).
Proof.
  apply (failed_status_stops (dom := MiniDom.cheerio) (urls := MiniUrl.url)
           ServerFixtures.running_failed ServerFixtures.amazon_url []
           ServerFixtures.amazon_dataset
           (Json.Obj [("snapshot_id", ServerFixtures.snapshot_id)])
           ServerFixtures.snapshot_id 1).
  - reflexivity.
  - reflexivity.
  - reflexivity.
  - reflexivity.
  - lia.
  - intros h' Hh'. apply scripted_status.
    destruct (Net.polls h') as [|n]; [reflexivity | simpl in Hh'; lia].
  - intros h' Hh'. apply scripted_status. rewrite Hh'. reflexivity.
Defined.

Lemma returned_envelope_carries_snapshot_witness :
  exists (id : string) (data sid body : Json.t) (k : nat),
    Platform.get_dataset_id (Platform.detect_platform ServerFixtures.amazon_url)
    = Some id
    /\ Net.trigger ServerFixtures.running_running_ready [] ServerFixtures.amazon_url id
       = inr data
    /\ Server.snapshot_id_of data = Some sid
    /\ 1 <= k <= 30
    /\ Net.snapshot ServerFixtures.running_running_ready
         ([] ++ Net.Request (Net.PostTrigger ServerFixtures.amazon_url id)
             :: Server.rounds k sid)%list sid
       = inr body
    /\ snd (Server.get_product_details
              (dom := MiniDom.cheerio) (urls := MiniUrl.url)
              ServerFixtures.running_running_ready ServerFixtures.amazon_url [])
       = ([] ++ Net.Request (Net.PostTrigger ServerFixtures.amazon_url id)
             :: Server.rounds k sid ++ [Net.Request (Net.GetSnapshot sid)])%list
    /\ {| Envelope.data := Envelope.Dataset ServerFixtures.result_body;
          Envelope.method := "structured_dataset";
          Envelope.platform := "amazon";
          Envelope.url := ServerFixtures.amazon_url |}
       = {| Envelope.data := Envelope.Dataset body;
            Envelope.method := "structured_dataset";
            Envelope.platform :=
              Platform.detect_platform ServerFixtures.amazon_url;
            Envelope.url := ServerFixtures.amazon_url |}.
Proof.
  exact (returned_envelope_carries_snapshot
           (dom := MiniDom.cheerio) (urls := MiniUrl.url)
           ServerFixtures.running_running_ready ServerFixtures.amazon_url []
           (snd (Server.get_product_details
                   (dom := MiniDom.cheerio) (urls := MiniUrl.url)
                   ServerFixtures.running_running_ready
                   ServerFixtures.amazon_url []))
           _ eq_refl).
Defined.

Lemma detail_extraction_total_witness :
  exists p : Product.t,
    Scraper.parseProductDetails (dom := MiniDom.cheerio) (urls := MiniUrl.url)
      DetailFixtures.amazon_page "amazon" DetailFixtures.amazon_base = inr p
    /\ Product.platform p = "amazon"
    /\ Product.url p = "https://www.amazon.com"
    /\ Product.currency p = "USD".
Proof.
  assert (Hin : In "amazon" Scraper.supported_platforms) by (simpl; tauto).
  exact (detail_extraction_total (dom := MiniDom.cheerio) (urls := MiniUrl.url)
           DetailFixtures.amazon_page "amazon" DetailFixtures.amazon_base
           DetailFixtures.amazon_origin Hin eq_refl).
Defined.

Lemma specification_labels_distinct_witness :
  Scraper.parseProductDetails (dom := MiniDom.cheerio) (urls := MiniUrl.url)
    DetailFixtures.amazon_page "amazon" DetailFixtures.amazon_base
  = inr DetailFixtures.amazon_product
  /\ NoDup (map fst (Product.specifications DetailFixtures.amazon_product))
  /\ Forall (fun kv => fst kv <> "")
       (Product.specifications DetailFixtures.amazon_product)
  /\ Forall (fun kv => snd kv <> "" \/ ("amazon" = "ebay" /\ fst kv = "condition"))
       (Product.specifications DetailFixtures.amazon_product).
Proof.
  assert (Hrun : Scraper.parseProductDetails
                   (dom := MiniDom.cheerio) (urls := MiniUrl.url)
                   DetailFixtures.amazon_page "amazon" DetailFixtures.amazon_base
                 = inr DetailFixtures.amazon_product)
    by (vm_compute; reflexivity).
  split; [exact Hrun|].
  exact (specification_labels_distinct (dom := MiniDom.cheerio) (urls := MiniUrl.url)
           DetailFixtures.amazon_page "amazon" DetailFixtures.amazon_base
           DetailFixtures.amazon_product Hrun).
Defined.

Lemma amazon_variants_named_witness :
  exists vs : list Variant.t,
    Product.variants DetailFixtures.amazon_product = Some vs
    /\ Forall (fun v => Variant.name v <> "" /\ Variant.price v <> None) vs.
Proof.
  assert (Hrun : Scraper.parseProductDetails
                   (dom := MiniDom.cheerio) (urls := MiniUrl.url)
                   DetailFixtures.amazon_page "amazon" DetailFixtures.amazon_base
                 = inr DetailFixtures.amazon_product)
    by (vm_compute; reflexivity).
  exact (amazon_variants_named (dom := MiniDom.cheerio) (urls := MiniUrl.url)
           DetailFixtures.amazon_page DetailFixtures.amazon_base
           DetailFixtures.amazon_product Hrun).
Defined.

Lemma search_urls_absolute_witness :
  Js.startsWith "https://www.ebay.com" "http" = true
  /\ In Fixtures.lamp
       (Scraper.parseSearchResults (dom := MiniDom.cheerio)
          Fixtures.ebay_mixed "ebay" "https://www.ebay.com")
  /\ Js.startsWith (SearchResult.url Fixtures.lamp) "http" = true.
Proof.
  assert (Hin : In Fixtures.lamp
                  (Scraper.parseSearchResults (dom := MiniDom.cheerio)
                     Fixtures.ebay_mixed "ebay" "https://www.ebay.com"))
    by (vm_compute; left; reflexivity).
  split; [reflexivity|]. split; [exact Hin|].
  exact (search_urls_absolute (dom := MiniDom.cheerio)
           Fixtures.ebay_mixed "ebay" "https://www.ebay.com" Fixtures.lamp
           eq_refl Hin).
Defined.

(** ** Further properties of the services *)

Section ServiceFacts.

Import Store ProductService StoreSpec StoreMore.

Context {urls : Url.Api}.

Lemma eq_some_refl (a : string) : eq_some (Some a) a = true.
Proof. simpl. apply String.eqb_refl. Qed.

(** [trackProduct] for a user that exists.  When neither a platform nor a
    valid URL is given it throws before writing, and when the current price
    does not fit the [Int] column the write throws and nothing is stored.
    Otherwise it creates one product owned by the user's row, named by the
    details or "New Product", on the given platform or the URL's host name,
    always with tracking type "price" and no target price, and one price row
    with the current price or 0; the product is then among the user's
    tracked products, that row its whole history. *)
Theorem track_then_read (s : Store.t) (userId0 url0 : string)
  (details : ProductDetails) (user : User) :
  user_findUnique userId0 s = Some user ->
  prices_of s (uuid (next_uuid s)) = [] ->
  let amount0 := match currentPrice details with Some a => a | None => 0%Z end in
  match platform_or_hostname details url0 with
  | inl e => trackProduct userId0 url0 details s = (inl e, s)
  | inr platform0 =>
      if is_int amount0 then
        exists (p : Product) (row : Price) (s' : Store.t)
               (tracked : list (Product * option (list Price))),
          trackProduct userId0 url0 details s = (inr p, s')
          /\ name p = match details_name details with
                      | Some n => Js.or_else n "New Product"
                      | None => "New Product"
                      end
          /\ platform p = platform0
          /\ url p = url0
          /\ tracking_type p = "price"
          /\ target_price p = None
          /\ userId p = Some (user_id user)
          /\ amount row = amount0
          /\ prices s' = (prices s ++ [row])%list
          /\ products s' = (products s ++ [p])%list
          /\ getUserTrackedProducts userId0 true s' = (inr tracked, s')
          /\ In (p, Some [row]) tracked
      else
        exists e, trackProduct userId0 url0 details s = (inl e, s)
  end.
Proof.
  intros Hfind Hfresh amount0.
  unfold trackProduct. rewrite Hfind.
  destruct (platform_or_hostname details url0) as [e|platform0]; [reflexivity|].
  unfold product_create. fold amount0.
  destruct (is_int amount0); cbn [negb]; [|eexists; reflexivity].
  set (p := {| id := uuid (next_uuid s);
               name := match details_name details with
                       | Some n => Js.or_else n "New Product"
                       | None => "New Product"
                       end;
               platform := platform0;
               target_price := None;
               url := url0;
               tracking_type := "price";
               createdAt := clock s;
               updatedAt := clock s;
               userId := Some (user_id user) |}).
  set (row := {| price_id := uuid (S (next_uuid s));
                 amount := amount0;
                 price_createdAt := clock s;
                 price_updatedAt := clock s;
                 productId := Some (id p) |}).
  exists p, row. do 2 eexists. split; [reflexivity|].
  repeat (split; [reflexivity|]).
  unfold product_findMany. cbn [users products prices].
  apply in_map_iff. eexists. split.
  2:{ apply filter_In. split.
      - apply in_or_app. right. left. reflexivity.
      - apply existsb_exists. exists user.
        apply find_some in Hfind. destruct Hfind as [Hin Heq].
        split; [exact Hin|]. rewrite Heq. cbn [userId]. apply eq_some_refl. }
  cbn [id]. f_equal. f_equal.
  change (id p) with (uuid (next_uuid s)).
  unfold prices_of in *. cbn [prices]. rewrite filter_app, Hfresh.
  subst row. cbn [filter productId app]. change (id p) with (uuid (next_uuid s)).
  rewrite eq_some_refl. reflexivity.
Qed.

Lemma known_same (l l' : list Product) (pid : string) :
  Forall2 same_product l l' ->
  existsb (fun p => String.eqb (id p) pid) l
  = existsb (fun p => String.eqb (id p) pid) l'.
Proof.
  induction 1 as [|q q' l l' [Hid _] _ IH]; simpl; [reflexivity|].
  now rewrite Hid, IH.
Qed.

Lemma find_existsb {A : Type} (f : A -> bool) (l : list A) :
  existsb f l = match find f l with Some _ => true | None => false end.
Proof.
  induction l as [|a l IH]; simpl; [reflexivity|].
  destruct (f a); [reflexivity | exact IH].
Qed.

Lemma product_update_refused (pid : string) (a : Z) (s : Store.t) :
  is_int a && known s pid = false ->
  exists e, product_update pid a s = (inl e, s).
Proof.
  unfold known, product_update. rewrite find_existsb.
  destruct (is_int a); cbn [negb andb]; [|eexists; reflexivity].
  destruct (find _ (products s)); [discriminate | eexists; reflexivity].
Qed.

Lemma product_update_accepted (pid : string) (a : Z) (s : Store.t) :
  is_int a && known s pid = true ->
  exists p s', product_update pid a s = (inr p, s').
Proof.
  unfold known, product_update. rewrite find_existsb.
  destruct (is_int a); cbn [negb andb]; [|discriminate].
  destruct (find _ (products s)); [do 2 eexists; reflexivity | discriminate].
Qed.

(** The batch of updates, one after the other: it succeeds when every
    amount fits the column and every id names a product, and otherwise stops
    at the first update of which that is not so. *)
Lemma sequence_updates_result (data : list PriceUpdateItem) :
  forall s : Store.t,
    if forallb (acceptable s) data
    then exists res s',
           sequence
             (map (fun item => product_update (item_id item) (item_currentPrice item))
                data) s
           = (inr res, s')
           /\ List.length res = List.length data
    else exists e s1,
           sequence
             (map (fun item => product_update (item_id item) (item_currentPrice item))
                data) s
           = (inl e, s1).
Proof.
  induction data as [|item data IH]; intros s.
  - simpl. exists [], s. split; reflexivity.
  - cbn [forallb map sequence].
    destruct (acceptable s item) eqn:Hk; cbn [andb].
    + destruct (product_update_accepted _ _ _ Hk) as (p & s1 & Hupd).
      rewrite Hupd.
      pose proof (product_update_ok _ _ _ _ _ Hupd) as (_ & _ & _ & _ & Hsame).
      assert (Hforall : forallb (acceptable s) data = forallb (acceptable s1) data).
      { clear - Hsame. induction data as [|it data IHd]; simpl; [reflexivity|].
        unfold acceptable at 1 3, known.
        now rewrite (known_same _ _ (item_id it) Hsame), IHd. }
      rewrite Hforall. specialize (IH s1).
      destruct (forallb _ data).
      * destruct IH as (res & s' & -> & Hlen).
        exists (p :: res), s'. split; [reflexivity | simpl; now rewrite Hlen].
      * destruct IH as (e & s2 & ->). exists e, s2. reflexivity.
    + destruct (product_update_refused _ _ _ Hk) as (e & ->).
      exists e, s. reflexivity.
Qed.

(** [updateAllProducts] succeeds exactly when, in the store as it is before
    the batch, every amount fits the [Int] column and every id names a
    product.  Then it returns one product for each update and appends one
    price row for each update, in order, and the products are the same.
    Otherwise it throws and the store is left as it was, the updates before
    the failing one included. *)
Theorem update_all_or_nothing (data : list PriceUpdateItem) (s : Store.t) :
  if forallb (acceptable s) data
  then exists res s',
         updateAllProducts data s = (inr res, s')
         /\ List.length res = List.length data
         /\ prices s' = (prices s ++ new_rows (clock s) (next_uuid s) data)%list
         /\ map id (products s') = map id (products s)
  else exists e, updateAllProducts data s = (inl e, s).
Proof.
  pose proof (sequence_updates_result data s) as H.
  unfold updateAllProducts, transaction.
  destruct (forallb (acceptable s) data).
  - destruct H as (res & s' & Hseq & Hlen). rewrite Hseq.
    exists res, s'. split; [reflexivity|]. split; [exact Hlen|].
    apply sequence_updates_ok in Hseq. destruct Hseq as (Hp & _ & Hsame).
    split; [exact Hp|].
    clear - Hsame. induction Hsame as [|q q' l l' [Hid _] _ IH]; simpl;
      [reflexivity | now rewrite Hid, IH].
  - destruct H as (e & s1 & ->). exists e. reflexivity.
Qed.

End ServiceFacts.

Section LatestPriceFacts.

Import Store ProductService ProductServiceMore StoreSpec StoreMore.

(** A row older than every row of a newest-first list goes last. *)
Lemma insert_desc_oldest (r : Price) (l : list Price) :
  Forall (fun x => price_createdAt r < price_createdAt x) l ->
  insert_desc r l = (l ++ [r])%list.
Proof.
  induction 1 as [|x l Hx _ IH]; simpl; [reflexivity|].
  destruct (Nat.ltb_spec (price_createdAt x) (price_createdAt r)); [lia|].
  now rewrite IH.
Qed.

(** Rows in strictly increasing creation time, newest first: reversed. *)
Lemma newest_first_rev (l : list Price) :
  StronglySorted (fun a b => price_createdAt a < price_createdAt b) l ->
  newest_first l = rev l.
Proof.
  induction 1 as [|r l _ IH Hr]; simpl; [reflexivity|].
  rewrite IH. apply insert_desc_oldest.
  apply Forall_forall. intros x Hx. apply in_rev in Hx.
  rewrite Forall_forall in Hr. now apply Hr.
Qed.

Lemma new_rows_strictly_sorted (data : list PriceUpdateItem) :
  forall c u : nat,
    StronglySorted (fun a b => price_createdAt a < price_createdAt b)
      (new_rows c u data).
Proof.
  induction data as [|item data IH]; intros c u; simpl; constructor.
  - apply IH.
  - eapply Forall_impl; [|apply (new_rows_after data (S c) (S u))].
    simpl. intros r Hr. lia.
Qed.

(** After a batch of updates that succeeded, on a store whose price rows
    have distinct, increasing creation times, [getAllTrackedProducts] shows
    for every product the batch updated exactly one price: the amount of
    the last update of that product in the batch. *)
Theorem latest_price_is_last_update (s s' : Store.t) (data : list PriceUpdateItem)
  (res : list Product) (all : list (Product * list Price))
  (p : Product) (latest : list Price) (earlier : list Z) (a : Z) :
  strictly_chronological s ->
  updateAllProducts data s = (inr res, s') ->
  getAllTrackedProducts s' = (inr all, s') ->
  In (p, latest) all ->
  map item_currentPrice
    (filter (fun item => String.eqb (item_id item) (id p)) data)
  = (earlier ++ [a])%list ->
  map amount latest = [a].
Proof.
  intros [Hsorted Hclock] Hupd Hread Hin Hlast.
  unfold getAllTrackedProducts in Hread. injection Hread as <-.
  unfold product_findMany_latest in Hin. apply in_map_iff in Hin.
  destruct Hin as (q & Hq & _). injection Hq as <- <-.
  unfold updateAllProducts, transaction in Hupd.
  destruct (sequence _ s) as [[e|rs] s1] eqn:Hseq; [discriminate|].
  injection Hupd as <- <-.
  apply sequence_updates_ok in Hseq. destruct Hseq as (Hp & _ & _).
  assert (Hall : StronglySorted (fun x y => price_createdAt x < price_createdAt y)
                   (prices s1)).
  { rewrite Hp. apply StronglySorted_app;
      [exact Hsorted | apply new_rows_strictly_sorted|].
    intros x y Hx Hy.
    rewrite Forall_forall in Hclock. specialize (Hclock x Hx).
    pose proof (new_rows_after data (clock s) (next_uuid s)) as Hafter.
    rewrite Forall_forall in Hafter. specialize (Hafter y Hy). simpl in Hafter.
    lia. }
  rewrite newest_first_rev by (now apply StronglySorted_filter).
  unfold prices_of. rewrite Hp, filter_app, rev_app_distr.
  pose proof (new_rows_amounts (id q) data (clock s) (next_uuid s)) as Ham.
  rewrite Hlast in Ham.
  destruct (rev (filter _ (new_rows _ _ data))) as [|r0 rest] eqn:Hrev.
  - apply (f_equal (@rev Price)) in Hrev. rewrite rev_involutive in Hrev.
    rewrite Hrev in Ham. simpl in Ham. destruct earlier; discriminate.
  - simpl. f_equal.
    apply (f_equal (@rev Price)) in Hrev. rewrite rev_involutive in Hrev.
    rewrite Hrev in Ham. simpl in Ham. rewrite map_app in Ham. simpl in Ham.
    apply app_inj_tail in Ham. now destruct Ham.
Qed.

End LatestPriceFacts.

Section AccountFacts.

Import Store ProductService StoreMore.

Context {urls : Url.Api}.

Lemma find_app_none {A : Type} (f : A -> bool) (l : list A) (x : A) :
  find f l = None -> find f (l ++ [x]) = if f x then Some x else None.
Proof.
  induction l as [|a l IH]; simpl; [reflexivity|].
  destruct (f a); [discriminate | exact IH].
Qed.

Lemma find_app_other {A : Type} (f : A -> bool) (l : list A) (x : A) :
  f x = false -> find f (l ++ [x]) = find f l.
Proof.
  intros Hx. induction l as [|a l IH]; simpl; [now rewrite Hx|].
  destruct (f a); [reflexivity | exact IH].
Qed.

(** [createOrUpdateUser] never fails and is idempotent: afterwards the user
    row it returned is the one found for this [userId], a second call
    returns the same row and changes nothing, the rows found for other
    users and all products and prices are as before, and [trackProduct]
    for this user, with a platform given and a current price that fits the
    [Int] column (or none), succeeds for the returned row. *)
Theorem create_user_then_track (userId0 : string) (s : Store.t) :
  exists (u : User) (s' : Store.t),
    UserService.createOrUpdateUser userId0 s = (inr u, s')
    /\ user_userId u = userId0
    /\ user_findUnique userId0 s' = Some u
    /\ UserService.createOrUpdateUser userId0 s' = (inr u, s')
    /\ products s' = products s
    /\ prices s' = prices s
    /\ (forall other, other <> userId0 ->
                      user_findUnique other s' = user_findUnique other s)
    /\ (forall url0 details platform0,
           details_platform details = Some platform0 ->
           Js.truthy platform0 = true ->
           is_int (match currentPrice details with Some a => a | None => 0%Z end)
           = true ->
           exists p s'',
             trackProduct userId0 url0 details s' = (inr p, s'')
             /\ userId p = Some (user_id u)
             /\ platform p = platform0).
Proof.
  unfold UserService.createOrUpdateUser, user_upsert.
  destruct (user_findUnique userId0 s) as [u|] eqn:Hfind.
  - exists u, s. split; [reflexivity|].
    pose proof Hfind as Hu. unfold user_findUnique in Hu.
    apply find_some in Hu. destruct Hu as [_ Hu]. apply String.eqb_eq in Hu.
    split; [exact Hu|]. split; [exact Hfind|].
    split; [now rewrite Hfind|]. repeat split.
    intros url0 details platform0 Hpf Htruthy Hint.
    unfold trackProduct, platform_or_hostname. rewrite Hfind, Hpf, Htruthy.
    unfold product_create. rewrite Hint. do 2 eexists. repeat split.
  - set (u := {| user_id := uuid (next_uuid s); user_userId := userId0;
                 user_createdAt := clock s; user_updatedAt := clock s |}).
    set (s' := {| users := (users s ++ [u])%list; products := products s;
                  prices := prices s; clock := S (clock s);
                  next_uuid := S (next_uuid s) |}).
    assert (Hfind' : user_findUnique userId0 s' = Some u).
    { unfold user_findUnique in *. cbn [users s'].
      rewrite (find_app_none _ _ _ Hfind). cbn [user_userId u].
      now rewrite String.eqb_refl. }
    exists u, s'. split; [reflexivity|]. split; [reflexivity|].
    split; [exact Hfind'|]. split; [now rewrite Hfind'|].
    split; [reflexivity|]. split; [reflexivity|]. split.
    + intros other Hother. unfold user_findUnique. cbn [users s'].
      apply find_app_other. cbn [user_userId u].
      apply String.eqb_neq. congruence.
    + intros url0 details platform0 Hpf Htruthy Hint.
      unfold trackProduct, platform_or_hostname. rewrite Hfind', Hpf, Htruthy.
      unfold product_create. rewrite Hint. do 2 eexists. repeat split.
Qed.

(** [untrackProduct] for a user that exists deletes only a product of that
    user.  When the user's row owns no product with this id, it throws
    "Record to delete does not exist." and the store is left as it was;
    otherwise it returns the product, no product with this id is left to
    the user, every other product stays, and the price rows stay in the
    table, in order, with their amounts. *)
Theorem untrack_owned_only (s : Store.t) (userId0 productId0 : string) (user : User) :
  user_findUnique userId0 s = Some user ->
  let mine p := String.eqb (id p) productId0 && eq_some (userId p) (user_id user) in
  (existsb mine (products s) = false ->
   untrackProduct userId0 productId0 s
   = (inl (PrismaError "Record to delete does not exist."), s))
  /\ (existsb mine (products s) = true ->
      exists p s',
        untrackProduct userId0 productId0 s = (inr p, s')
        /\ In p (products s) /\ mine p = true
        /\ products s' = filter (fun q => negb (mine q)) (products s)
        /\ map amount (prices s') = map amount (prices s)
        /\ users s' = users s).
Proof.
  intros Hfind mine.
  unfold untrackProduct, product_delete. rewrite Hfind.
  fold mine. rewrite find_existsb.
  destruct (find mine (products s)) as [p|] eqn:Hp; split; intros Hex;
    try discriminate; [|reflexivity].
  apply find_some in Hp. destruct Hp as [Hin Hmine].
  do 2 eexists. split; [reflexivity|]. cbn [products prices users].
  repeat split; auto.
  rewrite map_map. apply map_ext. intros r.
  destruct (eq_some (productId r) productId0); reflexivity.
Qed.

End AccountFacts.

Section TrackToolFacts.

Import Store.

Context {urls : Url.Api}.

(** The tool [track_product] stores neither the target price nor the
    tracking type it is given: for a user that exists and a platform tag,
    whatever they are, the product is created with tracking type "price",
    no target price and a first price of 0. *)
Theorem track_product_drops_target (number : Type) (number_truthy : number -> bool)
  (to_cents : number -> number) (name0 platform0 : string)
  (target_price0 : option number) (tracking_type0 url0 userId0 : string)
  (s : Store.t) (user : User) :
  user_findUnique userId0 s = Some user ->
  Js.truthy platform0 = true ->
  exists (p : Product) (row : Price) (s' : Store.t),
    TrackTool.track_product number number_truthy to_cents
      name0 platform0 target_price0 tracking_type0 url0 userId0 s
    = (inr (Stringify p), s')
    /\ tracking_type p = "price"
    /\ target_price p = None
    /\ name p = Js.or_else name0 "New Product"
    /\ platform p = platform0
    /\ url p = url0
    /\ userId p = Some (user_id user)
    /\ prices s' = (prices s ++ [row])%list
    /\ amount row = 0%Z
    /\ productId row = Some (id p).
Proof.
  intros Hfind Hpf.
  unfold TrackTool.track_product, TrackTool.trackProduct.
  cbn [TrackTool.name TrackTool.platform TrackTool.url].
  rewrite Hfind, Hpf. unfold product_create.
  do 3 eexists. split; [reflexivity|]. cbn. repeat split.
Qed.

End TrackToolFacts.

Lemma track_then_read_witness :
  exists (p : Store.Product) (row : Store.Price) (s' : Store.t)
         (tracked : list (Store.Product * option (list Store.Price))),
    ProductService.trackProduct (urls := MiniUrl.url) "alice"
      "https://www.walmart.com/ip/9" StoreFixtures.no_details StoreFixtures.store
    = (inr p, s')
    /\ Store.name p = "New Product"
    /\ Store.platform p = "www.walmart.com"
    /\ Store.url p = "https://www.walmart.com/ip/9"
    /\ Store.tracking_type p = "price"
    /\ Store.target_price p = None
    /\ Store.userId p = Some "uuid-0"
    /\ Store.amount row = 0%Z
    /\ Store.prices s' = (Store.prices StoreFixtures.store ++ [row])%list
    /\ Store.products s' = (Store.products StoreFixtures.store ++ [p])%list
    /\ ProductService.getUserTrackedProducts "alice" true s' = (inr tracked, s')
    /\ In (p, Some [row]) tracked.
Proof.
  exact (track_then_read (urls := MiniUrl.url) StoreFixtures.store "alice"
           "https://www.walmart.com/ip/9" StoreFixtures.no_details
           StoreFixtures.alice eq_refl eq_refl).
Defined.

Lemma latest_price_is_last_update_witness :
  map Store.amount
    (firstn 1 (StoreMore.newest_first
                 (Store.prices_of StoreFixtures.store_after "uuid-1")))
  = [1999%Z].
Proof.
  assert (Hstrict : StoreMore.strictly_chronological StoreFixtures.store).
  { split; repeat constructor. }
  exact (latest_price_is_last_update
           StoreFixtures.store StoreFixtures.store_after StoreFixtures.updates
           [Store.touch 2 StoreFixtures.kettle; Store.touch 3 StoreFixtures.kettle]
           (StoreMore.product_findMany_latest StoreFixtures.store_after)
           (Store.touch 3 StoreFixtures.kettle)
           (firstn 1 (StoreMore.newest_first
                        (Store.prices_of StoreFixtures.store_after "uuid-1")))
           [2299%Z] 1999%Z
           Hstrict eq_refl eq_refl (or_introl eq_refl) eq_refl).
Defined.

Lemma untrack_owned_only_witness :
  ProductService.untrackProduct "alice" "uuid-7" StoreFixtures.store
  = (inl (PrismaError "Record to delete does not exist."), StoreFixtures.store)
  /\ exists p s',
       ProductService.untrackProduct "alice" "uuid-1" StoreFixtures.store
       = (inr p, s')
       /\ In p (Store.products StoreFixtures.store)
       /\ String.eqb (Store.id p) "uuid-1"
          && Store.eq_some (Store.userId p) "uuid-0" = true
       /\ Store.products s' = []
       /\ map Store.amount (Store.prices s') = [2499%Z]
       /\ Store.users s' = [StoreFixtures.alice].
Proof.
  split.
  - exact (proj1 (untrack_owned_only StoreFixtures.store "alice" "uuid-7"
                    StoreFixtures.alice eq_refl) eq_refl).
  - exact (proj2 (untrack_owned_only StoreFixtures.store "alice" "uuid-1"
                    StoreFixtures.alice eq_refl) eq_refl).
Defined.

Lemma track_product_drops_target_witness :
  exists (p : Store.Product) (row : Store.Price) (s' : Store.t),
    TrackTool.track_product (urls := MiniUrl.url) Z (fun z => negb (Z.eqb z 0))
      (fun z => (z * 100)%Z)
      "Kettle" "walmart" (Some 15%Z) "both" "https://www.walmart.com/ip/9" "alice"
      StoreFixtures.store
    = (inr (Stringify p), s')
    /\ Store.tracking_type p = "price"
    /\ Store.target_price p = None
    /\ Store.name p = "Kettle"
    /\ Store.platform p = "walmart"
    /\ Store.url p = "https://www.walmart.com/ip/9"
    /\ Store.userId p = Some "uuid-0"
    /\ Store.prices s' = (Store.prices StoreFixtures.store ++ [row])%list
    /\ Store.amount row = 0%Z
    /\ Store.productId row = Some (Store.id p).
Proof.
  exact (track_product_drops_target (urls := MiniUrl.url) Z
           (fun z => negb (Z.eqb z 0)) (fun z => (z * 100)%Z)
           "Kettle" "walmart" (Some 15%Z) "both" "https://www.walmart.com/ip/9"
           "alice" StoreFixtures.store StoreFixtures.alice eq_refl eq_refl).
Defined.

Example update_with_unknown_id_rolls_back :
  exists e,
    ProductService.updateAllProducts
      [ {| ProductService.item_currentPrice := 2299; ProductService.item_id := "uuid-1" |};
        {| ProductService.item_currentPrice := 10; ProductService.item_id := "uuid-9" |} ]
      StoreFixtures.store
    = (inl e, StoreFixtures.store).
Proof. eexists. reflexivity. Qed.

Example update_with_wide_amount_rolls_back :
  exists e,
    ProductService.updateAllProducts
      [ {| ProductService.item_currentPrice := 2299; ProductService.item_id := "uuid-1" |};
        {| ProductService.item_currentPrice := 2147483648;
           ProductService.item_id := "uuid-1" |} ]
      StoreFixtures.store
    = (inl e, StoreFixtures.store).
Proof. eexists. reflexivity. Qed.

(** ** Properties of the first generation *)

Section MapFacts.

Import PriceBot.

Context {V : Type}.

Lemma map_get_set_same (k : string) (v : V) (m : list (string * V)) :
  map_get k (map_set k v m) = Some v.
Proof.
  induction m as [|[k' v'] m IH]; simpl.
  - now rewrite String.eqb_refl.
  - destruct (String.eqb k k') eqn:E; simpl; rewrite E; [reflexivity | exact IH].
Qed.

Lemma map_get_set_other (k k0 : string) (v : V) (m : list (string * V)) :
  k0 <> k -> map_get k0 (map_set k v m) = map_get k0 m.
Proof.
  intros Hne. induction m as [|[k' v'] m IH]; simpl.
  - destruct (String.eqb_spec k0 k); [contradiction | reflexivity].
  - destruct (String.eqb_spec k k') as [->|Hk]; simpl.
    + destruct (String.eqb_spec k0 k'); [contradiction | reflexivity].
    + now rewrite IH.
Qed.

Lemma map_set_absent (k : string) (v : V) (m : list (string * V)) :
  map_get k m = None -> map_set k v m = (m ++ [(k, v)])%list.
Proof.
  induction m as [|[k' v'] m IH]; simpl; [reflexivity|].
  destruct (String.eqb k k'); [discriminate|].
  intros H. now rewrite IH.
Qed.

Lemma keys_set_present (k : string) (v v0 : V) (m : list (string * V)) :
  map_get k m = Some v0 -> keys (map_set k v m) = keys m.
Proof.
  unfold keys. induction m as [|[k' v'] m IH]; simpl; [discriminate|].
  destruct (String.eqb k k'); simpl; [reflexivity|].
  intros H. now rewrite IH.
Qed.

Lemma map_get_app_absent (k : string) (m m' : list (string * V)) (v : V) :
  map_get k m = Some v -> map_get k (m ++ m') = Some v.
Proof.
  induction m as [|[k' v'] m IH]; simpl; [discriminate|].
  destruct (String.eqb k k'); auto.
Qed.

Lemma map_get_In_keys (k : string) (m : list (string * V)) :
  In k (keys m) -> exists v, map_get k m = Some v.
Proof.
  unfold keys. induction m as [|[k' v'] m IH]; simpl; [intros []|].
  destruct (String.eqb_spec k k') as [->|Hne].
  - intros _. now exists v'.
  - intros [H|H]; [congruence | now apply IH].
Qed.

End MapFacts.

Section BotFacts.

Import Net PriceBot PriceBotSpec.

Variable env : Env.
Variable number : Type.
Variable clock : nat -> string.

Local Abbreviation Stats := (PriceBot.Stats number).
Local Abbreviation tracked st := (tracked_products number st).

Lemma grows_refl (st : Stats) : grows st st.
Proof.
  split; [exists []; now rewrite app_nil_r|].
  intros k info H. exists info. auto.
Qed.

Lemma grows_trans (a b c : Stats) : grows a b -> grows b c -> grows a c.
Proof.
  intros [[ab Hab] Hb] [[bc Hbc] Hc]. split.
  - exists (ab ++ bc)%list. rewrite Hbc, Hab, app_assoc. reflexivity.
  - intros k info Hk.
    destruct (Hb k info Hk) as (i1 & H1 & Hf1 & Hu1).
    destruct (Hc k i1 H1) as (i2 & H2 & Hf2 & Hu2).
    exists i2. split; [exact H2|]. split; [|lia].
    intros Ht. rewrite Hf2; [now apply Hf1 | now rewrite Hf1].
Qed.

(** A state that differs only in its counters and clock tracks the same. *)
Lemma grows_same_tracked (st st' : Stats) :
  tracked st' = tracked st -> grows st st'.
Proof.
  intros H. unfold grows, tracked_urls. rewrite H. split.
  - exists []. now rewrite app_nil_r.
  - intros k info Hk. exists info. auto.
Qed.

(** Adding a URL that was not tracked. *)
Lemma grows_added (st st' : Stats) (u : string) (info : TrackingInfo number) :
  map_get u (tracked st) = None ->
  tracked st' = (tracked st ++ [(u, info)])%list ->
  grows st st'.
Proof.
  intros Hnone H. unfold grows, tracked_urls, keys. rewrite H, map_app. split.
  - now exists [u].
  - intros k i Hk. exists i. split; [now apply map_get_app_absent | auto].
Qed.

Lemma poll_registers (n : nat) (sid : Json.t) (platform0 url0 : string) :
  forall (st : Stats) (h : list event),
    let '(r, st', _) := poll env number clock n sid platform0 url0 st h in
    registers url0 st st' (is_returned r)
    /\ forall e, r = inr (Stringify e) -> Envelope.url e = url0.
Proof.
  induction n as [|n IH]; intros st h.
  - cbn. split; [split; auto | discriminate].
  - cbn [poll]. unfold bindB, liftB, emit, axios, lift, throwB, retB.
    destruct (progress env _ sid) as [e|data];
      [split; [split; auto | discriminate]|].
    destruct (Server.status_of data) as [e|status];
      [split; [split; auto | discriminate]|].
    destruct (Server.is_string status "running"); [apply IH|].
    destruct (Server.is_string status "failed");
      [split; [split; auto | discriminate]|].
    destruct (snapshot env _ sid) as [e|body];
      [split; [split; auto | discriminate]|].
    unfold get_tracked, date_now, set_tracked. cbn.
    destruct (map_get url0 (tracked st)) eqn:Hget; cbn.
    + split; [split; auto|]. now intros e [= <-].
    + split; [|now intros e [= <-]].
      split; [reflexivity|]. right. split; [reflexivity|]. split; [exact Hget|].
      eexists. split; [now apply map_set_absent | reflexivity].
Qed.

Lemma calls_of_bumped (st st' : Stats) (tool other : string) :
  tool_calls number st'
  = map_set tool (calls_of st tool + 1) (tool_calls number st) ->
  calls_of st' tool = calls_of st tool + 1
  /\ (other <> tool -> calls_of st' other = calls_of st other).
Proof.
  intros H. unfold calls_of at 1 3. rewrite H. split.
  - now rewrite map_get_set_same.
  - intros Hne. now rewrite map_get_set_other.
Qed.

(** The effect of one call of the first generation's [get_product_details]:
    the call is counted, and the state is otherwise as the polling loop
    leaves it. *)
Lemma get_product_details_effect (url0 : string) (st : Stats) (h : list event) :
  let '(r, st', _) := get_product_details env number clock url0 st h in
  tool_calls number st'
  = map_set "get_product_details" (calls_of st "get_product_details" + 1)
      (tool_calls number st)
  /\ (tracked st' = tracked st
      \/ (is_returned r = true
          /\ map_get url0 (tracked st) = None
          /\ exists info, tracked st' = (tracked st ++ [(url0, info)])%list
                          /\ update_count number info = 1))
  /\ forall e, r = inr (Stringify e) -> Envelope.url e = url0.
Proof.
  unfold get_product_details, tool_fn.
  set (st1 := {| tool_calls := _; tracked_products := tracked st;
                 clock_reads := clock_reads number st |}).
  assert (Hcalls : tool_calls number st1
                   = map_set "get_product_details"
                       (calls_of st "get_product_details" + 1)
                       (tool_calls number st)) by reflexivity.
  destruct (Platform.get_dataset_id _) as [id|].
  - unfold bindB, liftB, axios, throwB.
    destruct (trigger env h url0 id) as [e|data];
      [split; [exact Hcalls | split; [now left | discriminate]]|].
    destruct (Server.snapshot_id_of data) as [sid|];
      [|split; [exact Hcalls | split; [now left | discriminate]]].
    destruct (Json.truthy (Some sid));
      [|split; [exact Hcalls | split; [now left | discriminate]]].
    pose proof (poll_registers Server.max_attempts sid
                  (Platform.detect_platform url0) url0 st1
                  (h ++ [Request (PostTrigger url0 id)])%list) as Hp.
    destruct (poll env number clock _ _ _ _ st1 _) as [[r st'] h'].
    destruct Hp as [[Hc Ht] Hu].
    split; [now rewrite Hc|]. split; [exact Ht | exact Hu].
  - unfold bindB, liftB, axios, retB.
    destruct (raw_content env h url0 _) as [e|body].
    + split; [exact Hcalls | split; [now left | discriminate]].
    + split; [exact Hcalls | split; [now left|]]. now intros e [= <-].
Qed.

Lemma get_product_details_grows (url0 : string) (st : Stats) (h : list event) :
  let '(_, st', _) := get_product_details env number clock url0 st h in
  grows st st'.
Proof.
  pose proof (get_product_details_effect url0 st h) as H.
  destruct (get_product_details env number clock url0 st h) as [[r st'] h'].
  destruct H as (_ & [Hsame | (_ & Hnone & info & Hadd & _)] & _).
  - now apply grows_same_tracked.
  - now apply (grows_added st st' url0 info).
Qed.

End BotFacts.

Section BotLoops.

Import Net PriceBot PriceBotSpec.

Variable env : Env.
Variable number : Type.
Variable clock : nat -> string.

Local Abbreviation Stats := (PriceBot.Stats number).
Local Abbreviation tracked st := (tracked_products number st).

(** A loop whose body never throws: one result for each element, in order,
    and the effects of the steps, composed. *)
Lemma for_each_effects {A C : Type} (R : A -> C -> Prop)
  (T : nat -> Stats -> Stats -> Prop) (Pre : A -> Stats -> Prop)
  (body : A -> B number C) :
  (forall st, T 0 st st) ->
  (forall n a b c, T 1 a b -> T n b c -> T (S n) a c) ->
  (forall y a b, T 1 a b -> Pre y a -> Pre y b) ->
  (forall x st h, Pre x st ->
     exists r st' h', body x st h = (inr r, st', h') /\ R x r /\ T 1 st st') ->
  forall (xs : list A) (acc : list C) (st : Stats) (h : list event),
    Forall (fun x => Pre x st) xs ->
    exists rs st' h',
      for_each number xs body acc st h = (inr (acc ++ rs)%list, st', h')
      /\ Forall2 R xs rs
      /\ T (List.length xs) st st'.
Proof.
  intros T0 Tstep Tpre Hbody xs.
  induction xs as [|x xs IH]; intros acc st h Hpre.
  - exists [], st, h. cbn. unfold retB. rewrite app_nil_r.
    repeat split; [constructor | apply T0].
  - inversion Hpre as [|x' xs' Hx Hxs]; subst.
    destruct (Hbody x st h Hx) as (r & st1 & h1 & Hr & HR & HT).
    assert (Hpre1 : Forall (fun y => Pre y st1) xs).
    { eapply Forall_impl; [|exact Hxs]. intros y Hy. now apply (Tpre y st st1). }
    destruct (IH (Scraper.push acc r) st1 h1 Hpre1) as (rs & st2 & h2 & Hrs & HF & HT2).
    exists (r :: rs), st2, h2. split; [|split; [now constructor|]].
    + cbn [for_each]. unfold bindB. rewrite Hr, Hrs.
      unfold Scraper.push. rewrite <- app_assoc. reflexivity.
    + simpl. now apply (Tstep _ st st1 st2).
Qed.

End BotLoops.

Section BotSteps.

Import Net PriceBot PriceBotSpec.

Variable env : Env.
Variable number : Type.
Variable clock : nat -> string.

Local Abbreviation Stats := (PriceBot.Stats number).
Local Abbreviation tracked st := (tracked_products number st).

(** Writing the entry of a URL: the tracked products grow when the new
    entry keeps the first tracking time and counts no fewer updates. *)
Lemma set_tracked_grows (st st' : Stats) (k : string) (info : TrackingInfo number) :
  tracked st' = map_set k info (tracked st) ->
  (forall old, map_get k (tracked st) = Some old ->
     (Js.truthy (first_tracked number old) = true ->
      first_tracked number info = first_tracked number old)
     /\ update_count number old <= update_count number info) ->
  grows st st'.
Proof.
  intros Hset Hold.
  destruct (map_get k (tracked st)) as [old|] eqn:Hk.
  - split.
    + exists []. unfold tracked_urls. rewrite Hset, app_nil_r.
      now apply keys_set_present with (v0 := old).
    + intros k0 info0 H0. rewrite Hset.
      destruct (String.eqb_spec k0 k) as [->|Hne].
      * rewrite map_get_set_same. exists info. split; [reflexivity|].
        rewrite Hk in H0. injection H0 as <-. now apply Hold.
      * rewrite map_get_set_other by exact Hne.
        exists info0. split; [exact H0|]. split; [reflexivity | lia].
  - apply (grows_added number st st' k info Hk).
    rewrite Hset. now apply map_set_absent.
Qed.

Lemma calls_of_same (st st' : Stats) (tool : string) :
  tool_calls number st' = tool_calls number st -> calls_of st' tool = calls_of st tool.
Proof. intros H. unfold calls_of. now rewrite H. Qed.


(** A round of the loop of [compare_prices]: reading [server.tools] throws
    inside the [try], so the URL gets an error entry; nothing else
    happens. *)
Lemma bot_compare_loop_unreached (us : list string) :
  forall (acc : list ComparisonEntry) (st : Stats) (h : list event),
    for_each number us (compare_one number) acc st h
    = (inr (acc ++ map unreached_comparison us)%list, st, h).
Proof.
  induction us as [|u us IH]; intros acc st h.
  - cbn. unfold retB. now rewrite app_nil_r.
  - cbn [for_each map]. unfold bindB at 1.
    change (compare_one number u st h)
      with (@inr exn _ (unreached_comparison u), st, h).
    cbv beta iota. rewrite IH. unfold Scraper.push. now rewrite <- app_assoc.
Qed.

(** A round of the loop of [update_tracked_prices], in the same way. *)
Lemma bot_update_loop_unreached (us : list string) :
  forall (acc : list UpdateEntry) (st : Stats) (h : list event),
    for_each number us (update_one number clock) acc st h
    = (inr (acc ++ map unreached_update us)%list, st, h).
Proof.
  induction us as [|u us IH]; intros acc st h.
  - cbn. unfold retB. now rewrite app_nil_r.
  - cbn [for_each map]. unfold bindB at 1.
    change (update_one number clock u st h)
      with (@inr exn _ (unreached_update u), st, h).
    cbv beta iota. rewrite IH. unfold Scraper.push. now rewrite <- app_assoc.
Qed.

End BotSteps.

Section BotTools.

Import Net PriceBot PriceBotSpec.

Variable env : Env.
Variable number : Type.
Variable clock : nat -> string.

Local Abbreviation Stats := (PriceBot.Stats number).
Local Abbreviation tracked st := (tracked_products number st).

Lemma search_loop (query : string) (platforms : list string) (st : Stats)
  (h : list event) :
  exists rs h',
    for_each number platforms (search_one env number query) [] st h = (inr rs, st, h')
    /\ map (entry_platform) rs = platforms.
Proof.
  destruct (for_each_effects number
              (fun p0 r => entry_platform r = p0)
              (fun _ a b => b = a) (fun _ _ => True)
              (search_one env number query)
              (fun _ => eq_refl)
              (fun _ a b c (H1 : b = a) (H2 : c = b) => eq_trans H2 H1)
              (fun _ _ _ _ _ => I))
    with (xs := platforms) (acc := @nil RawSearchEntry) (st := st) (h := h)
    as (rs & st' & h' & Hrun & HF & ->).
  - intros p0 st0 h0 _.
    unfold search_one, try_catchB, bindB, retB, liftB, axios.
    destruct (raw_content env _ _ _) as [e|page];
      do 3 eexists; (split; [reflexivity|]); split; reflexivity.
  - apply Forall_forall. intros; exact I.
  - exists rs, h'. split; [exact Hrun|].
    clear Hrun. induction HF as [|p0 r ps rs' Hr HF IH]; [reflexivity|].
    cbn. now rewrite Hr, IH.
Qed.

Lemma tool_fn_counts (tool : string) (st st0 : Stats) :
  tool_calls number st0
  = map_set tool
      (match map_get tool (tool_calls number st) with Some n => n | None => 0 end + 1)
      (tool_calls number st) ->
  tracked st0 = tracked st ->
  calls_of st0 tool = calls_of st tool + 1
  /\ (forall other, other <> tool -> calls_of st0 other = calls_of st other)
  /\ grows st st0.
Proof.
  intros Hc Ht. split; [|split].
  - apply (calls_of_bumped number st st0 tool "" Hc).
  - intros other. apply (calls_of_bumped number st st0 tool other Hc).
  - now apply grows_same_tracked.
Qed.

(** The first generation's [compare_prices], given URLs, never fails and
    reports every URL, in order, as an error entry that names it: reading
    [server.tools] throws inside the [try] of each round.  So
    [get_product_details] is neither called nor counted, the provider is
    asked nothing, and the tracked products are as before; the call itself
    is counted once. *)
Theorem first_generation_compare_reports_every_url
  (platforms : list string) (query : option string) (u : string) (us : list string)
  (st : Stats) (h : list event) :
  exists out st',
    compare_prices number clock platforms query (Some (u :: us)) st h
    = (inr (Stringify out), st', h)
    /\ comparison_results out = Some (map unreached_comparison (u :: us))
    /\ comparison_type out = "url_comparison"
    /\ tracked st' = tracked st
    /\ calls_of st' "get_product_details" = calls_of st "get_product_details"
    /\ calls_of st' "compare_prices" = calls_of st "compare_prices" + 1.
Proof.
  unfold compare_prices, tool_fn.
  set (st0 := {| tool_calls := _ |}).
  destruct (tool_fn_counts "compare_prices" st st0 eq_refl eq_refl)
    as (Hc & Ho & _).
  unfold bindB at 1. unfold bindB at 1. rewrite bot_compare_loop_unreached.
  unfold retB, bindB, date_now.
  do 2 eexists. split; [reflexivity|]. cbn [comparison_results comparison_type app].
  split; [reflexivity|]. split; [reflexivity|]. split; [reflexivity|].
  set (st2 := {| tool_calls := tool_calls number st0 |}).
  split.
  - rewrite (calls_of_same number st0 st2 _ eq_refl). apply Ho. discriminate.
  - rewrite (calls_of_same number st0 st2 _ eq_refl). exact Hc.
Qed.

(** What [track_product] writes. *)
Lemma track_product_effect (name0 : option string)
  (target_price0 : option number) (url0 : string) (st : Stats) (h : list event) :
  exists out st',
    track_product number clock name0 target_price0 url0 st h
    = (inr (Stringify out), st', h)
    /\ tracked st' = map_set url0 (tracking_info number out) (tracked st)
    /\ calls_of st' "track_product" = calls_of st "track_product" + 1
    /\ total_tracked number out = List.length (tracked st')
    /\ url number (tracking_info number out) = url0
    /\ platform number (tracking_info number out) = Platform.detect_platform url0
    /\ target_price number (tracking_info number out) = target_price0
    /\ update_count number (tracking_info number out)
       = match map_get url0 (tracked st) with
         | Some old => update_count number old + 1
         | None => 1
         end
    /\ forall old, map_get url0 (tracked st) = Some old ->
                   Js.truthy (first_tracked number old) = true ->
                   first_tracked number (tracking_info number out)
                   = first_tracked number old.
Proof.
  unfold track_product, tool_fn.
  set (st0 := {| tool_calls := _ |}).
  destruct (tool_fn_counts "track_product" st st0 eq_refl eq_refl) as (Hc & _ & _).
  unfold bindB at 1. unfold get_tracked at 1.
  change (tracked st0) with (tracked st).
  assert (Hshape : forall (first : B number string) (st1 : Stats) (t : string),
             first st0 h = (inr t, st1, h) ->
             tool_calls number st1 = tool_calls number st0 ->
             tracked st1 = tracked st ->
             exists out st',
               bindB number first
                 (fun first0 =>
                    bindB number (date_now number clock)
                      (fun last =>
                         let info :=
                           {| first_tracked := first0;
                              last_updated := last;
                              latest_data := None;
                              name := match name0 with
                                      | Some n =>
                                          Js.or_else n
                                            ("Product from " ++ Platform.detect_platform url0)
                                      | None =>
                                          "Product from " ++ Platform.detect_platform url0
                                      end;
                              platform := Platform.detect_platform url0;
                              target_price := target_price0;
                              update_count :=
                                match map_get url0 (tracked st) with
                                | Some old => update_count number old + 1
                                | None => 0 + 1
                                end;
                              url := url0 |} in
                         bindB number (set_tracked number url0 info)
                           (fun _ =>
                              bindB number (get_tracked number)
                                (fun tracked' =>
                                   retB number
                                     (Stringify
                                        {| track_message := "Product added to tracking list";
                                           total_tracked := List.length tracked';
                                           tracking_info := info |}))))) st0 h
               = (inr (Stringify out), st', h)
               /\ tracked st' = map_set url0 (tracking_info number out) (tracked st)
               /\ tool_calls number st' = tool_calls number st0
               /\ total_tracked number out = List.length (tracked st')
               /\ url number (tracking_info number out) = url0
               /\ platform number (tracking_info number out)
                  = Platform.detect_platform url0
               /\ target_price number (tracking_info number out) = target_price0
               /\ update_count number (tracking_info number out)
                  = match map_get url0 (tracked st) with
                    | Some old => update_count number old + 1
                    | None => 1
                    end
               /\ first_tracked number (tracking_info number out) = t).
  { intros first st1 t Hfirst Hcalls Htr.
    unfold bindB at 1. rewrite Hfirst.
    unfold bindB, date_now, set_tracked, get_tracked, retB. cbn.
    do 2 eexists. split; [reflexivity|]. cbn. rewrite Htr.
    repeat split; try reflexivity; try exact Hcalls. }
  assert (Hfirst : exists (st1 : Stats) (t : string),
             match map_get url0 (tracked st) with
             | Some info =>
                 if Js.truthy (first_tracked number info)
                 then retB number (first_tracked number info)
                 else date_now number clock
             | None => date_now number clock
             end st0 h = (inr t, st1, h)
             /\ tool_calls number st1 = tool_calls number st0
             /\ tracked st1 = tracked st
             /\ forall old, map_get url0 (tracked st) = Some old ->
                            Js.truthy (first_tracked number old) = true ->
                            t = first_tracked number old).
  { destruct (map_get url0 (tracked st)) as [info|];
      [destruct (Js.truthy (first_tracked number info)) eqn:Ht|];
      unfold retB, date_now; do 2 eexists;
      (split; [reflexivity|]); (split; [reflexivity|]); (split; [reflexivity|]);
      intros old Hold Htruthy; congruence. }
  destruct Hfirst as (st1 & t & Hfirst & Hcalls & Htr & Hkeep).
  destruct (Hshape _ st1 t Hfirst Hcalls Htr)
    as (out & st' & Hrun & Hset & Hcalls' & Htotal & Hurl & Hplat & Htarget & Hcount & Ht).
  exists out, st'. split; [exact Hrun|]. split; [exact Hset|].
  split; [rewrite (calls_of_same number st0 st' _ Hcalls'); exact Hc|].
  split; [exact Htotal|]. split; [exact Hurl|]. split; [exact Hplat|].
  split; [exact Htarget|]. split; [exact Hcount|].
  intros old Hold Htruthy. rewrite Ht. now apply Hkeep.
Qed.

(** The first generation's [track_product] never fails and asks the
    provider nothing.  The entry it writes and reports is the entry of the
    URL afterwards: for that URL, on the detected platform, with the target
    price given (an earlier one is not kept), counting one update more than
    the entry before, or one.  No other entry changes; the URL keeps its
    place when it was tracked and goes to the end otherwise; the total
    reported is the number of tracked URLs. *)
Theorem track_product_registers (name0 : option string)
  (target_price0 : option number) (url0 : string) (st : Stats) (h : list event) :
  exists out st',
    track_product number clock name0 target_price0 url0 st h
    = (inr (Stringify out), st', h)
    /\ map_get url0 (tracked st') = Some (tracking_info number out)
    /\ (forall other, other <> url0 ->
                      map_get other (tracked st') = map_get other (tracked st))
    /\ url number (tracking_info number out) = url0
    /\ platform number (tracking_info number out) = Platform.detect_platform url0
    /\ target_price number (tracking_info number out) = target_price0
    /\ update_count number (tracking_info number out)
       = match map_get url0 (tracked st) with
         | Some old => update_count number old + 1
         | None => 1
         end
    /\ tracked_urls st'
       = match map_get url0 (tracked st) with
         | Some _ => tracked_urls st
         | None => (tracked_urls st ++ [url0])%list
         end
    /\ total_tracked number out = List.length (tracked_urls st')
    /\ calls_of st' "track_product" = calls_of st "track_product" + 1.
Proof.
  destruct (track_product_effect name0 target_price0 url0 st h)
    as (out & st' & Hrun & Hset & Hcalls & Htotal & Hurl & Hplat & Htarget & Hcount & _).
  exists out, st'. split; [exact Hrun|].
  split; [rewrite Hset; apply map_get_set_same|].
  split; [intros other Hne; rewrite Hset; now apply map_get_set_other|].
  split; [exact Hurl|]. split; [exact Hplat|]. split; [exact Htarget|].
  split; [exact Hcount|].
  assert (Hkeys : tracked_urls st'
                  = match map_get url0 (tracked st) with
                    | Some _ => tracked_urls st
                    | None => (tracked_urls st ++ [url0])%list
                    end).
  { unfold tracked_urls. rewrite Hset.
    destruct (map_get url0 (tracked st)) as [old|] eqn:Hk.
    - now apply keys_set_present with (v0 := old).
    - rewrite (map_set_absent _ _ _ Hk). unfold keys. now rewrite map_app. }
  split; [exact Hkeys|].
  split; [|exact Hcalls].
  rewrite Htotal. unfold tracked_urls, keys. now rewrite length_map.
Qed.

(** [update_tracked_prices] never fails and updates nothing.  It reports
    one entry for each URL it was to update (the URL given, or else every
    tracked URL in the order of tracking), and each is the error entry of a
    failed read of [server.tools]; [updated_products] counts them all the
    same.  [get_product_details] is neither called nor counted, the provider
    is asked nothing, and the tracked products are as before: no update
    count moves and no latest data is stored. *)
Theorem update_tracked_prices_updates_nothing (url0 : option string)
  (st : Stats) (h : list event) :
  let urls_to_update :=
    match url0 with
    | Some u => if Js.truthy u then [u] else tracked_urls st
    | None => tracked_urls st
    end in
  exists out st',
    update_tracked_prices number clock url0 st h = (inr (Stringify out), st', h)
    /\ updates out = map unreached_update urls_to_update
    /\ updated_products out = List.length urls_to_update
    /\ tracked st' = tracked st
    /\ calls_of st' "get_product_details" = calls_of st "get_product_details"
    /\ calls_of st' "update_tracked_prices" = calls_of st "update_tracked_prices" + 1.
Proof.
  intros urls_to_update.
  unfold update_tracked_prices, tool_fn.
  set (st0 := {| tool_calls := _ |}).
  destruct (tool_fn_counts "update_tracked_prices" st st0 eq_refl eq_refl)
    as (Hc & Ho & _).
  unfold bindB at 1. unfold get_tracked at 1.
  unfold bindB at 1. rewrite bot_update_loop_unreached.
  unfold retB, bindB, date_now.
  do 2 eexists. split; [reflexivity|]. cbn [updates updated_products app].
  split; [reflexivity|].
  split; [now rewrite length_map|].
  split; [reflexivity|].
  set (st2 := {| tool_calls := tool_calls number st0 |}).
  split.
  - rewrite (calls_of_same number st0 st2 _ eq_refl). apply Ho. discriminate.
  - rewrite (calls_of_same number st0 st2 _ eq_refl). exact Hc.
Qed.

Lemma first_compare_shape (platforms : list string) (query : option string)
  (u : string) (us : list string) (st : Stats) (h : list event) :
  exists st' r,
    compare_prices number clock platforms query (Some (u :: us)) st h = (r, st', h)
    /\ tracked st' = tracked st.
Proof.
  unfold compare_prices, tool_fn.
  unfold bindB at 1. unfold bindB at 1. rewrite bot_compare_loop_unreached.
  unfold retB, bindB, date_now. do 2 eexists. split; reflexivity.
Qed.

(** No tool of the first generation removes a tracked URL, moves it,
    changes the first tracking time it has, or lowers its count of updates:
    whatever the arguments and the provider's answers, the tracked products
    only grow. *)
Theorem tracked_products_only_grow (st : Stats) (h : list event) :
  (forall u, grows st (state_after (get_product_details env number clock u st h)))
  /\ (forall platforms query,
        grows st (state_after (search_products env number platforms query st h)))
  /\ (forall platforms query urls,
        grows st (state_after
                    (compare_prices number clock platforms query urls st h)))
  /\ (forall name0 target_price0 u,
        grows st (state_after (track_product number clock name0 target_price0 u st h)))
  /\ grows st (state_after (get_tracked_products number clock st h))
  /\ (forall u, grows st (state_after (update_tracked_prices number clock u st h))).
Proof.
  split; [|split; [|split; [|split; [|split]]]].
  - intros u. pose proof (get_product_details_grows env number clock u st h) as Hg.
    destruct (get_product_details env number clock u st h) as [[r st'] h'].
    exact Hg.
  - intros platforms query. unfold search_products, tool_fn.
    set (st1 := {| tool_calls := _ |}).
    destruct (search_loop query platforms st1 h) as (rs & h1 & Hrun & _).
    unfold bindB. rewrite Hrun. unfold retB, state_after. cbn [fst snd].
    now apply grows_same_tracked.
  - intros platforms query urls.
    destruct urls as [[|u us]|].
    2: { destruct (first_compare_shape platforms query u us st h)
           as (st' & r & Hrun & Htr).
         rewrite Hrun. unfold state_after. cbn [fst snd].
         now apply grows_same_tracked. }
    all: unfold compare_prices, tool_fn, bindB, throwB, state_after;
      (destruct query as [q|]; [destruct (Js.truthy q)|]);
      cbn [fst snd]; now apply grows_same_tracked.
  - intros name0 target_price0 u.
    destruct (track_product_effect name0 target_price0 u st h)
      as (out & st' & Hrun & Hset & _ & _ & _ & _ & _ & Hcount & Hkeep).
    rewrite Hrun. unfold state_after. cbn [fst snd].
    apply (set_tracked_grows number st st' u (tracking_info number out) Hset).
    intros old Hold. split; [now apply Hkeep|].
    rewrite Hcount, Hold. lia.
  - unfold get_tracked_products, tool_fn, bindB, get_tracked, date_now, retB, state_after.
    cbn [fst snd]. now apply grows_same_tracked.
  - intros u. unfold update_tracked_prices, tool_fn.
    unfold bindB at 1. unfold get_tracked at 1.
    unfold bindB at 1. rewrite bot_update_loop_unreached.
    unfold retB, bindB, date_now, state_after. cbn [fst snd].
    now apply grows_same_tracked.
Qed.

End BotTools.

(** The fixture run: the mug stays as it was tracked, whatever the provider
    would have answered. *)
Example update_of_the_mug :
  PriceBot.update_tracked_prices nat PriceBotFixtures.clock
    (Some ServerFixtures.amazon_url) PriceBotFixtures.tracking_mug []
  = (inr (Stringify
            {| PriceBot.update_timestamp := "2025-01-01T00:00:00.000Z";
               PriceBot.updated_products := 1;
               PriceBot.updates :=
                 [ {| PriceBot.update_data := None;
                      PriceBot.update_error :=
                        Some "Cannot read properties of undefined (reading 'get_product_details')";
                      PriceBot.update_status := "error";
                      PriceBot.update_url := ServerFixtures.amazon_url |} ] |}),
     {| PriceBot.tool_calls := [("update_tracked_prices", 1)];
        PriceBot.tracked_products :=
          [(ServerFixtures.amazon_url, PriceBotFixtures.mug)];
        PriceBot.clock_reads := 1 |},
     []).
Proof. vm_compute. reflexivity. Qed.

Section BotSearch.

Import Net PriceBot PriceBotSpec.

Variable env : Env.
Variable number : Type.

Lemma raw_search_loop (query : string) (platforms : list string) :
  forall (acc : list RawSearchEntry) (st : Stats number) (h : list event),
  exists rs,
    for_each number platforms (search_one env number query) acc st h
    = (inr (acc ++ rs)%list, st, (h ++ map (raw_search_request env query) platforms)%list)
    /\ Forall2 (raw_entry_of query) platforms rs.
Proof.
  induction platforms as [|p0 ps IH]; intros acc st h.
  - exists []. cbn. unfold retB. rewrite !app_nil_r. split; [reflexivity | constructor].
  - cbn [for_each map]. unfold bindB at 1.
    unfold search_one at 1, try_catchB, bindB, liftB, axios, retB.
    destruct (raw_content env _ _ _) as [e|page].
    + destruct (IH (Scraper.push acc
                      {| entry_data := None;
                         entry_error := Some (message e);
                         entry_platform := p0;
                         entry_search_url := "" |}) st
                  (h ++ [raw_search_request env query p0])%list) as (rs & Hrs & HF).
      eexists (_ :: rs). split.
      * unfold raw_search_request in Hrs at 1. rewrite Hrs.
        unfold Scraper.push. rewrite <- !app_assoc. reflexivity.
      * constructor; [|exact HF]. split; [reflexivity|].
        right. exists (message e). repeat split.
    + destruct (IH (Scraper.push acc
                      {| entry_data := Some page;
                         entry_error := None;
                         entry_platform := p0;
                         entry_search_url := search_url_for p0 query |}) st
                  (h ++ [raw_search_request env query p0])%list) as (rs & Hrs & HF).
      eexists (_ :: rs). split.
      * unfold raw_search_request in Hrs at 1. rewrite Hrs.
        unfold Scraper.push. rewrite <- !app_assoc. reflexivity.
      * constructor; [|exact HF]. split; [reflexivity|].
        left. exists page. repeat split.
Qed.

(** The first generation's [search_products] never fails.  It asks for one
    page for each platform, as markdown, in the order given, whether the
    earlier requests failed or not, and reports one entry for each platform
    in that order: the page as it came with its search URL, or the message
    of the error.  The call is counted and the tracked products are left
    as they were. *)
Theorem first_generation_search_reports_every_platform
  (platforms : list string) (query : string) (st : Stats number) (h : list event) :
  exists out st',
    search_products env number platforms query st h
    = (inr (Stringify out), st',
       (h ++ map (raw_search_request env query) platforms)%list)
    /\ platforms_searched out = platforms
    /\ search_query out = query
    /\ Forall2 (raw_entry_of query) platforms (search_results out)
    /\ tracked_products number st' = tracked_products number st
    /\ calls_of st' "search_products" = calls_of st "search_products" + 1
    /\ forall other, other <> "search_products" -> calls_of st' other = calls_of st other.
Proof.
  unfold search_products, tool_fn.
  set (st0 := {| tool_calls := _ |}).
  destruct (raw_search_loop query platforms [] st0 h) as (rs & Hrs & HF).
  unfold bindB. rewrite Hrs. unfold retB.
  do 2 eexists. split; [reflexivity|]. cbn [platforms_searched search_query search_results].
  split; [reflexivity|]. split; [reflexivity|]. split; [exact HF|].
  split; [reflexivity|].
  split.
  - apply (calls_of_bumped number st st0 "search_products" "" eq_refl).
  - intros other. apply (calls_of_bumped number st st0 "search_products" other eq_refl).
Qed.

End BotSearch.
